(** * Security report generator (scripts/generate-security-report.py)

    A shallow embedding of [SecurityReportGenerator]: the three scanner
    loaders, the recommender, the HTML renderer and [main], over parsed JSON
    values, with Python's exceptions and the in-place mutation of
    [self.report_data] made explicit. *)

From Stdlib Require Import List String Ascii Bool Arith ZArith Lia DecimalString.
Import ListNotations.
Open Scope list_scope.
Open Scope string_scope.

Set Warnings "-register-all".

(* ================================================================== *)
(** ** Text *)

Module Text.

(** The double quote character; the template's attribute values use it. *)
Definition dq : string := String (ascii_of_nat 34) EmptyString.

(** A text is held as the bytes of its UTF-8 encoding.

    [str.lower()] on the ASCII range; bytes of other code points are kept,
    so [lower] is [str.lower()] on ASCII text only: what is stated of the
    lower-cased text of a scanner is stated of ASCII text. *)
Definition lower_ascii (c : ascii) : ascii :=
  let n := nat_of_ascii c in
  if andb (65 <=? n)%nat (n <=? 90)%nat then ascii_of_nat (n + 32) else c.

Fixpoint lower (s : string) : string :=
  match s with
  | EmptyString => EmptyString
  | String c r => String (lower_ascii c) (lower r)
  end.

(** [s.replace(a, b)] for one-character [a] and [b]. *)
Fixpoint replace_char (a b : ascii) (s : string) : string :=
  match s with
  | EmptyString => EmptyString
  | String c r => String (if Ascii.eqb c a then b else c) (replace_char a b r)
  end.

(** [s.startswith(p)]. *)
Fixpoint starts_with (p s : string) : bool :=
  match p, s with
  | EmptyString, _ => true
  | String _ _, EmptyString => false
  | String a p', String b s' => andb (Ascii.eqb a b) (starts_with p' s')
  end.

(** [sub in s] for two strings. *)
Fixpoint contains (sub s : string) : bool :=
  orb (starts_with sub s)
      (match s with
       | EmptyString => false
       | String _ r => contains sub r
       end).

(** The Prop-level reading of [sub in s]. *)
Definition substring_of (sub s : string) : Prop :=
  exists pre post, s = pre ++ sub ++ post.

(** [s.split('.')]: never empty. *)
Fixpoint split_dot (s : string) : list string :=
  match s with
  | EmptyString => [EmptyString]
  | String c r =>
      match split_dot r with
      | [] => [String c EmptyString]
      | h :: t =>
          if Ascii.eqb c "." then EmptyString :: h :: t else String c h :: t
      end
  end.

(** [s.split('.')[-1]]. *)
Definition last_segment (s : string) : string := last (split_dot s) EmptyString.

(** A UTF-8 continuation byte, 10xxxxxx. *)
Definition is_continuation (c : ascii) : bool :=
  let n := nat_of_ascii c in andb (128 <=? n)%nat (n <? 192)%nat.

(** The code points of a text held as UTF-8, each as its own string. *)
Fixpoint code_points_aux (s : string) : string * list string :=
  match s with
  | EmptyString => (EmptyString, [])
  | String c r =>
      let '(pending, done) := code_points_aux r in
      if is_continuation c then (String c pending, done)
      else (EmptyString, String c pending :: done)
  end.

Definition code_points (s : string) : list string := snd (code_points_aux s).

Fixpoint join (sep : string) (l : list string) : string :=
  match l with
  | [] => EmptyString
  | [x] => x
  | x :: r => x ++ sep ++ join sep r
  end.

Definition concat_all (l : list string) : string := fold_right append EmptyString l.

(** Decimal text of a natural number and of an integer, as [str(n)]. *)
Definition nat_str (n : nat) : string := NilEmpty.string_of_uint (Nat.to_uint n).

Definition int_str (z : Z) : string :=
  match z with
  | Z0 => "0"
  | Zpos p => NilEmpty.string_of_uint (Pos.to_uint p)
  | Zneg p => "-" ++ NilEmpty.string_of_uint (Pos.to_uint p)
  end.

Definition hex_digit (n : nat) : ascii :=
  if (n <? 10)%nat then ascii_of_nat (48 + n) else ascii_of_nat (87 + n).

(** One character of [repr(s)] for a string quoted with [q]. *)
Definition repr_char (q : ascii) (c : ascii) : string :=
  let n := nat_of_ascii c in
  if Ascii.eqb c "\" then "\\"
  else if Ascii.eqb c q then String "\" (String q EmptyString)
  else if (n =? 10)%nat then "\n"
  else if (n =? 13)%nat then "\r"
  else if (n =? 9)%nat then "\t"
  else if orb (n <? 32)%nat (n =? 127)%nat
       then String "\" (String "x" (String (hex_digit (n / 16))
                                     (String (hex_digit (n mod 16)) EmptyString)))
  else String c EmptyString.

Fixpoint repr_body (q : ascii) (s : string) : string :=
  match s with
  | EmptyString => EmptyString
  | String c r => repr_char q c ++ repr_body q r
  end.

(** [repr(s)] of a Python str: single quotes unless the text has a single
    quote and no double quote.  Exact on ASCII; bytes of other code points are
    kept as they are, as Python does for every printable one and does not
    for the others (U+00A0, a lone surrogate): what is stated of the [str]
    of a scanner's value is stated of a text or an integer, never of a list
    or dict. *)
Definition repr_str (s : string) : string :=
  let q : ascii :=
    if andb (contains "'" s) (negb (contains dq s)) then ascii_of_nat 34 else "'"%char in
  String q (repr_body q s ++ String q EmptyString).

(** Every byte below 128. *)
Fixpoint is_ascii (s : string) : bool :=
  match s with
  | EmptyString => true
  | String c r => andb (nat_of_ascii c <? 128)%nat (is_ascii r)
  end.


(** The first two bytes of a code point U+D800..U+DFFF held as three bytes,
    ED A0..BF xx: what [json.load] leaves for an escape of half a
    surrogate pair. *)
Definition surrogate_start (c d : ascii) : bool :=
  andb (nat_of_ascii c =? 237)%nat
       (andb (160 <=? nat_of_ascii d)%nat (nat_of_ascii d <? 192)%nat).

(** The text holds a lone surrogate: [s.encode('utf-8')] raises
    UnicodeEncodeError. *)
Fixpoint has_surrogate (s : string) : bool :=
  match s with
  | String c (String d _ as r) => orb (surrogate_start c d) (has_surrogate r)
  | _ => false
  end.

End Text.

(* ================================================================== *)
(** ** Python values, as [json.load] returns them *)

Module Py.

Import Text.

(** A float is observed by this program only through [bool(x)] and [str(x)];
    it is carried by those two.  A text is held as the bytes of its UTF-8
    encoding, and half a surrogate pair, which [json.load] accepts as an
    escape, as the three bytes ED A0..BF xx. *)
Inductive pyval : Type :=
| PNone
| PBool (b : bool)
| PInt (z : Z)
| PFloat (nonzero : bool) (repr : string)
| PStr (s : string)
| PList (l : list pyval)
| PDict (kvs : list (string * pyval)).

(** The exception classes this program can meet. *)
Inductive exn : Type :=
| FileNotFoundError
| JSONDecodeError
| KeyError
| TypeError
| AttributeError
| IndexError
| UndefinedError
| OSError
| UnicodeDecodeError
| ValueError
| RecursionError
| UnicodeEncodeError.

(** The value of an expression, or the exception it raises. *)
Inductive res (A : Type) : Type :=
| Ok (a : A)
| Raise (e : exn).

Arguments Ok {A} a.
Arguments Raise {A} e.

Definition rbind {A B} (r : res A) (k : A -> res B) : res B :=
  match r with
  | Ok a => k a
  | Raise e => Raise e
  end.

(** Lookup in a dict held in insertion order; its keys are distinct, as
    [json.load] leaves them. *)
Fixpoint lookup {V} (k : string) (kvs : list (string * V)) : option V :=
  match kvs with
  | [] => None
  | (k', v) :: r => if String.eqb k k' then Some v else lookup k r
  end.

(** [d.get(k, default)]. *)
Definition get (d : pyval) (k : string) (default : pyval) : res pyval :=
  match d with
  | PDict kvs =>
      Ok (match lookup k kvs with Some v => v | None => default end)
  | _ => Raise AttributeError
  end.

(** [v[k]] for a string key [k]. *)
Definition getitem (v : pyval) (k : string) : res pyval :=
  match v with
  | PDict kvs =>
      match lookup k kvs with Some x => Ok x | None => Raise KeyError end
  | _ => Raise TypeError
  end.

(** [v[0]]. *)
Definition index0 (v : pyval) : res pyval :=
  match v with
  | PList (x :: _) => Ok x
  | PList [] => Raise IndexError
  | PStr s =>
      match code_points s with
      | c :: _ => Ok (PStr c)
      | [] => Raise IndexError
      end
  | PDict _ => Raise KeyError
  | _ => Raise TypeError
  end.

(** [len(v)]. *)
Definition len (v : pyval) : res nat :=
  match v with
  | PList l => Ok (List.length l)
  | PDict kvs => Ok (List.length kvs)
  | PStr s => Ok (List.length (code_points s))
  | _ => Raise TypeError
  end.

(** The items a [for] loop over [v] visits. *)
Definition iter (v : pyval) : res (list pyval) :=
  match v with
  | PList l => Ok l
  | PDict kvs => Ok (map (fun kv => PStr (fst kv)) kvs)
  | PStr s => Ok (map PStr (code_points s))
  | _ => Raise TypeError
  end.

(** [bool(v)]. *)
Definition truthy (v : pyval) : bool :=
  match v with
  | PNone => false
  | PBool b => b
  | PInt z => negb (Z.eqb z 0)
  | PFloat nz _ => nz
  | PStr s => negb (String.eqb s EmptyString)
  | PList l => match l with [] => false | _ => true end
  | PDict kvs => match kvs with [] => false | _ => true end
  end.

(** [v == 'literal']. *)
Definition eq_str (v : pyval) (s : string) : bool :=
  match v with
  | PStr t => String.eqb t s
  | _ => false
  end.

(** [v in ['HIGH', 'CRITICAL']]. *)
Definition in_high_critical (v : pyval) : bool :=
  orb (eq_str v "HIGH") (eq_str v "CRITICAL").

(** [repr(v)] and [str(v)]. *)
Fixpoint repr (v : pyval) : string :=
  match v with
  | PNone => "None"
  | PBool true => "True"
  | PBool false => "False"
  | PInt z => int_str z
  | PFloat _ r => r
  | PStr s => repr_str s
  | PList l => "[" ++ join ", " (map repr l) ++ "]"
  | PDict kvs =>
      "{" ++ join ", " (map (fun kv => repr_str (fst kv) ++ ": " ++ repr (snd kv)) kvs)
          ++ "}"
  end.

Definition str (v : pyval) : string :=
  match v with
  | PStr s => s
  | _ => repr v
  end.

End Py.

(* ================================================================== *)
(** ** The generator object and the process it runs in *)

Module Gen.

Import Text Py.

(** Values of [report_data['risk_level']], ordered LOW < MEDIUM < HIGH < CRITICAL. *)
Inductive risk : Type := LOW | MEDIUM | HIGH | CRITICAL.

(** Values of [report_data['compliance_status']]. *)
Inductive compliance : Type := COMPLIANT | PARTIALLY_COMPLIANT | NON_COMPLIANT.

Definition risk_str (r : risk) : string :=
  match r with
  | LOW => "LOW"
  | MEDIUM => "MEDIUM"
  | HIGH => "HIGH"
  | CRITICAL => "CRITICAL"
  end.

Definition compliance_str (c : compliance) : string :=
  match c with
  | COMPLIANT => "COMPLIANT"
  | PARTIALLY_COMPLIANT => "PARTIALLY COMPLIANT"
  | NON_COMPLIANT => "NON-COMPLIANT"
  end.

Definition risk_rank (r : risk) : nat :=
  match r with LOW => 0 | MEDIUM => 1 | HIGH => 2 | CRITICAL => 3 end.

Definition risk_le (a b : risk) : Prop := risk_rank a <= risk_rank b.

(** One entry of [security_issues].  Fields copied from scanner output hold
    whatever JSON value the scanner wrote. *)
Record issue : Type := {
  type : string;
  severity : pyval;
  message : pyval;
  file : pyval;
  line : pyval;
  rule_id : pyval;
  business_impact : string;
  remediation : string
}.

(** [self.report_data]. *)
Record report_data : Type := {
  scan_date : string;
  project_name : string;
  compliance_framework : string;
  total_files_scanned : nat;
  security_issues : list issue;
  compliance_status : compliance;
  risk_level : risk;
  recommendations : list string
}.

(** [__init__]; the timestamp is the caller's clock. *)
Definition init (now : string) : report_data := {|
  scan_date := now;
  project_name := "GDPR-Compliant DevSecOps Pipeline";
  compliance_framework := "UK GDPR + DevSecOps Best Practices";
  total_files_scanned := 0;
  security_issues := [];
  compliance_status := COMPLIANT;
  risk_level := LOW;
  recommendations := []
|}.

Definition set_total_files_scanned (n : nat) (d : report_data) : report_data := {|
  scan_date := scan_date d;
  project_name := project_name d;
  compliance_framework := compliance_framework d;
  total_files_scanned := n;
  security_issues := security_issues d;
  compliance_status := compliance_status d;
  risk_level := risk_level d;
  recommendations := recommendations d
|}.

Definition set_security_issues (l : list issue) (d : report_data) : report_data := {|
  scan_date := scan_date d;
  project_name := project_name d;
  compliance_framework := compliance_framework d;
  total_files_scanned := total_files_scanned d;
  security_issues := l;
  compliance_status := compliance_status d;
  risk_level := risk_level d;
  recommendations := recommendations d
|}.

Definition set_compliance_status (c : compliance) (d : report_data) : report_data := {|
  scan_date := scan_date d;
  project_name := project_name d;
  compliance_framework := compliance_framework d;
  total_files_scanned := total_files_scanned d;
  security_issues := security_issues d;
  compliance_status := c;
  risk_level := risk_level d;
  recommendations := recommendations d
|}.

Definition set_risk_level (r : risk) (d : report_data) : report_data := {|
  scan_date := scan_date d;
  project_name := project_name d;
  compliance_framework := compliance_framework d;
  total_files_scanned := total_files_scanned d;
  security_issues := security_issues d;
  compliance_status := compliance_status d;
  risk_level := r;
  recommendations := recommendations d
|}.

Definition set_recommendations (l : list string) (d : report_data) : report_data := {|
  scan_date := scan_date d;
  project_name := project_name d;
  compliance_framework := compliance_framework d;
  total_files_scanned := total_files_scanned d;
  security_issues := security_issues d;
  compliance_status := compliance_status d;
  risk_level := risk_level d;
  recommendations := l
|}.

(** [security_issues.append(i)]. *)
Definition append_issue (i : issue) (d : report_data) : report_data :=
  set_security_issues (security_issues d ++ [i])%list d.

(** [recommendations.extend(l)]. *)
Definition extend_recommendations (l : list string) (d : report_data) : report_data :=
  set_recommendations (recommendations d ++ l)%list d.

(** What else stops [open] or [json.load]: a path that cannot be opened (a
    directory, no permission), bytes that are not text in the encoding of
    the locale, an integer of more digits than [int] converts, nesting
    deeper than the interpreter's stack. *)
Inductive read_error : Type :=
| Unopenable
| Undecodable
| HugeInteger
| TooDeep.

Definition read_error_exn (r : read_error) : exn :=
  match r with
  | Unopenable => OSError
  | Undecodable => UnicodeDecodeError
  | HugeInteger => ValueError
  | TooDeep => RecursionError
  end.

(** What [open] and [json.load] find at a path: no file
    (FileNotFoundError), a text that is not JSON (JSONDecodeError), another
    failure, or a parsed value. *)
Inductive file_input : Type :=
| Absent
| Malformed
| Unread (r : read_error)
| Json (v : pyval).

(** The running process: the input files, the generator object, the lines
    printed so far and the files written so far. *)
Record process : Type := {
  files : string -> file_input;
  self : report_data;
  stdout : list string;
  written : list (string * string)
}.

(** A statement: it may change the process, and ends normally or raises. *)
Definition M (A : Type) : Type := process -> res A * process.

Definition ret {A} (a : A) : M A := fun p => (Ok a, p).

Definition bind {A B} (m : M A) (k : A -> M B) : M B :=
  fun p =>
    match m p with
    | (Ok a, p') => k a p'
    | (Raise e, p') => (Raise e, p')
    end.

(** An expression evaluated inside a statement. *)
Definition lift {A} (r : res A) : M A := fun p => (r, p).

Definition read : M report_data := fun p => (Ok (self p), p).

Definition update (f : report_data -> report_data) : M unit :=
  fun p =>
    (Ok tt, {| files := files p; self := f (self p);
               stdout := stdout p; written := written p |}).

Definition print (text : string) : M unit :=
  fun p =>
    (Ok tt, {| files := files p; self := self p;
               stdout := (stdout p ++ [text])%list; written := written p |}).

(** [with open(path, 'w', encoding='utf-8') as f: f.write(content)]: the
    file is created or truncated, then the text is encoded and written.  A
    lone surrogate cannot be encoded: UnicodeEncodeError, and the file
    stays empty. *)
Definition write_file (path content : string) : M unit :=
  fun p =>
    if has_surrogate content then
      (Raise UnicodeEncodeError,
       {| files := files p; self := self p;
          stdout := stdout p;
          written := (written p ++ [(path, EmptyString)])%list |})
    else
      (Ok tt, {| files := files p; self := self p;
                 stdout := stdout p;
                 written := (written p ++ [(path, content)])%list |}).

(** [with open(filepath) as f: data = json.load(f)]. *)
Definition open_json (filepath : string) : M pyval :=
  fun p =>
    match files p filepath with
    | Absent => (Raise FileNotFoundError, p)
    | Malformed => (Raise JSONDecodeError, p)
    | Unread r => (Raise (read_error_exn r), p)
    | Json v => (Ok v, p)
    end.

(** [try: body except ...]: [handler] gives the clause that catches [e], if
    any.  What the body did before raising stays done. *)
Definition try_except (body : M unit) (handler : exn -> option (M unit)) : M unit :=
  fun p =>
    match body p with
    | (Ok a, p') => (Ok a, p')
    | (Raise e, p') =>
        match handler e with
        | Some h => h p'
        | None => (Raise e, p')
        end
    end.

Declare Scope stmt_scope.
Delimit Scope stmt_scope with stmt.

Notation "x <- m ;; k" := (bind m (fun x => k))
  (at level 100, m at next level, right associativity) : stmt_scope.
Notation "m ;; k" := (bind m (fun _ => k))
  (at level 100, right associativity) : stmt_scope.

Declare Scope res_scope.
Delimit Scope res_scope with res.

Notation "x <- r ;; k" := (rbind r (fun x => k))
  (at level 100, r at next level, right associativity) : res_scope.

(** [for x in l: body]. *)
Fixpoint for_each {A} (l : list A) (body : A -> M unit) : M unit :=
  match l with
  | [] => ret tt
  | x :: r => bind (body x) (fun _ => for_each r body)
  end.

(** *** Lookup tables *)

Definition impact_map : list (string * string) := [
  ("hardcoded-personal-data",
   "GDPR Article 5 violation - ICO fine risk up to £20M, reputational damage");
  ("detect-pii-in-logs",
   "Data exposure in logs - breach notification requirement, compliance violation");
  ("unencrypted-pii-storage",
   "Article 32 violation - data security inadequacy, audit failure risk");
  ("missing-consent-check",
   "Article 6 violation - unlawful processing, subject access request complications");
  ("missing-audit-log",
   "Article 30 violation - inability to demonstrate compliance during audit")
].

Definition remediation_map : list (string * string) := [
  ("hardcoded-personal-data",
   "Remove hardcoded PII, use environment variables or secure configuration");
  ("detect-pii-in-logs",
   "Implement PII filtering in logging, use structured logging with field redaction");
  ("unencrypted-pii-storage",
   "Implement field-level encryption for sensitive data in database");
  ("missing-consent-check",
   "Add consent validation before data processing operations");
  ("missing-audit-log",
   "Implement comprehensive audit logging for all data operations")
].

(** [table.get(rule_id.split('.')[-1], default)]; only a str has [split]. *)
Definition table_get (table : list (string * string)) (rule_id : pyval)
    (default : string) : res string :=
  match rule_id with
  | PStr s =>
      Ok (match lookup (last_segment s) table with
          | Some v => v
          | None => default
          end)
  | _ => Raise AttributeError
  end.

Definition _get_business_impact (rule_id : pyval) : res string :=
  table_get impact_map rule_id "Potential compliance and security risk".

Definition _get_remediation_advice (rule_id : pyval) : res string :=
  table_get remediation_map rule_id
    "Review security best practices and implement appropriate controls".

(** *** Static-analysis loader *)

(** The dict literal of [load_semgrep_results], its entries evaluated in order. *)
Definition semgrep_issue (result : pyval) : res issue :=
  (extra <- getitem result "extra" ;;
   sev <- getitem extra "severity" ;;
   extra' <- getitem result "extra" ;;
   msg <- getitem extra' "message" ;;
   path <- getitem result "path" ;;
   start <- getitem result "start" ;;
   ln <- getitem start "line" ;;
   cid <- getitem result "check_id" ;;
   cid1 <- getitem result "check_id" ;;
   impact <- _get_business_impact cid1 ;;
   cid2 <- getitem result "check_id" ;;
   advice <- _get_remediation_advice cid2 ;;
   Ok {| type := "GDPR Compliance Violation";
         severity := sev;
         message := msg;
         file := path;
         line := ln;
         rule_id := cid;
         business_impact := impact;
         remediation := advice |})%res.

(** [any(r['extra']['severity'] == 'ERROR' for r in results)]. *)
Fixpoint any_error (results : list pyval) : res bool :=
  match results with
  | [] => Ok false
  | r :: rest =>
      (extra <- getitem r "extra" ;;
       sev <- getitem extra "severity" ;;
       if eq_str sev "ERROR" then Ok true else any_error rest)%res
  end.

(** One turn of the loop over [results]. *)
Definition semgrep_step (result : pyval) : M unit :=
  (i <- lift (semgrep_issue result) ;;
   update (append_issue i))%stmt.

(** The [except] clauses of [load_semgrep_results]. *)
Definition semgrep_except (filepath : string) (e : exn) : option (M unit) :=
  match e with
  | FileNotFoundError =>
      Some (print ("Semgrep results file not found: " ++ filepath))
  | JSONDecodeError =>
      Some (print ("Invalid JSON in Semgrep results: " ++ filepath))
  | _ => None
  end.

Definition load_semgrep_results (filepath : string) : M unit :=
  try_except
    (data <- open_json filepath ;;
     paths <- lift (get data "paths" (PDict [])) ;;
     scanned <- lift (get paths "scanned" (PList [])) ;;
     n <- lift (len scanned) ;;
     update (set_total_files_scanned n) ;;
     results <- lift (get data "results" (PList [])) ;;
     items <- lift (iter results) ;;
     for_each items semgrep_step ;;
     results' <- lift (get data "results" (PList [])) ;;
     count <- lift (len results') ;;
     if (count =? 0)%nat then
       update (set_risk_level LOW) ;;
       update (set_compliance_status COMPLIANT)
     else
       results'' <- lift (get data "results" (PList [])) ;;
       items' <- lift (iter results'') ;;
       found <- lift (any_error items') ;;
       if found then
         update (set_risk_level HIGH) ;;
         update (set_compliance_status NON_COMPLIANT)
       else
         update (set_risk_level MEDIUM) ;;
         update (set_compliance_status PARTIALLY_COMPLIANT))%stmt
    (semgrep_except filepath).

(** *** Secret-detection loader *)

Definition gitleaks_issue (finding : pyval) : res issue :=
  (description <- get finding "Description" (PStr "secret") ;;
   path <- get finding "File" (PStr "Unknown") ;;
   ln <- get finding "StartLine" (PInt 0) ;;
   rule <- get finding "RuleID" (PStr "secret-detection") ;;
   Ok {| type := "Secret/PII Exposure";
         severity := PStr "HIGH";
         message := PStr ("Potential " ++ str description ++ " detected");
         file := path;
         line := ln;
         rule_id := rule;
         business_impact := "Data breach risk, ICO fine exposure (up to £20M)";
         remediation :=
           "Remove secret from code, rotate credentials, implement secrets management" |})%res.

(** One turn of the loop over the findings. *)
Definition gitleaks_step (finding : pyval) : M unit :=
  (i <- lift (gitleaks_issue finding) ;;
   update (append_issue i) ;;
   update (set_risk_level CRITICAL) ;;
   update (set_compliance_status NON_COMPLIANT))%stmt.

(** The [except] clauses of [load_gitleaks_results]. *)
Definition gitleaks_except (filepath : string) (e : exn) : option (M unit) :=
  match e with
  | FileNotFoundError =>
      Some (print ("GitLeaks results file not found: " ++ filepath))
  | JSONDecodeError | KeyError =>
      Some (print ("Error parsing GitLeaks results: " ++ filepath))
  | _ => None
  end.

Definition load_gitleaks_results (filepath : string) : M unit :=
  try_except
    (data <- open_json filepath ;;
     items <- lift (iter data) ;;
     for_each items gitleaks_step)%stmt
    (gitleaks_except filepath).

(** *** Vulnerability loader *)

(** [match.get('vulnerability', {}).get('severity', 'UNKNOWN')]. *)
Definition match_severity (m : pyval) : res pyval :=
  (v <- get m "vulnerability" (PDict []) ;;
   get v "severity" (PStr "UNKNOWN"))%res.

(** The version named by the remediation text: the conditional expression
    tests [fix] first and only then indexes its versions. *)
Definition fix_version (m : pyval) : res pyval :=
  (v <- get m "vulnerability" (PDict []) ;;
   fix_ <- get v "fix" PNone ;;
   if truthy fix_ then
     v' <- get m "vulnerability" (PDict []) ;;
     fix' <- get v' "fix" (PDict []) ;;
     versions <- get fix' "versions" (PList [PStr "latest"]) ;;
     index0 versions
   else Ok (PStr "latest"))%res.

Definition vulnerability_issue (m severity : pyval) : res issue :=
  (artifact <- get m "artifact" (PDict []) ;;
   name <- get artifact "name" (PStr "Unknown") ;;
   v <- get m "vulnerability" (PDict []) ;;
   id <- get v "id" (PStr "vuln-scan") ;;
   version <- fix_version m ;;
   Ok {| type := "Dependency Vulnerability";
         severity := severity;
         message := PStr ("Vulnerable dependency: " ++ str name);
         file := PStr "package.json";
         line := PInt 0;
         rule_id := id;
         business_impact := "Supply chain security risk, potential data exposure";
         remediation := "Update to version " ++ str version |})%res.

(** One turn of the loop over [matches]. *)
Definition vulnerability_step (m : pyval) : M unit :=
  (severity <- lift (match_severity m) ;;
   if in_high_critical severity then
     i <- lift (vulnerability_issue m severity) ;;
     update (append_issue i)
   else ret tt)%stmt.

(** The [except] clauses of [load_vulnerability_scan]. *)
Definition vulnerability_except (filepath : string) (e : exn) : option (M unit) :=
  match e with
  | FileNotFoundError =>
      Some (print ("Vulnerability scan results not found: " ++ filepath))
  | JSONDecodeError | KeyError =>
      Some (print ("Error parsing vulnerability results: " ++ filepath))
  | _ => None
  end.

Definition load_vulnerability_scan (filepath : string) : M unit :=
  try_except
    (data <- open_json filepath ;;
     matches <- lift (get data "matches" (PList [])) ;;
     items <- lift (iter matches) ;;
     for_each items vulnerability_step)%stmt
    (vulnerability_except filepath).

(** *** Recommender *)

Definition default_recommendations : list string := [
  "Continue current security practices";
  "Consider implementing additional monitoring for runtime security";
  "Schedule quarterly security reviews to maintain compliance posture"
].

Definition high_severity_recommendations (high_severity_count : nat) : list string := [
  "IMMEDIATE ACTION: Address " ++ nat_str high_severity_count
     ++ " high/critical severity issues";
  "Implement mandatory security training for development team";
  "Review and strengthen code review processes"
].

Definition gdpr_recommendations : list string := [
  "Schedule legal review of data processing practices";
  "Conduct GDPR compliance training for technical teams";
  "Implement Data Protection Impact Assessment (DPIA) process"
].

(** [len([i for i in issues if i['severity'] in ['HIGH', 'CRITICAL']])]. *)
Definition high_severity_count (issues : list issue) : nat :=
  List.length (filter (fun i => in_high_critical (severity i)) issues).

(** [any('GDPR' in issue['business_impact'] for issue in issues)]. *)
Definition any_gdpr (issues : list issue) : bool :=
  existsb (fun i => contains "GDPR" (business_impact i)) issues.

Definition generate_recommendations : M unit :=
  (d <- read ;;
   match security_issues d with
   | [] => update (set_recommendations default_recommendations)
   | _ :: _ =>
       let n := high_severity_count (security_issues d) in
       (if (0 <? n)%nat
        then update (extend_recommendations (high_severity_recommendations n))
        else ret tt) ;;
       d' <- read ;;
       if any_gdpr (security_issues d')
       then update (extend_recommendations gdpr_recommendations)
       else ret tt
   end)%stmt.

End Gen.

(* ================================================================== *)
(** ** The HTML template of [generate_html_report]

    The text of [html_template], cut at its tags.  [dq] stands for the double
    quote. *)

Module Template.

Import Text.

(** Template text, up to the opening style tag. *)
Definition html_open : string :=
"
<!DOCTYPE html>
<html lang=" ++ dq ++ "en" ++ dq ++ ">
<head>
    <meta charset=" ++ dq ++ "UTF-8" ++ dq ++ ">
    <meta name=" ++ dq ++ "viewport" ++ dq ++ " content=" ++ dq ++ "width=device-width, initial-scale=1.0" ++ dq ++ ">
    <title>DevSecOps Security Assessment Report</title>
    <style>
".

(** Template text, the rules between the style tags. *)
Definition stylesheet : string :=
"        body {
            font-family: 'Segoe UI', Tahoma, Geneva, Verdana, sans-serif;
            line-height: 1.6;
            margin: 0;
            padding: 20px;
            background-color: #f5f5f5;
        }
        .container {
            max-width: 1200px;
            margin: 0 auto;
            background: white;
            border-radius: 10px;
            box-shadow: 0 0 20px rgba(0,0,0,0.1);
            overflow: hidden;
        }
        .header {
            background: linear-gradient(135deg, #667eea 0%, #764ba2 100%);
            color: white;
            padding: 30px;
            text-align: center;
        }
        .header h1 {
            margin: 0;
            font-size: 2.5em;
            font-weight: 300;
        }
        .header p {
            margin: 10px 0 0 0;
            opacity: 0.9;
            font-size: 1.1em;
        }
        .summary {
            display: grid;
            grid-template-columns: repeat(auto-fit, minmax(250px, 1fr));
            gap: 20px;
            padding: 30px;
            background: #f8f9fa;
        }
        .summary-card {
            background: white;
            padding: 20px;
            border-radius: 8px;
            box-shadow: 0 2px 10px rgba(0,0,0,0.1);
            text-align: center;
        }
        .summary-card h3 {
            margin: 0 0 10px 0;
            color: #333;
            font-size: 1.2em;
        }
        .summary-card .value {
            font-size: 2em;
            font-weight: bold;
            margin: 10px 0;
        }
        .risk-low { color: #28a745; }
        .risk-medium { color: #ffc107; }
        .risk-high { color: #dc3545; }
        .risk-critical { color: #6f42c1; }
        .compliant { color: #28a745; }
        .non-compliant { color: #dc3545; }
        .partially-compliant { color: #ffc107; }
        .content {
            padding: 30px;
        }
        .section {
            margin-bottom: 40px;
        }
        .section h2 {
            color: #333;
            border-bottom: 2px solid #667eea;
            padding-bottom: 10px;
            margin-bottom: 20px;
        }
        .issue {
            background: #fff;
            border-left: 4px solid #dc3545;
            padding: 20px;
            margin-bottom: 20px;
            border-radius: 0 8px 8px 0;
            box-shadow: 0 2px 5px rgba(0,0,0,0.1);
        }
        .issue.warning {
            border-left-color: #ffc107;
        }
        .issue.info {
            border-left-color: #17a2b8;
        }
        .issue h4 {
            margin: 0 0 10px 0;
            color: #333;
        }
        .issue .severity {
            display: inline-block;
            padding: 4px 8px;
            border-radius: 4px;
            font-size: 0.8em;
            font-weight: bold;
            text-transform: uppercase;
        }
        .severity.high, .severity.critical {
            background: #dc3545;
            color: white;
        }
        .severity.medium {
            background: #ffc107;
            color: #333;
        }
        .severity.low {
            background: #28a745;
            color: white;
        }
        .recommendations {
            background: #e8f4fd;
            border: 1px solid #bee5eb;
            border-radius: 8px;
            padding: 20px;
        }
        .recommendations ul {
            margin: 0;
            padding-left: 20px;
        }
        .recommendations li {
            margin-bottom: 10px;
            font-size: 1.1em;
        }
        .footer {
            background: #333;
            color: white;
            padding: 20px;
            text-align: center;
        }
        .no-issues {
            background: #d4edda;
            border: 1px solid #c3e6cb;
            color: #155724;
            padding: 20px;
            border-radius: 8px;
            text-align: center;
            font-size: 1.1em;
        }
        .gdpr-badge {
            display: inline-block;
            background: #007bff;
            color: white;
            padding: 2px 6px;
            border-radius: 3px;
            font-size: 0.8em;
            margin-left: 10px;
        }
".

(** Template text, then {{ scan_date }}. *)
Definition header_open : string :=
"    </style>
</head>
<body>
    <div class=" ++ dq ++ "container" ++ dq ++ ">
        <div class=" ++ dq ++ "header" ++ dq ++ ">
            <h1>DevSecOps Security Assessment</h1>
            <p>GDPR-Compliant Pipeline Security Report</p>
            <p>Generated: ".

(** Template text, then {{ risk_level.lower() }}. *)
Definition risk_tile_open : string :=
"</p>
        </div>

        <div class=" ++ dq ++ "summary" ++ dq ++ ">
            <div class=" ++ dq ++ "summary-card" ++ dq ++ ">
                <h3>Overall Risk Level</h3>
                <div class=" ++ dq ++ "value risk-".

(** Template text, then {{ risk_level }}. *)
Definition risk_tile_mid : string :=
dq ++ ">".

(** Template text, then {{ compliance_status.lower().replace('-', '_') }}. *)
Definition compliance_tile_open : string :=
"</div>
            </div>
            <div class=" ++ dq ++ "summary-card" ++ dq ++ ">
                <h3>Compliance Status</h3>
                <div class=" ++ dq ++ "value ".

(** Template text, then {{ compliance_status }}. *)
Definition compliance_tile_mid : string :=
dq ++ ">".

(** Template text, then {{ security_issues|length }}. *)
Definition count_tile_open : string :=
"</div>
            </div>
            <div class=" ++ dq ++ "summary-card" ++ dq ++ ">
                <h3>Security Issues</h3>
                <div class=" ++ dq ++ "value" ++ dq ++ ">".

(** Template text, then {{ total_files_scanned }}. *)
Definition files_tile_open : string :=
"</div>
            </div>
            <div class=" ++ dq ++ "summary-card" ++ dq ++ ">
                <h3>Files Scanned</h3>
                <div class=" ++ dq ++ "value" ++ dq ++ ">".

(** Template text, then {% if compliance_status == 'COMPLIANT' %}. *)
Definition summary_close : string :=
"</div>
            </div>
        </div>

        <div class=" ++ dq ++ "content" ++ dq ++ ">
            <div class=" ++ dq ++ "section" ++ dq ++ ">
                <h2>Executive Summary</h2>
                <p>This automated security assessment evaluates our DevSecOps pipeline against UK GDPR requirements and cybersecurity best practices. The scan covers static code analysis, secret detection, dependency vulnerabilities, and GDPR compliance patterns.</p>

                ".

(** Template text, then {% else %}. *)
Definition no_issues_banner : string :=
"
                <div class=" ++ dq ++ "no-issues" ++ dq ++ ">
                    <strong>EXCELLENT:</strong> No security violations detected. The codebase demonstrates strong adherence to GDPR requirements and security best practices.
                </div>
                ".

(** Template text, then {{ security_issues|length }}. *)
Definition risk_assessment_open : string :=
"
                <p><strong>Risk Assessment:</strong> ".

(** Template text, then {% endif %}. *)
Definition risk_assessment_close : string :=
" security issue(s) detected requiring attention. Immediate remediation recommended for high-severity findings to maintain compliance posture.</p>
                ".

(** Template text, then {% if security_issues %}. *)
Definition executive_close : string :=
"
            </div>

            ".

(** Template text, then {% for issue in security_issues %}. *)
Definition findings_open : string :=
"
            <div class=" ++ dq ++ "section" ++ dq ++ ">
                <h2>Security Findings</h2>
                ".

(** Template text, then {{ issue.message }}. *)
Definition issue_open : string :=
"
                <div class=" ++ dq ++ "issue" ++ dq ++ ">
                    <h4>
                        ".

(** Template text, then {{ issue.severity.lower() }}. *)
Definition severity_badge_open : string :=
"
                        <span class=" ++ dq ++ "severity ".

(** Template text, then {{ issue.severity }}. *)
Definition severity_badge_mid : string :=
dq ++ ">".

(** Template text, then {% if 'GDPR' in issue.business_impact %}. *)
Definition severity_badge_close : string :=
"</span>
                        ".

(** Template text, then {% endif %}. *)
Definition gdpr_badge : string :=
"
                        <span class=" ++ dq ++ "gdpr-badge" ++ dq ++ ">GDPR</span>
                        ".

(** Template text, then {{ issue.file }}. *)
Definition issue_file_open : string :=
"
                    </h4>
                    <p><strong>File:</strong> ".

(** Template text, then {{ issue.line }}. *)
Definition issue_line_open : string :=
" (Line ".

(** Template text, then {{ issue.business_impact }}. *)
Definition issue_impact_open : string :=
")</p>
                    <p><strong>Business Impact:</strong> ".

(** Template text, then {{ issue.remediation }}. *)
Definition issue_action_open : string :=
"</p>
                    <p><strong>Recommended Action:</strong> ".

(** Template text, then {% endfor %}. *)
Definition issue_close : string :=
"</p>
                </div>
                ".

(** Template text, then {% endif %}. *)
Definition findings_close : string :=
"
            </div>
            ".

(** Template text, then {% for recommendation in recommendations %}. *)
Definition recommendations_open : string :=
"

            <div class=" ++ dq ++ "section" ++ dq ++ ">
                <h2>Strategic Recommendations</h2>
                <div class=" ++ dq ++ "recommendations" ++ dq ++ ">
                    <ul>
                        ".

(** Template text, then {{ recommendation }}. *)
Definition recommendation_open : string :=
"
                        <li>".

(** Template text, then {% endfor %}. *)
Definition recommendation_close : string :=
"</li>
                        ".

(** Template text, the end of the template. *)
Definition html_close : string :=
"
                    </ul>
                </div>
            </div>

            <div class=" ++ dq ++ "section" ++ dq ++ ">
                <h2>Compliance Framework Coverage</h2>
                <ul>
                    <li><strong>UK GDPR Articles:</strong> 5 (Data minimization), 6 (Lawful basis), 15 (Access rights), 17 (Erasure), 25 (Privacy by design), 30 (Records), 32 (Security)</li>
                    <li><strong>Security Controls:</strong> Static code analysis, secret detection, dependency scanning, supply chain transparency</li>
                    <li><strong>Automated Compliance:</strong> Pre-commit hooks, CI/CD integration, continuous monitoring</li>
                    <li><strong>Risk Management:</strong> Vulnerability assessment, breach prevention, audit trail maintenance</li>
                </ul>
            </div>
        </div>

        <div class=" ++ dq ++ "footer" ++ dq ++ ">
            <p>This report was automatically generated by our GDPR-Compliant DevSecOps Pipeline</p>
            <p>For technical details, review the individual scan results in the security-reports directory</p>
        </div>
    </div>
</body>
</html>
        ".

End Template.

(* ================================================================== *)
(** ** Renderer and entry point *)

Module Render.

Import Text Py Gen Template.

(** [{{ v.lower() }}] in the template: only a str has the method.  For a dict
    the template engine falls back to the key [lower], whose JSON value is
    then called. *)
Definition lower_method (v : pyval) : res string :=
  match v with
  | PStr s => Ok (lower s)
  | PDict kvs =>
      match lookup "lower" kvs with
      | Some _ => Raise TypeError
      | None => Raise UndefinedError
      end
  | _ => Raise UndefinedError
  end.

(** [risk-{{ risk_level.lower() }}]. *)
Definition risk_class (r : risk) : string := "risk-" ++ lower (risk_str r).

(** [{{ compliance_status.lower().replace('-', '_') }}]. *)
Definition compliance_class (c : compliance) : string :=
  replace_char "-" "_" (lower (compliance_str c)).

(** The four summary tiles. *)
Definition render_summary (d : report_data) : string :=
  risk_tile_open ++ lower (risk_str (risk_level d)) ++ risk_tile_mid
    ++ risk_str (risk_level d)
    ++ compliance_tile_open ++ compliance_class (compliance_status d)
    ++ compliance_tile_mid ++ compliance_str (compliance_status d)
    ++ count_tile_open ++ nat_str (List.length (security_issues d))
    ++ files_tile_open ++ nat_str (total_files_scanned d)
    ++ summary_close.

(** [{% if compliance_status == 'COMPLIANT' %} ... {% else %} ... {% endif %}]. *)
Definition render_executive (d : report_data) : string :=
  match compliance_status d with
  | COMPLIANT => no_issues_banner
  | _ =>
      risk_assessment_open ++ nat_str (List.length (security_issues d))
        ++ risk_assessment_close
  end.

(** The body of [{% for issue in security_issues %}]. *)
Definition render_issue (i : issue) : res string :=
  (severity_lower <- lower_method (severity i) ;;
   Ok (issue_open ++ str (message i)
       ++ severity_badge_open ++ severity_lower
       ++ severity_badge_mid ++ str (severity i)
       ++ severity_badge_close
       ++ (if contains "GDPR" (business_impact i) then gdpr_badge else EmptyString)
       ++ issue_file_open ++ str (file i)
       ++ issue_line_open ++ str (line i)
       ++ issue_impact_open ++ business_impact i
       ++ issue_action_open ++ remediation i
       ++ issue_close))%res.

Fixpoint render_issues (l : list issue) : res string :=
  match l with
  | [] => Ok EmptyString
  | i :: r =>
      (a <- render_issue i ;;
       b <- render_issues r ;;
       Ok (a ++ b))%res
  end.

(** [{% if security_issues %} ... {% endif %}]. *)
Definition render_findings (l : list issue) : res string :=
  match l with
  | [] => Ok EmptyString
  | _ :: _ =>
      (items <- render_issues l ;;
       Ok (findings_open ++ items ++ findings_close))%res
  end.

(** [{% for recommendation in recommendations %}]. *)
Definition render_recommendations (l : list string) : string :=
  concat_all (map (fun r => recommendation_open ++ r ++ recommendation_close) l).

(** [Template(html_template).render] over the entries of [self.report_data]:
    no autoescape is asked for, so every [{{ ... }}] is the plain [str] of its
    value. *)
Definition render (d : report_data) : res string :=
  (findings <- render_findings (security_issues d) ;;
   Ok (html_open ++ stylesheet ++ header_open ++ scan_date d
       ++ render_summary d
       ++ render_executive d
       ++ executive_close
       ++ findings
       ++ recommendations_open
       ++ render_recommendations (recommendations d)
       ++ html_close))%res.

Definition generate_html_report : M string :=
  (d <- read ;; lift (render d))%stmt.

(** The loaders of [main], in its order. *)
Definition load_all : M unit :=
  (load_semgrep_results "security-reports/pii-scan.json" ;;
   load_gitleaks_results "security-reports/gitleaks-report.json" ;;
   load_vulnerability_scan "security-reports/vulnerabilities.json")%stmt.

(** [main]; [now] is the clock read by the constructor.  Creating the
    directory and opening the report for writing are taken to succeed. *)
Definition main (now : string) : M unit :=
  (update (fun _ => init now) ;;
   load_all ;;
   generate_recommendations ;;
   html_report <- generate_html_report ;;
   write_file "security-reports/executive-report.html" html_report ;;
   print "Executive security report generated: security-reports/executive-report.html" ;;
   d <- read ;;
   print ("Report summary: " ++ compliance_str (compliance_status d) ++ " - "
            ++ risk_str (risk_level d) ++ " risk"))%stmt.

(** The process before [main]: nothing printed, nothing written. *)
Definition start (fs : string -> file_input) (now : string) : process := {|
  files := fs;
  self := init now;
  stdout := [];
  written := []
|}.

(** The exit code of the script: an exception that leaves [main] ends the
    interpreter with code 1. *)
Definition exit_code (r : res unit) : nat :=
  match r with
  | Ok _ => 0
  | Raise _ => 1
  end.

Definition run (fs : string -> file_input) (now : string) : nat * process :=
  let '(r, p) := main now (start fs now) in (exit_code r, p).

End Render.

(* ================================================================== *)
(** ** Traces of the loops and of the [try] statements *)

Module Trace.

Import Text Py Gen.

(** The process with its generator object replaced. *)
Definition with_self (d : report_data) (p : process) : process := {|
  files := files p;
  self := d;
  stdout := stdout p;
  written := written p
|}.

(** The process after [l] has been appended to [security_issues]. *)
Definition add_issues (l : list issue) (p : process) : process :=
  with_self (set_security_issues (security_issues (self p) ++ l)%list (self p)) p.

(** The process after the secret-detection loop has appended [l]. *)
Definition after_gitleaks (l : list issue) (p : process) : process :=
  match l with
  | [] => p
  | _ :: _ =>
      with_self
        (set_compliance_status NON_COMPLIANT
           (set_risk_level CRITICAL
              (set_security_issues (security_issues (self p) ++ l)%list (self p))))
        p
  end.

(** What a loop collects before the first exception, and how it ends. *)
Fixpoint collect {A} (f : A -> res (option issue)) (l : list A)
  : list issue * res unit :=
  match l with
  | [] => ([], Ok tt)
  | x :: r =>
      match f x with
      | Raise e => ([], Raise e)
      | Ok o =>
          ((match o with Some i => [i] | None => [] end) ++ fst (collect f r),
           snd (collect f r))%list
      end
  end.

Definition semgrep_item (result : pyval) : res (option issue) :=
  rbind (semgrep_issue result) (fun i => Ok (Some i)).

Definition gitleaks_item (finding : pyval) : res (option issue) :=
  rbind (gitleaks_issue finding) (fun i => Ok (Some i)).

Definition vulnerability_item (m : pyval) : res (option issue) :=
  rbind (match_severity m)
    (fun severity =>
       if in_high_critical severity
       then rbind (vulnerability_issue m severity) (fun i => Ok (Some i))
       else Ok None).

(** How a [try] statement ends once its body has ended with [r]. *)
Definition finish (handler : exn -> option (M unit)) (r : res unit) (p : process)
  : res unit * process :=
  match r with
  | Ok a => (Ok a, p)
  | Raise e =>
      match handler e with
      | Some h => h p
      | None => (Raise e, p)
      end
  end.

(** Every clause of the handler only prints. *)
Definition only_prints (handler : exn -> option (M unit)) : Prop :=
  forall e h, handler e = Some h -> exists text, h = print text.

(** [data.get('matches', [])], as the loop sees it. *)
Definition vulnerability_items (data : pyval) : res (list pyval) :=
  rbind (get data "matches" (PList [])) iter.

(** [len(data.get('paths', {}).get('scanned', []))]. *)
Definition semgrep_scanned (data : pyval) : res nat :=
  (paths <- get data "paths" (PDict []) ;;
   scanned <- get paths "scanned" (PList []) ;;
   len scanned)%res.

(** [data.get('results', [])], as the loop sees it. *)
Definition semgrep_results (data : pyval) : res (list pyval) :=
  rbind (get data "results" (PList [])) iter.

(** The risk level and compliance status the static-analysis loader settles
    on once its loop is over. *)
Definition semgrep_verdict (data : pyval) : res (risk * compliance) :=
  (results <- get data "results" (PList []) ;;
   count <- len results ;;
   if (count =? 0)%nat then Ok (LOW, COMPLIANT)
   else
     results' <- get data "results" (PList []) ;;
     items <- iter results' ;;
     found <- any_error items ;;
     if found then Ok (HIGH, NON_COMPLIANT) else Ok (MEDIUM, PARTIALLY_COMPLIANT))%res.

(** The process with a new risk level and compliance status. *)
Definition with_verdict (v : risk * compliance) (p : process) : process :=
  with_self (set_compliance_status (snd v) (set_risk_level (fst v) (self p))) p.

(** The process with a new count of scanned files. *)
Definition with_scanned (n : nat) (p : process) : process :=
  with_self (set_total_files_scanned n (self p)) p.

(** The exceptions that come from looking into a JSON value. *)
Definition lookup_error (e : exn) : Prop :=
  e = KeyError \/ e = TypeError \/ e = AttributeError \/ e = IndexError.

(** The recommendations list after [generate_recommendations]. *)
Definition recommended (d : report_data) : list string :=
  match security_issues d with
  | [] => default_recommendations
  | _ :: _ =>
      (recommendations d
       ++ (if (0 <? high_severity_count (security_issues d))%nat
           then high_severity_recommendations (high_severity_count (security_issues d))
           else [])
       ++ (if any_gdpr (security_issues d) then gdpr_recommendations else []))%list
  end.

End Trace.

(* ================================================================== *)
(** ** The documented shapes of the three input files *)

Module Shape.

Import Text Py Gen.

Definition absent_or_dict (o : option pyval) : bool :=
  match o with
  | None | Some (PDict _) => true
  | Some _ => false
  end.

(** [fix:{versions:[str]}], when present, lists at least one version. *)
Definition fix_shape (o : option pyval) : bool :=
  match o with
  | None => true
  | Some (PDict fx) =>
      match lookup "versions" fx with
      | None | Some (PList (_ :: _)) => true
      | Some _ => false
      end
  | Some _ => false
  end.

(** [{artifact:{name}, vulnerability:{id, severity, fix:{versions:[str]}}}];
    any of the keys may be missing. *)
Definition match_shape (m : pyval) : bool :=
  match m with
  | PDict kvs =>
      andb (absent_or_dict (lookup "artifact" kvs))
           (match lookup "vulnerability" kvs with
            | None => true
            | Some (PDict v) => fix_shape (lookup "fix" v)
            | Some _ => false
            end)
  | _ => false
  end.

(** [{matches:[...]}]. *)
Definition vulnerability_shape (data : pyval) : bool :=
  match data with
  | PDict kvs =>
      match lookup "matches" kvs with
      | None => true
      | Some (PList ms) => forallb match_shape ms
      | Some _ => false
      end
  | _ => false
  end.

Definition matches_of (data : pyval) : list pyval :=
  match data with
  | PDict kvs =>
      match lookup "matches" kvs with
      | Some (PList ms) => ms
      | _ => []
      end
  | _ => []
  end.

(** The severity a match states at [vulnerability.severity], if any. *)
Definition declared_severity (m : pyval) : option pyval :=
  match m with
  | PDict kvs =>
      match lookup "vulnerability" kvs with
      | Some (PDict v) => lookup "severity" v
      | _ => None
      end
  | _ => None
  end.

(** The match states severity HIGH or CRITICAL. *)
Definition reported (m : pyval) : bool :=
  match declared_severity m with
  | Some (PStr s) => orb (String.eqb s "HIGH") (String.eqb s "CRITICAL")
  | _ => false
  end.

(** What an issue built from match [m] must say. *)
Definition issue_of_match (i : issue) (m : pyval) : Prop :=
  type i = "Dependency Vulnerability" /\ Some (severity i) = declared_severity m.

(** [{check_id, path, start:{line}, extra:{severity, message}}], with a
    text rule identifier. *)
Definition result_shape (r : pyval) : bool :=
  match r with
  | PDict kvs =>
      match lookup "check_id" kvs, lookup "path" kvs,
            lookup "start" kvs, lookup "extra" kvs with
      | Some (PStr _), Some _, Some (PDict st), Some (PDict ex) =>
          match lookup "line" st, lookup "severity" ex, lookup "message" ex with
          | Some _, Some _, Some _ => true
          | _, _, _ => false
          end
      | _, _, _, _ => false
      end
  | _ => false
  end.

(** [paths:{scanned:[str]}]; either key may be missing. *)
Definition scanned_shape (o : option pyval) : bool :=
  match o with
  | None => true
  | Some (PDict ps) =>
      match lookup "scanned" ps with
      | None | Some (PList _) => true
      | Some _ => false
      end
  | Some _ => false
  end.

(** [{paths:{scanned:[...]}, results:[...]}]. *)
Definition semgrep_shape (data : pyval) : bool :=
  match data with
  | PDict kvs =>
      andb (scanned_shape (lookup "paths" kvs))
           (match lookup "results" kvs with
            | None => true
            | Some (PList rs) => forallb result_shape rs
            | Some _ => false
            end)
  | _ => false
  end.

Definition results_of (data : pyval) : list pyval :=
  match data with
  | PDict kvs =>
      match lookup "results" kvs with
      | Some (PList rs) => rs
      | _ => []
      end
  | _ => []
  end.

(** The severity a result states at [extra.severity], if any. *)
Definition result_severity (r : pyval) : option pyval :=
  match r with
  | PDict kvs =>
      match lookup "extra" kvs with
      | Some (PDict ex) => lookup "severity" ex
      | _ => None
      end
  | _ => None
  end.

(** The result states severity ERROR. *)
Definition is_error (r : pyval) : bool :=
  match result_severity r with
  | Some (PStr s) => String.eqb s "ERROR"
  | _ => false
  end.

(** The rule of the static-analysis loader: no results, LOW and COMPLIANT;
    some result of severity ERROR, HIGH and NON-COMPLIANT; otherwise MEDIUM
    and PARTIALLY COMPLIANT. *)
Definition static_analysis_rule (results : list pyval) : risk * compliance :=
  match results with
  | [] => (LOW, COMPLIANT)
  | _ :: _ =>
      if existsb is_error results then (HIGH, NON_COMPLIANT)
      else (MEDIUM, PARTIALLY_COMPLIANT)
  end.


Definition is_dict (v : pyval) : bool :=
  match v with
  | PDict _ => true
  | _ => false
  end.

(** [[{Description, File, StartLine, RuleID}]]: a list of objects. *)
Definition gitleaks_shape (data : pyval) : bool :=
  match data with
  | PList findings => forallb is_dict findings
  | _ => false
  end.

End Shape.
(* ================================================================== *)
(** ** Sample scanner outputs *)

Module Samples.

Import Text Py Gen Render.

(** A static-analysis file: two scanned paths, one result of severity ERROR
    on a rule the lookup table knows. *)
Definition sample_semgrep : pyval :=
  PDict [
    ("paths", PDict [("scanned", PList [PStr "app/users.py"; PStr "app/db.py"])]);
    ("results", PList [
       PDict [("check_id", PStr "rules.gdpr.hardcoded-personal-data");
              ("path", PStr "app/users.py");
              ("start", PDict [("line", PInt 12)]);
              ("extra", PDict [("severity", PStr "ERROR");
                               ("message", PStr "Hardcoded personal data")])]])].

(** A static-analysis file whose only result is a warning on a rule whose
    impact text does not mention GDPR. *)
Definition sample_semgrep_warning : pyval :=
  PDict [
    ("paths", PDict [("scanned", PList [PStr "app/log.py"])]);
    ("results", PList [
       PDict [("check_id", PStr "rules.gdpr.detect-pii-in-logs");
              ("path", PStr "app/log.py");
              ("start", PDict [("line", PInt 40)]);
              ("extra", PDict [("severity", PStr "WARNING");
                               ("message", PStr "PII written to log")])]])].

(** A secret-detection file with one finding. *)
Definition sample_gitleaks : pyval :=
  PList [
    PDict [("Description", PStr "AWS Access Key");
           ("File", PStr "config/settings.py");
           ("StartLine", PInt 7);
           ("RuleID", PStr "aws-access-token")]].

(** A vulnerability file with a LOW, a HIGH, an unrated and a CRITICAL match. *)
Definition sample_vulnerabilities : pyval :=
  PDict [("matches", PList [
    PDict [("artifact", PDict [("name", PStr "leftpad")]);
           ("vulnerability", PDict [("id", PStr "CVE-1"); ("severity", PStr "LOW")])];
    PDict [("artifact", PDict [("name", PStr "requests")]);
           ("vulnerability", PDict [("id", PStr "CVE-2");
                                    ("severity", PStr "HIGH");
                                    ("fix", PDict [("versions",
                                                    PList [PStr "2.31.0"])])])];
    PDict [("artifact", PDict [("name", PStr "unrated")])];
    PDict [("vulnerability", PDict [("severity", PStr "CRITICAL")])]])].

(** A vulnerability file with a single CRITICAL match. *)
Definition sample_critical_vulnerability : pyval :=
  PDict [("matches", PList [
    PDict [("artifact", PDict [("name", PStr "openssl")]);
           ("vulnerability", PDict [("id", PStr "CVE-3");
                                    ("severity", PStr "CRITICAL")])]])].

(** A static-analysis file whose message carries markup. *)
Definition sample_semgrep_markup : pyval :=
  PDict [
    ("paths", PDict [("scanned", PList [PStr "app/views.py"])]);
    ("results", PList [
       PDict [("check_id", PStr "rules.gdpr.missing-consent-check");
              ("path", PStr "app/views.py");
              ("start", PDict [("line", PInt 3)]);
              ("extra", PDict [("severity", PStr "WARNING");
                               ("message", PStr "<script>alert(1)</script>")])]])].


(** A static-analysis file without results. *)
Definition sample_semgrep_clean : pyval :=
  PDict [("paths", PDict [("scanned", PList [PStr "app/users.py"])]);
         ("results", PList [])].


(** A vulnerability file whose HIGH match has no fixed version yet. *)
Definition sample_unfixed_vulnerability : pyval :=
  PDict [("matches", PList [
    PDict [("artifact", PDict [("name", PStr "openssl")]);
           ("vulnerability", PDict [("id", PStr "CVE-4");
                                    ("severity", PStr "HIGH");
                                    ("fix", PDict [("versions", PList []);
                                                   ("state", PStr "not-fixed")])])]])].

(** The document [render] gives, empty when it raises. *)
Definition rendered (d : report_data) : string :=
  match render d with
  | Ok html => html
  | Raise _ => EmptyString
  end.

(** The working directory of [main] with the three given inputs. *)
Definition directory (semgrep gitleaks vulnerabilities : file_input)
  : string -> file_input :=
  fun path =>
    if String.eqb path "security-reports/pii-scan.json" then semgrep
    else if String.eqb path "security-reports/gitleaks-report.json" then gitleaks
    else if String.eqb path "security-reports/vulnerabilities.json" then vulnerabilities
    else Absent.

Definition sample_now : string := "2024-01-01 00:00:00 UTC".

(** The process of [main] before the loaders, on the three given inputs. *)
Definition sample_start (semgrep gitleaks vulnerabilities : file_input) : process :=
  start (directory semgrep gitleaks vulnerabilities) sample_now.

End Samples.

(* ================================================================== *)
(** ** Risk level against the issues collected *)

Module Invariant.

Import Text Py Gen Render.

(** The risk level is at least as high as the severity of every issue:
    an issue of severity CRITICAL needs CRITICAL, one of severity HIGH needs
    HIGH or more. *)
Definition worst_finding_reflected (d : report_data) : Prop :=
  forall i, In i (security_issues d) ->
    (severity i = PStr "CRITICAL" -> risk_le CRITICAL (risk_level d))
    /\ (severity i = PStr "HIGH" -> risk_le HIGH (risk_level d)).

(** The risk level and compliance status answer to the findings of the
    secret-detection and static-analysis loaders: a secret gives CRITICAL and
    NON-COMPLIANT; a static-analysis finding of severity ERROR gives at least
    HIGH and NON-COMPLIANT; any static-analysis finding gives at least MEDIUM
    and a status other than COMPLIANT.  Issues of the vulnerability loader do
    not count. *)
Definition scanner_findings_reflected (d : report_data) : Prop :=
  forall i, In i (security_issues d) ->
    (type i = "Secret/PII Exposure" ->
     risk_level d = CRITICAL /\ compliance_status d = NON_COMPLIANT)
    /\ (type i = "GDPR Compliance Violation" ->
        risk_le MEDIUM (risk_level d) /\ compliance_status d <> COMPLIANT)
    /\ (type i = "GDPR Compliance Violation" -> severity i = PStr "ERROR" ->
        risk_le HIGH (risk_level d) /\ compliance_status d = NON_COMPLIANT).

(** The states of a run of [main] in which a loader has just returned. *)
Inductive pipeline_state (fs : string -> file_input) (now : string)
  : process -> Prop :=
| after_static_analysis p :
    load_semgrep_results "security-reports/pii-scan.json" (start fs now) = (Ok tt, p) ->
    pipeline_state fs now p
| after_secret_detection p q :
    load_semgrep_results "security-reports/pii-scan.json" (start fs now) = (Ok tt, p) ->
    load_gitleaks_results "security-reports/gitleaks-report.json" p = (Ok tt, q) ->
    pipeline_state fs now q
| after_vulnerability_scan p q r :
    load_semgrep_results "security-reports/pii-scan.json" (start fs now) = (Ok tt, p) ->
    load_gitleaks_results "security-reports/gitleaks-report.json" p = (Ok tt, q) ->
    load_vulnerability_scan "security-reports/vulnerabilities.json" q = (Ok tt, r) ->
    pipeline_state fs now r.

End Invariant.

(* ================================================================== *)
(** ** Markup and style sheet classes *)

Module Style.

Import Text Py Gen Template Render.

(** The style sheet has a rule for the class [name]. *)
Definition defines_class (css name : string) : bool :=
  contains ("." ++ name ++ " {") css.

(** The opening tag of a summary tile's value with the given classes. *)
Definition value_tag (classes : string) : string :=
  "<div class=" ++ dq ++ classes ++ dq ++ ">".

(** What an escaping template engine writes for one character. *)
Definition escape_char (c : ascii) : string :=
  if Ascii.eqb c "&" then "&amp;"
  else if Ascii.eqb c "<" then "&lt;"
  else if Ascii.eqb c ">" then "&gt;"
  else if Ascii.eqb c (ascii_of_nat 34) then "&#34;"
  else if Ascii.eqb c "'" then "&#39;"
  else String c EmptyString.

(** A text with its HTML-significant characters escaped. *)
Fixpoint escape_html (s : string) : string :=
  match s with
  | EmptyString => EmptyString
  | String c r => escape_char c ++ escape_html r
  end.

(** Every issue has a text as its severity. *)
Definition severities_are_text (d : report_data) : Prop :=
  Forall (fun i => exists s, severity i = PStr s) (security_issues d).



End Style.

(* ================================================================== *)
(** ** Where an issue comes from *)

Module Origin.

Import Text Py Gen.

(** An issue as the static-analysis loader builds it: both texts are looked
    up from its rule identifier, which is a text. *)
Definition from_static_analysis (i : issue) : Prop :=
  type i = "GDPR Compliance Violation"
  /\ exists s, rule_id i = PStr s
               /\ _get_business_impact (PStr s) = Ok (business_impact i)
               /\ _get_remediation_advice (PStr s) = Ok (remediation i).

(** An issue as the secret-detection loader builds it. *)
Definition from_secret_detection (i : issue) : Prop :=
  type i = "Secret/PII Exposure"
  /\ severity i = PStr "HIGH"
  /\ business_impact i = "Data breach risk, ICO fine exposure (up to £20M)"
  /\ remediation i
     = "Remove secret from code, rotate credentials, implement secrets management".

(** An issue as the vulnerability loader builds it. *)
Definition from_vulnerability_scan (i : issue) : Prop :=
  type i = "Dependency Vulnerability"
  /\ (severity i = PStr "HIGH" \/ severity i = PStr "CRITICAL")
  /\ file i = PStr "package.json"
  /\ line i = PInt 0
  /\ business_impact i = "Supply chain security risk, potential data exposure".

(** What the static-analysis loader can have done to the generator when it
    stops: the count of scanned files set or not, some issues appended, the
    risk level and compliance status set or not. *)
Definition semgrep_effect (n : option nat) (l : list issue)
    (v : option (risk * compliance)) (d : report_data) : report_data :=
  let d1 := match n with
            | Some k => set_total_files_scanned k d
            | None => d
            end in
  let d2 := set_security_issues (security_issues d1 ++ l)%list d1 in
  match v with
  | Some x => set_compliance_status (snd x) (set_risk_level (fst x) d2)
  | None => d2
  end.

(** What the secret-detection loader can have done to the generator. *)
Definition gitleaks_effect (l : list issue) (d : report_data) : report_data :=
  match l with
  | [] => d
  | _ :: _ =>
      set_compliance_status NON_COMPLIANT
        (set_risk_level CRITICAL
           (set_security_issues (security_issues d ++ l)%list d))
  end.

(** The exceptions that leave a loader. *)
Definition escapes (r : res unit) (allowed : list exn) : Prop :=
  match r with
  | Ok _ => True
  | Raise e => In e allowed
  end.

(** An issue built by one of the three loaders. *)
Definition from_a_loader (i : issue) : Prop :=
  from_static_analysis i \/ from_secret_detection i \/ from_vulnerability_scan i.

(** From [p] to [q] nothing happened but this: issues built by the loaders
    were appended, and the count of scanned files, the risk level and the
    compliance status may have been set. *)
Definition only_loaded (p q : process) : Prop :=
  (exists l, security_issues (self q) = (security_issues (self p) ++ l)%list
             /\ Forall from_a_loader l)
  /\ recommendations (self q) = recommendations (self p)
  /\ scan_date (self q) = scan_date (self p)
  /\ project_name (self q) = project_name (self p)
  /\ compliance_framework (self q) = compliance_framework (self p)
  /\ files q = files p
  /\ written q = written p.

(** The issue built from the static-analysis result [r]: its fields are the
    fields of [r]. *)
Definition issue_of_result (i : issue) (r : pyval) : Prop :=
  type i = "GDPR Compliance Violation"
  /\ getitem r "check_id" = Ok (rule_id i)
  /\ getitem r "path" = Ok (file i)
  /\ (exists extra, getitem r "extra" = Ok extra
                    /\ getitem extra "severity" = Ok (severity i)
                    /\ getitem extra "message" = Ok (message i))
  /\ (exists start, getitem r "start" = Ok start
                    /\ getitem start "line" = Ok (line i)).

(** The issue built from the secret-detection finding [f]: its fields are
    the fields of [f], or their defaults where [f] lacks them.  The message
    is stated for a description that is a text, the default included. *)
Definition issue_of_finding (i : issue) (f : pyval) : Prop :=
  from_secret_detection i
  /\ (forall description,
        get f "Description" (PStr "secret") = Ok (PStr description) ->
        message i = PStr ("Potential " ++ description ++ " detected"))
  /\ get f "File" (PStr "Unknown") = Ok (file i)
  /\ get f "StartLine" (PInt 0) = Ok (line i)
  /\ get f "RuleID" (PStr "secret-detection") = Ok (rule_id i).

(** The paths listed at [paths.scanned]. *)
Definition scanned_of (data : pyval) : list pyval :=
  match data with
  | PDict kvs =>
      match lookup "paths" kvs with
      | Some (PDict ps) =>
          match lookup "scanned" ps with
          | Some (PList l) => l
          | _ => []
          end
      | _ => []
      end
  | _ => []
  end.

(** The findings of a secret-detection file. *)
Definition findings_of (data : pyval) : list pyval :=
  match data with
  | PList l => l
  | _ => []
  end.


(** The two lines [main] prints last. *)
Definition closing_lines (d : report_data) : list string :=
  ["Executive security report generated: security-reports/executive-report.html";
   "Report summary: " ++ compliance_str (compliance_status d) ++ " - "
     ++ risk_str (risk_level d) ++ " risk"].

End Origin.

(* ================================================================== *)
(** ** More sample scanner outputs *)

Module MoreSamples.

Import Text Py Gen Render Samples.

(** A secret-detection file whose only finding has no field at all. *)
Definition sample_gitleaks_bare : pyval := PList [PDict []].

(** A static-analysis file whose first result is complete and of severity
    ERROR and whose second result lacks every field. *)
Definition sample_semgrep_half : pyval :=
  PDict [
    ("paths", PDict [("scanned", PList [PStr "app/users.py"])]);
    ("results", PList [
       PDict [("check_id", PStr "rules.gdpr.hardcoded-personal-data");
              ("path", PStr "app/users.py");
              ("start", PDict [("line", PInt 12)]);
              ("extra", PDict [("severity", PStr "ERROR");
                               ("message", PStr "Hardcoded personal data")])];
       PDict []])].

(** A match of severity HIGH with two fixed versions. *)
Definition sample_fixed_match : list (string * pyval) :=
  [("artifact", PDict [("name", PStr "requests")]);
   ("vulnerability", PDict [("id", PStr "CVE-2");
                            ("severity", PStr "HIGH");
                            ("fix", PDict [("versions",
                                            PList [PStr "2.31.0"; PStr "2.32.0"])])])].

(** A match of severity CRITICAL without fix data. *)
Definition sample_open_match : list (string * pyval) :=
  [("artifact", PDict [("name", PStr "openssl")]);
   ("vulnerability", PDict [("id", PStr "CVE-3"); ("severity", PStr "CRITICAL")])].

(** A generator holding one issue of each severity the recommender counts,
    none of them with a GDPR impact text. *)
Definition sample_high_issues : process :=
  snd (load_all (sample_start Absent (Json sample_gitleaks)
                   (Json sample_critical_vulnerability))).

(** A generator holding one static-analysis issue of severity ERROR whose
    impact text mentions GDPR. *)
Definition sample_gdpr_issue : process :=
  snd (load_all (sample_start (Json sample_semgrep) Absent Absent)).

(** A secret-detection file whose only finding has half a surrogate pair as
    its description, as [json.load] reads the escape for U+D800. *)
Definition sample_gitleaks_surrogate : pyval :=
  PList [PDict [("Description",
                 PStr (String (ascii_of_nat 237)
                         (String (ascii_of_nat 160)
                            (String (ascii_of_nat 128) EmptyString))))]].

(** A vulnerability file that cannot be decoded. *)
Definition sample_undecodable : file_input := Unread Undecodable.

End MoreSamples.

(* ================================================================== *)
(** ** Scanner values that are written as they are *)

Module Exact.

Import Text Py Gen Render Shape Origin.

(** A value whose [str] is modelled exactly: a text is written as it is, an
    integer in decimal.  The [str] of a list or dict goes through [repr],
    which is exact on printable text only. *)
Definition plain (v : pyval) : bool :=
  match v with
  | PStr _ | PInt _ => true
  | _ => false
  end.

(** The entry [k] of a dict, if [v] is a dict that has it. *)
Definition entry (k : string) (v : pyval) : option pyval :=
  match v with
  | PDict kvs => lookup k kvs
  | _ => None
  end.

(** The entry [k] of the entry [j]. *)
Definition entry2 (j k : string) (v : pyval) : option pyval :=
  match entry j v with
  | Some w => entry k w
  | None => None
  end.

(** A field that, when present, is plain. *)
Definition plain_at (o : option pyval) : bool :=
  match o with
  | Some v => plain v
  | None => true
  end.

(** A field that, when it is a text, is ASCII: [lower] is [str.lower()] on
    it. *)
Definition ascii_at (o : option pyval) : bool :=
  match o with
  | Some (PStr s) => is_ascii s
  | _ => true
  end.

(** What the report shows of a static-analysis result. *)
Definition result_plain (r : pyval) : bool :=
  andb (plain_at (entry2 "extra" "message" r))
    (andb (ascii_at (entry2 "extra" "severity" r))
       (andb (plain_at (entry "path" r)) (plain_at (entry2 "start" "line" r)))).

(** What the report shows of a secret-detection finding. *)
Definition finding_plain (f : pyval) : bool :=
  andb (plain_at (entry "Description" f))
    (andb (plain_at (entry "File" f)) (plain_at (entry "StartLine" f))).

(** The first version listed under [vulnerability.fix.versions], if any. *)
Definition first_version (m : pyval) : option pyval :=
  match entry2 "vulnerability" "fix" m with
  | Some fix_ =>
      match entry "versions" fix_ with
      | Some (PList (v :: _)) => Some v
      | _ => None
      end
  | None => None
  end.

(** What the report shows of a vulnerability match. *)
Definition match_plain (m : pyval) : bool :=
  andb (plain_at (entry2 "artifact" "name" m)) (plain_at (first_version m)).

Definition semgrep_plain (data : pyval) : bool :=
  forallb result_plain (results_of data).

Definition gitleaks_plain (data : pyval) : bool :=
  forallb finding_plain (findings_of data).

Definition vulnerability_plain (data : pyval) : bool :=
  forallb match_plain (matches_of data).

(** A scanner file, when it parses, holds plain values where the report
    shows them. *)
Definition plain_file (values : pyval -> bool) (f : file_input) : bool :=
  match f with
  | Json v => values v
  | _ => true
  end.

(** The three scanner files of [main] hold plain values where the report
    shows them: every text the run renders is rendered as Python does. *)
Definition plain_inputs (fs : string -> file_input) : bool :=
  andb (plain_file semgrep_plain (fs "security-reports/pii-scan.json"))
    (andb (plain_file gitleaks_plain (fs "security-reports/gitleaks-report.json"))
       (plain_file vulnerability_plain (fs "security-reports/vulnerabilities.json"))).

(** The text can be encoded as UTF-8. *)
Definition encodable (s : string) : Prop := has_surrogate s = false.

End Exact.
(* ================================================================== *)
(** ** Facts about text *)

Module TextFacts.

Import Text.

Lemma append_nil_r (s : string) : s ++ EmptyString = s.
Proof. induction s as [|c r IH]; simpl; [reflexivity | now rewrite IH]. Qed.

Lemma append_assoc (a b c : string) : (a ++ b) ++ c = a ++ (b ++ c).
Proof. induction a as [|x a IH]; simpl; [reflexivity | now rewrite IH]. Qed.

Lemma starts_with_spec (p s : string) :
  starts_with p s = true <-> exists t, s = p ++ t.
Proof.
  revert s; induction p as [|a p IH]; intros s; simpl.
  - split; [intros _; now exists s | reflexivity].
  - destruct s as [|b s].
    + split; [discriminate | intros [t Ht]; discriminate].
    + rewrite andb_true_iff, Ascii.eqb_eq, IH. split.
      * intros [-> [t ->]]. now exists t.
      * intros [t Ht]. injection Ht as -> ->. split; [reflexivity | now exists t].
Qed.

Lemma contains_cons (sub : string) (c : ascii) (r : string) :
  contains sub (String c r) = orb (starts_with sub (String c r)) (contains sub r).
Proof. reflexivity. Qed.

(** [contains] decides the substring relation. *)
Lemma contains_spec (sub s : string) :
  contains sub s = true <-> substring_of sub s.
Proof.
  unfold substring_of. split.
  - induction s as [|c r IH].
    + simpl. rewrite orb_false_r. intros H.
      apply starts_with_spec in H as [t Ht]. now exists EmptyString, t.
    + rewrite contains_cons, orb_true_iff. intros [H | H].
      * apply starts_with_spec in H as [t Ht]. now exists EmptyString, t.
      * destruct (IH H) as (pre & post & ->). now exists (String c pre), post.
  - intros (pre & post & ->). induction pre as [|c pre IH].
    + simpl append. assert (H : starts_with sub (sub ++ post) = true)
        by (apply starts_with_spec; now exists post).
      destruct (sub ++ post); simpl in *; rewrite H; reflexivity.
    + simpl append. rewrite contains_cons, IH. apply orb_true_r.
Qed.

Lemma substring_of_refl (s : string) : substring_of s s.
Proof. exists EmptyString, EmptyString. simpl. now rewrite append_nil_r. Qed.

Lemma substring_of_app_l (x a b : string) : substring_of x a -> substring_of x (a ++ b).
Proof.
  intros (pre & post & ->). exists pre, (post ++ b).
  now rewrite !append_assoc.
Qed.

Lemma substring_of_app_r (x a b : string) : substring_of x b -> substring_of x (a ++ b).
Proof.
  intros (pre & post & ->). exists (a ++ pre), post.
  now rewrite !append_assoc.
Qed.

(** *** Lone surrogates *)






End TextFacts.

(* ================================================================== *)
(** ** Facts about statements and the three loops *)

Module LoaderFacts.

Import Text Py Gen Trace.

Lemma bind_ok {A B} (m : M A) (k : A -> M B) p a p' :
  m p = (Ok a, p') -> bind m k p = k a p'.
Proof. intros H. unfold bind. now rewrite H. Qed.

Lemma bind_raise {A B} (m : M A) (k : A -> M B) p e p' :
  m p = (Raise e, p') -> bind m k p = (Raise e, p').
Proof. intros H. unfold bind. now rewrite H. Qed.

Lemma add_issues_nil p : add_issues [] p = p.
Proof.
  destruct p as [f d o w]. destruct d. unfold add_issues, with_self, set_security_issues.
  simpl. now rewrite app_nil_r.
Qed.

Lemma add_issues_app l1 l2 p :
  add_issues l2 (add_issues l1 p) = add_issues (l1 ++ l2)%list p.
Proof.
  unfold add_issues, with_self, set_security_issues. simpl. now rewrite app_assoc.
Qed.

Lemma after_gitleaks_app l1 l2 p :
  after_gitleaks l2 (after_gitleaks l1 p) = after_gitleaks (l1 ++ l2)%list p.
Proof.
  destruct l1 as [|a l1]; [reflexivity|].
  destruct l2 as [|b l2]; [now rewrite app_nil_r|].
  unfold after_gitleaks, with_self, set_compliance_status, set_risk_level,
    set_security_issues. simpl. now rewrite <- app_assoc.
Qed.

Lemma semgrep_step_eq result p :
  semgrep_step result p =
  match semgrep_item result with
  | Ok o => (Ok tt, add_issues (match o with Some i => [i] | None => [] end) p)
  | Raise e => (Raise e, p)
  end.
Proof.
  unfold semgrep_step, semgrep_item, bind, lift, rbind.
  destruct (semgrep_issue result); reflexivity.
Qed.

Lemma vulnerability_step_eq m p :
  vulnerability_step m p =
  match vulnerability_item m with
  | Ok o => (Ok tt, add_issues (match o with Some i => [i] | None => [] end) p)
  | Raise e => (Raise e, p)
  end.
Proof.
  unfold vulnerability_step, vulnerability_item, bind, lift, rbind.
  destruct (match_severity m) as [sev|e]; [|reflexivity].
  destruct (in_high_critical sev).
  - destruct (vulnerability_issue m sev); reflexivity.
  - unfold ret. now rewrite add_issues_nil.
Qed.

Lemma gitleaks_step_eq finding p :
  gitleaks_step finding p =
  match gitleaks_item finding with
  | Ok o => (Ok tt, after_gitleaks (match o with Some i => [i] | None => [] end) p)
  | Raise e => (Raise e, p)
  end.
Proof.
  unfold gitleaks_step, gitleaks_item, bind, lift, rbind.
  destruct (gitleaks_issue finding); reflexivity.
Qed.

(** A loop whose turns append what [f] gives. *)
Lemma append_loop {A} (step : A -> M unit) (f : A -> res (option issue))
    (grow : list issue -> process -> process) :
  (forall p, grow [] p = p) ->
  (forall l1 l2 p, grow l2 (grow l1 p) = grow (l1 ++ l2)%list p) ->
  (forall x p, step x p =
     match f x with
     | Ok o => (Ok tt, grow (match o with Some i => [i] | None => [] end) p)
     | Raise e => (Raise e, p)
     end) ->
  forall items p,
    for_each items step p = (snd (collect f items), grow (fst (collect f items)) p).
Proof.
  intros Hnil Happ Hstep items. induction items as [|x r IH]; intros p; simpl.
  - unfold ret. now rewrite Hnil.
  - unfold bind. rewrite Hstep. destruct (f x) as [o|e]; simpl.
    + rewrite IH, Happ. reflexivity.
    + now rewrite Hnil.
Qed.

Lemma semgrep_loop items p :
  for_each items semgrep_step p =
  (snd (collect semgrep_item items), add_issues (fst (collect semgrep_item items)) p).
Proof.
  apply append_loop; [apply add_issues_nil | apply add_issues_app | apply semgrep_step_eq].
Qed.

Lemma vulnerability_loop items p :
  for_each items vulnerability_step p =
  (snd (collect vulnerability_item items),
   add_issues (fst (collect vulnerability_item items)) p).
Proof.
  apply append_loop;
    [apply add_issues_nil | apply add_issues_app | apply vulnerability_step_eq].
Qed.

Lemma gitleaks_loop items p :
  for_each items gitleaks_step p =
  (snd (collect gitleaks_item items),
   after_gitleaks (fst (collect gitleaks_item items)) p).
Proof.
  apply append_loop;
    [reflexivity | apply after_gitleaks_app | apply gitleaks_step_eq].
Qed.

End LoaderFacts.

(* ================================================================== *)
(** ** Vulnerability loader *)

Module VulnerabilityFacts.

Import Text Py Gen Trace LoaderFacts.

Lemma semgrep_except_prints path : only_prints (semgrep_except path).
Proof. intros e h. destruct e; simpl; intros H; inversion H; eauto. Qed.

Lemma gitleaks_except_prints path : only_prints (gitleaks_except path).
Proof. intros e h. destruct e; simpl; intros H; inversion H; eauto. Qed.

Lemma vulnerability_except_prints path : only_prints (vulnerability_except path).
Proof. intros e h. destruct e; simpl; intros H; inversion H; eauto. Qed.

Lemma finish_frame handler r p :
  only_prints handler ->
  self (snd (finish handler r p)) = self p
  /\ files (snd (finish handler r p)) = files p
  /\ written (snd (finish handler r p)) = written p.
Proof.
  intros Hh. destruct r as [a|e]; simpl; [auto|].
  destruct (handler e) as [h|] eqn:E; simpl; [|auto].
  destruct (Hh _ _ E) as [text ->]. simpl. auto.
Qed.

(** The loader, by what it finds at [path]. *)
Lemma load_vulnerability_scan_eq path p :
  load_vulnerability_scan path p =
  match files p path with
  | Absent => finish (vulnerability_except path) (Raise FileNotFoundError) p
  | Malformed => finish (vulnerability_except path) (Raise JSONDecodeError) p
  | Unread r => (Raise (read_error_exn r), p)
  | Json data =>
      match vulnerability_items data with
      | Raise e => finish (vulnerability_except path) (Raise e) p
      | Ok items =>
          finish (vulnerability_except path)
            (snd (collect vulnerability_item items))
            (add_issues (fst (collect vulnerability_item items)) p)
      end
  end.
Proof.
  unfold load_vulnerability_scan, try_except, vulnerability_items, bind at 1.
  unfold open_json. destruct (files p path) as [| |r|data]; try reflexivity;
    [destruct r; reflexivity|].
  unfold bind at 1, lift. destruct (get data "matches" (PList [])) as [ms|e];
    [|reflexivity].
  unfold bind, rbind. destruct (iter ms) as [items|e]; [|reflexivity].
  rewrite vulnerability_loop. reflexivity.
Qed.

(** Whatever the input, the loader changes nothing in the generator but
    [security_issues], which it only extends; it reads and writes no file. *)
Lemma load_vulnerability_scan_frame path p :
  exists new,
    self (snd (load_vulnerability_scan path p)) = self (add_issues new p)
    /\ files (snd (load_vulnerability_scan path p)) = files p
    /\ written (snd (load_vulnerability_scan path p)) = written p.
Proof.
  rewrite load_vulnerability_scan_eq.
  pose proof (vulnerability_except_prints path) as Hp.
  destruct (files p path) as [| |r|data].
  - exists []. rewrite add_issues_nil. now apply finish_frame.
  - exists []. rewrite add_issues_nil. now apply finish_frame.
  - exists []. rewrite add_issues_nil. auto.
  - destruct (vulnerability_items data) as [items|e].
    + exists (fst (collect vulnerability_item items)).
      destruct (finish_frame _ (snd (collect vulnerability_item items))
                  (add_issues (fst (collect vulnerability_item items)) p) Hp)
        as (H1 & H2 & H3).
      rewrite H1, H2, H3. auto.
    + exists []. rewrite add_issues_nil. now apply finish_frame.
Qed.

End VulnerabilityFacts.


Module VulnerabilityShapeFacts.

Import Text Py Gen Trace LoaderFacts VulnerabilityFacts Shape.

#[local] Arguments lookup : simpl never.
#[local] Arguments String.eqb : simpl never.

Lemma fix_version_shape kvs :
  match lookup "vulnerability" kvs with
  | None => true
  | Some (PDict v) => fix_shape (lookup "fix" v)
  | Some _ => false
  end = true ->
  exists version, fix_version (PDict kvs) = Ok version.
Proof.
  unfold fix_version. simpl.
  destruct (lookup "vulnerability" kvs) as [[]|] eqn:Ev; try discriminate; simpl.
  - destruct (lookup "fix" kvs0) as [[]|] eqn:Ef; try discriminate; simpl.
    + destruct kvs1 as [|kv fx] eqn:Ek; simpl; [eauto|].
      rewrite <- Ek.
      destruct (lookup "versions" kvs1) as [[]|]; try discriminate; simpl.
      * destruct l; [discriminate | eauto].
      * eauto.
    + eauto.
  - eauto.
Qed.

Lemma vulnerability_item_shape m :
  match_shape m = true ->
  (reported m = true /\
   exists i, vulnerability_item m = Ok (Some i) /\ issue_of_match i m)
  \/ (reported m = false /\ vulnerability_item m = Ok None).
Proof.
  destruct m as [| | | | |l|kvs]; try discriminate. simpl.
  rewrite andb_true_iff. intros [Ha Hv].
  destruct (fix_version_shape kvs Hv) as [version Hfix].
  unfold vulnerability_item, match_severity, reported, declared_severity,
    issue_of_match, vulnerability_issue, in_high_critical, eq_str. simpl.
  rewrite Hfix.
  destruct (lookup "vulnerability" kvs) as [[]|] eqn:Ev; try discriminate; simpl.
  - destruct (lookup "severity" kvs0) as [sev|] eqn:Es; simpl.
    + destruct sev; simpl; auto.
      destruct (orb (s =? "HIGH") (s =? "CRITICAL")) eqn:Eh; [|auto].
      left. split; [reflexivity|].
      destruct (lookup "artifact" kvs) as [[]|]; try discriminate; simpl;
        eexists; split; try reflexivity; simpl; auto.
    + auto.
  - auto.
Qed.

Lemma collect_vulnerability_shape ms :
  forallb match_shape ms = true ->
  snd (collect vulnerability_item ms) = Ok tt
  /\ Forall2 issue_of_match (fst (collect vulnerability_item ms)) (filter reported ms).
Proof.
  induction ms as [|m ms IH]; simpl; [auto|].
  rewrite andb_true_iff. intros [Hm Hms]. destruct (IH Hms) as [Hok Hall].
  destruct (vulnerability_item_shape m Hm) as [(Hr & i & -> & Hi) | (Hr & ->)];
    rewrite Hr; simpl; auto.
Qed.

End VulnerabilityShapeFacts.

(* ================================================================== *)
(** ** Static-analysis and secret-detection loaders *)

Module SemgrepFacts.

Import Text Py Gen Trace LoaderFacts VulnerabilityFacts.

#[local] Arguments lookup : simpl never.
#[local] Arguments String.eqb : simpl never.

(** The secret-detection loader, by what it finds at [path]. *)
Lemma load_gitleaks_results_eq path p :
  load_gitleaks_results path p =
  match files p path with
  | Absent => finish (gitleaks_except path) (Raise FileNotFoundError) p
  | Malformed => finish (gitleaks_except path) (Raise JSONDecodeError) p
  | Unread r => (Raise (read_error_exn r), p)
  | Json data =>
      match iter data with
      | Raise e => finish (gitleaks_except path) (Raise e) p
      | Ok items =>
          finish (gitleaks_except path)
            (snd (collect gitleaks_item items))
            (after_gitleaks (fst (collect gitleaks_item items)) p)
      end
  end.
Proof.
  unfold load_gitleaks_results, try_except, bind at 1.
  unfold open_json. destruct (files p path) as [| |r|data]; try reflexivity;
    [destruct r; reflexivity|].
  unfold bind, lift. destruct (iter data) as [items|e]; [|reflexivity].
  rewrite gitleaks_loop. reflexivity.
Qed.

(** The static-analysis loader, by what it finds at [path]. *)
Lemma load_semgrep_results_eq path p :
  load_semgrep_results path p =
  match files p path with
  | Absent => finish (semgrep_except path) (Raise FileNotFoundError) p
  | Malformed => finish (semgrep_except path) (Raise JSONDecodeError) p
  | Unread r => (Raise (read_error_exn r), p)
  | Json data =>
      match semgrep_scanned data with
      | Raise e => finish (semgrep_except path) (Raise e) p
      | Ok n =>
          match semgrep_results data with
          | Raise e => finish (semgrep_except path) (Raise e) (with_scanned n p)
          | Ok items =>
              let p1 := add_issues (fst (collect semgrep_item items)) (with_scanned n p) in
              match snd (collect semgrep_item items) with
              | Raise e => finish (semgrep_except path) (Raise e) p1
              | Ok _ =>
                  match semgrep_verdict data with
                  | Raise e => finish (semgrep_except path) (Raise e) p1
                  | Ok v => (Ok tt, with_verdict v p1)
                  end
              end
          end
      end
  end.
Proof.
  unfold load_semgrep_results, try_except, bind at 1.
  unfold open_json. destruct (files p path) as [| |r|data]; try reflexivity;
    [destruct r; reflexivity|].
  unfold semgrep_scanned, semgrep_results, semgrep_verdict.
  unfold bind at 1, lift, rbind.
  destruct (get data "paths" (PDict [])) as [paths|e]; [|reflexivity].
  unfold bind at 1.
  destruct (get paths "scanned" (PList [])) as [scanned|e]; [|reflexivity].
  unfold bind at 1.
  destruct (len scanned) as [n|e]; [|reflexivity].
  unfold bind at 1, update at 1. unfold bind at 1.
  destruct (get data "results" (PList [])) as [results|e]; [|reflexivity].
  unfold bind at 1.
  destruct (iter results) as [items|e] eqn:Ei; [|reflexivity].
  unfold bind at 1. rewrite semgrep_loop.
  change {| files := files p; self := set_total_files_scanned n (self p);
            stdout := stdout p; written := written p |} with (with_scanned n p).
  destruct (snd (collect semgrep_item items)) as [[]|e]; [|reflexivity].
  cbv zeta. set (p1 := add_issues _ _).
  unfold bind at 1. unfold bind at 1.
  destruct (len results) as [count|e]; [|reflexivity].
  destruct (count =? 0)%nat.
  - reflexivity.
  - unfold bind at 1. unfold bind at 1. unfold bind at 1. rewrite Ei.
    unfold bind at 1.
    destruct (any_error items) as [[]|e]; reflexivity.
Qed.

End SemgrepFacts.

(* ================================================================== *)
(** ** What the loops collect *)

Module ItemFacts.

Import Text Py Gen Trace LoaderFacts VulnerabilityFacts SemgrepFacts Shape.

#[local] Arguments lookup : simpl never.
#[local] Arguments String.eqb : simpl never.

Lemma get_raises d k v e : get d k v = Raise e -> e = AttributeError.
Proof. destruct d; simpl; intros H; inversion H; reflexivity. Qed.

Lemma getitem_raises v k e : getitem v k = Raise e -> e = KeyError \/ e = TypeError.
Proof.
  destruct v; simpl; intros H; try (inversion H; auto; fail).
  destruct (lookup k kvs); inversion H; auto.
Qed.

Lemma len_raises v e : len v = Raise e -> e = TypeError.
Proof. destruct v; simpl; intros H; inversion H; reflexivity. Qed.

Lemma iter_raises v e : iter v = Raise e -> e = TypeError.
Proof. destruct v; simpl; intros H; inversion H; reflexivity. Qed.

Lemma iter_len v items : iter v = Ok items -> len v = Ok (List.length items).
Proof.
  destruct v; simpl; intros H; inversion H; subst; try reflexivity.
  - now rewrite length_map.
  - now rewrite length_map.
Qed.

Lemma table_get_raises t v d e : table_get t v d = Raise e -> e = AttributeError.
Proof. destruct v; simpl; intros H; inversion H; reflexivity. Qed.

Lemma collect_forall {A} (f : A -> res (option issue)) (P : issue -> Prop) :
  (forall x i, f x = Ok (Some i) -> P i) ->
  forall l, Forall P (fst (collect f l)).
Proof.
  intros Hf l. induction l as [|x r IH]; simpl; [constructor|].
  destruct (f x) as [[i|]|e] eqn:E; simpl; auto.
  constructor; eauto.
Qed.

Lemma collect_raises {A} (f : A -> res (option issue)) (P : exn -> Prop) :
  (forall x e, f x = Raise e -> P e) ->
  forall l e, snd (collect f l) = Raise e -> P e.
Proof.
  intros Hf l. induction l as [|x r IH]; simpl; [discriminate|].
  intros e. destruct (f x) as [o|e'] eqn:E; simpl; [apply IH|].
  intros H. inversion H; subst. eauto.
Qed.

(** *** Secret-detection findings *)

Lemma gitleaks_item_cases finding :
  (exists i, gitleaks_item finding = Ok (Some i)
             /\ type i = "Secret/PII Exposure" /\ severity i = PStr "HIGH")
  \/ gitleaks_item finding = Raise AttributeError.
Proof.
  destruct finding; try (right; reflexivity).
  left. unfold gitleaks_item, gitleaks_issue. simpl. eexists. split; [reflexivity|].
  simpl. auto.
Qed.

Lemma gitleaks_item_dict kvs : exists i, gitleaks_item (PDict kvs) = Ok (Some i).
Proof. unfold gitleaks_item, gitleaks_issue. simpl. eauto. Qed.

Lemma collect_gitleaks items :
  (snd (collect gitleaks_item items) = Ok tt
   /\ List.length (fst (collect gitleaks_item items)) = List.length items)
  \/ snd (collect gitleaks_item items) = Raise AttributeError.
Proof.
  induction items as [|x r IH]; simpl; [auto|].
  destruct (gitleaks_item_cases x) as [(i & -> & _) | ->]; simpl; [|auto].
  destruct IH as [[-> ->] | ->]; auto.
Qed.

Lemma collect_gitleaks_shape items :
  forallb is_dict items = true -> snd (collect gitleaks_item items) = Ok tt.
Proof.
  induction items as [|x r IH]; simpl; [reflexivity|].
  rewrite andb_true_iff. intros [Hx Hr]. destruct x; try discriminate.
  destruct (gitleaks_item_dict kvs) as [i ->]. simpl. auto.
Qed.

(** *** Static-analysis results *)

Lemma semgrep_issue_ok result i :
  semgrep_issue result = Ok i ->
  type i = "GDPR Compliance Violation"
  /\ exists extra, getitem result "extra" = Ok extra
                   /\ getitem extra "severity" = Ok (severity i).
Proof.
  unfold semgrep_issue, rbind.
  destruct (getitem result "extra") as [extra|]; [|discriminate].
  destruct (getitem extra "severity") as [sev|] eqn:Es; [|discriminate].
  destruct (getitem extra "message"); [|discriminate].
  destruct (getitem result "path"); [|discriminate].
  destruct (getitem result "start") as [st|]; [|discriminate].
  destruct (getitem st "line"); [|discriminate].
  destruct (getitem result "check_id") as [cid|]; [|discriminate].
  destruct (_get_business_impact cid); [|discriminate].
  destruct (_get_remediation_advice cid); [|discriminate].
  intros H. inversion H; subst; simpl.
  split; [reflexivity | exists extra; split; [reflexivity | assumption]].
Qed.

Lemma semgrep_issue_raises result e : semgrep_issue result = Raise e -> lookup_error e.
Proof.
  unfold semgrep_issue, rbind, lookup_error, _get_business_impact,
    _get_remediation_advice.
  repeat match goal with
         | |- context [getitem ?v ?k] =>
             let E := fresh "E" in
             destruct (getitem v k) eqn:E;
             [| cbv iota beta; intros H; inversion H; subst;
                destruct (getitem_raises _ _ _ E); auto]
         | |- context [table_get ?t ?v ?d] =>
             let E := fresh "E" in
             destruct (table_get t v d) eqn:E;
             [| cbv iota beta; intros H; inversion H; subst;
                rewrite (table_get_raises _ _ _ _ E); auto 6]
         end.
  discriminate.
Qed.

Lemma semgrep_item_ok result o :
  semgrep_item result = Ok o ->
  exists i, o = Some i /\ semgrep_issue result = Ok i.
Proof.
  unfold semgrep_item, rbind. destruct (semgrep_issue result); intros H;
    inversion H; eauto.
Qed.

Lemma semgrep_item_raises result e : semgrep_item result = Raise e -> lookup_error e.
Proof.
  unfold semgrep_item, rbind. destruct (semgrep_issue result) eqn:E; intros H;
    inversion H; subst. eapply semgrep_issue_raises; eauto.
Qed.

(** When the loop got through, [any] sees the severities the issues carry. *)
Lemma any_error_collected items :
  snd (collect semgrep_item items) = Ok tt ->
  any_error items
  = Ok (existsb (fun i => eq_str (severity i) "ERROR") (fst (collect semgrep_item items)))
  /\ List.length (fst (collect semgrep_item items)) = List.length items.
Proof.
  induction items as [|x r IH]; simpl; [auto|].
  destruct (semgrep_item x) as [o|e] eqn:E; simpl; [|discriminate].
  destruct (semgrep_item_ok _ _ E) as (i & -> & Hi).
  destruct (semgrep_issue_ok _ _ Hi) as (_ & extra & Hx & Hs).
  rewrite Hx. simpl. rewrite Hs. simpl.
  intros H. destruct (IH H) as [-> ->].
  split; [|reflexivity]. now destruct (eq_str (severity i) "ERROR").
Qed.

Lemma semgrep_verdict_eq data items :
  semgrep_results data = Ok items ->
  semgrep_verdict data =
  match items with
  | [] => Ok (LOW, COMPLIANT)
  | _ :: _ =>
      rbind (any_error items)
        (fun found => if found then Ok (HIGH, NON_COMPLIANT)
                      else Ok (MEDIUM, PARTIALLY_COMPLIANT))
  end.
Proof.
  unfold semgrep_results, semgrep_verdict, rbind.
  destruct (get data "results" (PList [])) as [results|]; [|discriminate].
  intros Hi. rewrite (iter_len _ _ Hi), Hi. destruct items; reflexivity.
Qed.

End ItemFacts.

(* ================================================================== *)
(** ** Inputs of the documented shape *)

Module ShapeFacts.

Import Text Py Gen Trace LoaderFacts VulnerabilityFacts SemgrepFacts Shape ItemFacts.

#[local] Arguments lookup : simpl never.
#[local] Arguments String.eqb : simpl never.

Lemma result_shape_item r :
  result_shape r = true ->
  exists i, semgrep_item r = Ok (Some i)
            /\ eq_str (severity i) "ERROR" = is_error r
            /\ Some (severity i) = result_severity r.
Proof.
  destruct r as [| | | | |l|kvs]; try discriminate.
  unfold result_shape, semgrep_item, semgrep_issue, is_error, result_severity. simpl.
  destruct (lookup "check_id" kvs) as [[]|]; try discriminate.
  destruct (lookup "path" kvs); try discriminate.
  destruct (lookup "start" kvs) as [[]|]; try discriminate.
  destruct (lookup "extra" kvs) as [[]|]; try discriminate. simpl.
  destruct (lookup "line" kvs0); try discriminate.
  destruct (lookup "severity" kvs1) as [sev|]; try discriminate.
  destruct (lookup "message" kvs1); try discriminate. simpl.
  intros _. eexists. split; [reflexivity|]. simpl. split; [|reflexivity].
  destruct sev; reflexivity.
Qed.

Lemma collect_semgrep_shape rs :
  forallb result_shape rs = true ->
  snd (collect semgrep_item rs) = Ok tt
  /\ existsb (fun i => eq_str (severity i) "ERROR") (fst (collect semgrep_item rs))
     = existsb is_error rs
  /\ Forall2 (fun i r => Some (severity i) = result_severity r)
       (fst (collect semgrep_item rs)) rs.
Proof.
  induction rs as [|r rs IH]; simpl; [auto|].
  rewrite andb_true_iff. intros [Hr Hrs].
  destruct (result_shape_item r Hr) as (i & -> & He & Hs).
  destruct (IH Hrs) as (-> & Hex & Hall). simpl. rewrite He, Hex. auto.
Qed.

Lemma semgrep_scanned_shape kvs :
  scanned_shape (lookup "paths" kvs) = true ->
  exists n, semgrep_scanned (PDict kvs) = Ok n.
Proof.
  unfold semgrep_scanned, scanned_shape. simpl.
  destruct (lookup "paths" kvs) as [[]|]; try discriminate; simpl.
  - destruct (lookup "scanned" kvs0) as [[]|]; try discriminate; simpl; eauto.
  - eauto.
Qed.

Lemma semgrep_results_shape data :
  semgrep_shape data = true ->
  semgrep_results data = Ok (results_of data)
  /\ forallb result_shape (results_of data) = true
  /\ exists n, semgrep_scanned data = Ok n.
Proof.
  destruct data as [| | | | |l|kvs]; try discriminate.
  unfold semgrep_shape, semgrep_results, results_of. simpl.
  rewrite andb_true_iff. intros [Hs Hr].
  split; [|split; [|now apply semgrep_scanned_shape]];
    destruct (lookup "results" kvs) as [[]|]; try discriminate; auto.
Qed.

Lemma semgrep_verdict_shape data :
  semgrep_shape data = true ->
  semgrep_verdict data = Ok (static_analysis_rule (results_of data)).
Proof.
  intros Hshape. destruct (semgrep_results_shape data Hshape) as (Hres & Hall & _).
  rewrite (semgrep_verdict_eq _ _ Hres).
  destruct (collect_semgrep_shape _ Hall) as (Hok & Hex & _).
  destruct (any_error_collected _ Hok) as [Hany _].
  unfold static_analysis_rule. destruct (results_of data) as [|r rs]; [reflexivity|].
  rewrite Hany, Hex. unfold rbind.
  destruct (existsb is_error (r :: rs)); reflexivity.
Qed.

End ShapeFacts.

(* ================================================================== *)
(** ** What each loader leaves alone *)

Module FrameFacts.

Import Text Py Gen Trace LoaderFacts VulnerabilityFacts SemgrepFacts Shape ItemFacts.

#[local] Arguments lookup : simpl never.
#[local] Arguments String.eqb : simpl never.

Lemma load_semgrep_results_files path p :
  files (snd (load_semgrep_results path p)) = files p
  /\ written (snd (load_semgrep_results path p)) = written p.
Proof.
  rewrite load_semgrep_results_eq.
  pose proof (semgrep_except_prints path) as Hp.
  repeat match goal with
         | |- context [match ?x with _ => _ end] => destruct x
         end;
    cbv zeta;
    try match goal with
        | |- context [finish ?h ?r ?q] =>
            destruct (finish_frame h r q Hp) as (_ & -> & ->)
        end;
    split; reflexivity.
Qed.

Lemma load_gitleaks_results_files path p :
  files (snd (load_gitleaks_results path p)) = files p
  /\ written (snd (load_gitleaks_results path p)) = written p.
Proof.
  rewrite load_gitleaks_results_eq.
  pose proof (gitleaks_except_prints path) as Hp.
  assert (Hg : forall l, files (after_gitleaks l p) = files p
                         /\ written (after_gitleaks l p) = written p)
    by (intros [|i l]; split; reflexivity).
  destruct (files p path) as [| |r|data]; try (now apply finish_frame);
    [split; reflexivity|].
  destruct (iter data) as [items|e]; try (now apply finish_frame).
  destruct (finish_frame _ (snd (collect gitleaks_item items))
              (after_gitleaks (fst (collect gitleaks_item items)) p) Hp)
    as (_ & -> & ->).
  apply Hg.
Qed.

(** A secret-detection file that holds at least one finding, once loaded
    without an exception, leaves the state at CRITICAL and NON-COMPLIANT. *)
Lemma load_gitleaks_results_nonempty path p q x xs :
  files p path = Json (PList (x :: xs)) ->
  load_gitleaks_results path p = (Ok tt, q) ->
  risk_level (self q) = CRITICAL /\ compliance_status (self q) = NON_COMPLIANT.
Proof.
  intros Hfile. rewrite load_gitleaks_results_eq, Hfile. simpl iter. cbv iota beta.
  destruct (collect_gitleaks (x :: xs)) as [[Hok Hlen] | Hraise];
    destruct (collect gitleaks_item (x :: xs)) as [l r]; simpl fst in *;
    simpl snd in *; subst r; simpl finish.
  - intros H. inversion H; subst.
    destruct l; [discriminate | split; reflexivity].
  - discriminate.
Qed.

(** On a list of objects the secret-detection loader ends normally. *)
Lemma load_gitleaks_results_total path p data :
  files p path = Json data ->
  gitleaks_shape data = true ->
  fst (load_gitleaks_results path p) = Ok tt
  /\ self (snd (load_gitleaks_results path p))
     = self (after_gitleaks (fst (collect gitleaks_item (match data with
                                                          | PList l => l
                                                          | _ => []
                                                          end))) p).
Proof.
  intros Hfile Hshape. rewrite load_gitleaks_results_eq, Hfile.
  destruct data; try discriminate. simpl in *.
  rewrite (collect_gitleaks_shape _ Hshape). simpl. auto.
Qed.

End FrameFacts.

(* ================================================================== *)
(** ** The loaders and the risk level *)

Module InvariantFacts.

Import Text Py Gen Render Trace LoaderFacts VulnerabilityFacts SemgrepFacts Shape
  ItemFacts FrameFacts Invariant.

#[local] Arguments lookup : simpl never.
#[local] Arguments String.eqb : simpl never.

Lemma finish_raises_semgrep path e p :
  lookup_error e -> finish (semgrep_except path) (Raise e) p = (Raise e, p).
Proof. intros [-> | [-> | [-> | ->]]]; reflexivity. Qed.

Lemma semgrep_scanned_raises data e : semgrep_scanned data = Raise e -> lookup_error e.
Proof.
  unfold semgrep_scanned, rbind, lookup_error.
  destruct (get data "paths" (PDict [])) as [paths|e1] eqn:E1.
  - destruct (get paths "scanned" (PList [])) as [scanned|e2] eqn:E2.
    + intros H. rewrite (len_raises _ _ H). auto.
    + intros H. inversion H; subst. rewrite (get_raises _ _ _ _ E2). auto.
  - intros H. inversion H; subst. rewrite (get_raises _ _ _ _ E1). auto.
Qed.

Lemma semgrep_results_raises data e : semgrep_results data = Raise e -> lookup_error e.
Proof.
  unfold semgrep_results, rbind, lookup_error.
  destruct (get data "results" (PList [])) as [results|e1] eqn:E1.
  - intros H. rewrite (iter_raises _ _ H). auto.
  - intros H. inversion H; subst. rewrite (get_raises _ _ _ _ E1). auto.
Qed.

Lemma semgrep_item_type result i :
  semgrep_item result = Ok (Some i) -> type i = "GDPR Compliance Violation".
Proof.
  intros H. destruct (semgrep_item_ok _ _ H) as (j & Hj & Hi).
  inversion Hj; subst. now destruct (semgrep_issue_ok _ _ Hi).
Qed.

Lemma vulnerability_item_type m i :
  vulnerability_item m = Ok (Some i) -> type i = "Dependency Vulnerability".
Proof.
  unfold vulnerability_item, rbind.
  destruct (match_severity m) as [sev|]; [|discriminate].
  destruct (in_high_critical sev); [|discriminate].
  unfold vulnerability_issue, rbind.
  destruct (get m "artifact" (PDict [])) as [a|]; [|discriminate].
  destruct (get a "name" (PStr "Unknown")); [|discriminate].
  destruct (get m "vulnerability" (PDict [])) as [v|]; [|discriminate].
  destruct (get v "id" (PStr "vuln-scan")); [|discriminate].
  destruct (fix_version m); [|discriminate].
  intros H. inversion H; subst. reflexivity.
Qed.

Lemma gitleaks_item_type finding i :
  gitleaks_item finding = Ok (Some i) -> type i = "Secret/PII Exposure".
Proof.
  destruct (gitleaks_item_cases finding) as [(j & -> & Ht & _) | ->];
    intros H; inversion H; subst; assumption.
Qed.

(** The state in which the static-analysis loader leaves a fresh generator. *)
Lemma load_semgrep_results_reflected path fs now p :
  load_semgrep_results path (start fs now) = (Ok tt, p) ->
  scanner_findings_reflected (self p).
Proof.
  rewrite load_semgrep_results_eq.
  assert (Hinit : forall q, self q = init now -> scanner_findings_reflected (self q)).
  { intros q Hq i Hi. rewrite Hq in Hi. destruct Hi. }
  pose proof (semgrep_except_prints path) as Hp.
  destruct (files (start fs now) path) as [| |r|data].
  - intros H. apply Hinit.
    destruct (finish_frame _ (Raise FileNotFoundError) (start fs now) Hp) as (Hs & _).
    rewrite H in Hs. exact Hs.
  - intros H. apply Hinit.
    destruct (finish_frame _ (Raise JSONDecodeError) (start fs now) Hp) as (Hs & _).
    rewrite H in Hs. exact Hs.
  - discriminate.
  - destruct (semgrep_scanned data) as [n|e] eqn:En.
    2:{ rewrite (finish_raises_semgrep _ _ _ (semgrep_scanned_raises _ _ En)).
        discriminate. }
    destruct (semgrep_results data) as [items|e] eqn:Er.
    2:{ rewrite (finish_raises_semgrep _ _ _ (semgrep_results_raises _ _ Er)).
        discriminate. }
    cbv zeta.
    destruct (snd (collect semgrep_item items)) as [[]|e] eqn:Ec.
    2:{ rewrite (finish_raises_semgrep _ _ _
                   (collect_raises _ _ semgrep_item_raises _ _ Ec)).
        discriminate. }
    rewrite (semgrep_verdict_eq _ _ Er).
    destruct (any_error_collected _ Ec) as [Hany Hlen].
    pose proof (collect_forall _ _ semgrep_item_type items) as Htypes.
    destruct (fst (collect semgrep_item items)) as [|i0 l] eqn:El.
    + destruct items; [|discriminate]. intros H. inversion H; subst.
      intros i Hi. destruct Hi.
    + destruct items as [|x xs]; [discriminate|]. rewrite Hany. unfold rbind.
      destruct (existsb (fun i => eq_str (severity i) "ERROR") (i0 :: l)) eqn:Ex;
        intros H; inversion H; subst; clear H; intros i Hi; simpl in Hi;
        assert (Ht : type i = "GDPR Compliance Violation")
          by (rewrite Forall_forall in Htypes; now apply Htypes);
        (split; [intros Hs; rewrite Ht in Hs; discriminate|]);
        (split; [intros _; simpl; unfold risk_le; simpl; split;
                   [lia | discriminate]|]);
        intros _ Hsev; simpl.
      * unfold risk_le. simpl. split; [lia | reflexivity].
      * exfalso. assert (Hx : existsb (fun i => eq_str (severity i) "ERROR") (i0 :: l) = true).
        { apply existsb_exists. exists i. split; [exact Hi|]. rewrite Hsev. reflexivity. }
        rewrite Hx in Ex. discriminate.
Qed.

(** What the secret-detection loader does to the generator. *)
Lemma load_gitleaks_results_self path p :
  exists l, self (snd (load_gitleaks_results path p)) = self (after_gitleaks l p).
Proof.
  rewrite load_gitleaks_results_eq.
  pose proof (gitleaks_except_prints path) as Hp.
  destruct (files p path) as [| |r|data];
    try (exists []; now apply finish_frame); [exists []; reflexivity|].
  destruct (iter data) as [items|e]; try (exists []; now apply finish_frame).
  exists (fst (collect gitleaks_item items)).
  now destruct (finish_frame _ (snd (collect gitleaks_item items))
                  (after_gitleaks (fst (collect gitleaks_item items)) p) Hp).
Qed.

Lemma load_gitleaks_results_reflected path p :
  scanner_findings_reflected (self p) ->
  scanner_findings_reflected (self (snd (load_gitleaks_results path p))).
Proof.
  intros Hinv. destruct (load_gitleaks_results_self path p) as [l ->].
  destruct l as [|i0 l]; [exact Hinv|].
  intros i _. simpl. unfold risk_le. simpl.
  repeat split; try lia; try discriminate.
Qed.

(** What the vulnerability loader appends is of its own type. *)
Lemma load_vulnerability_scan_self path p :
  exists new,
    self (snd (load_vulnerability_scan path p)) = self (add_issues new p)
    /\ Forall (fun i => type i = "Dependency Vulnerability") new.
Proof.
  rewrite load_vulnerability_scan_eq.
  pose proof (vulnerability_except_prints path) as Hp.
  destruct (files p path) as [| |r|data];
    try (exists []; rewrite add_issues_nil; split; [now apply finish_frame | constructor]);
    [exists []; rewrite add_issues_nil; split; [reflexivity | constructor]|].
  destruct (vulnerability_items data) as [items|e];
    try (exists []; rewrite add_issues_nil; split; [now apply finish_frame | constructor]).
  exists (fst (collect vulnerability_item items)). split.
  - now destruct (finish_frame _ (snd (collect vulnerability_item items))
                    (add_issues (fst (collect vulnerability_item items)) p) Hp).
  - apply collect_forall. apply vulnerability_item_type.
Qed.

Lemma load_vulnerability_scan_reflected path p :
  scanner_findings_reflected (self p) ->
  scanner_findings_reflected (self (snd (load_vulnerability_scan path p))).
Proof.
  intros Hinv. destruct (load_vulnerability_scan_self path p) as (new & -> & Hnew).
  intros i Hi. simpl in Hi. apply in_app_or in Hi as [Hi | Hi].
  - exact (Hinv i Hi).
  - rewrite Forall_forall in Hnew. specialize (Hnew i Hi).
    split; [|split]; intros Ht; rewrite Hnew in Ht; discriminate.
Qed.

End InvariantFacts.

(* ================================================================== *)
(** ** The recommender *)

Module RecommenderFacts.

Import Text Py Gen Render Trace TextFacts.

#[local] Arguments String.eqb : simpl never.

Lemma with_self_same p : with_self (self p) p = p.
Proof. now destruct p. Qed.

Lemma set_recommendations_same d : set_recommendations (recommendations d) d = d.
Proof. now destruct d. Qed.

Lemma generate_recommendations_eq p :
  generate_recommendations p
  = (Ok tt, with_self (set_recommendations (recommended (self p)) (self p)) p).
Proof.
  unfold generate_recommendations, recommended, bind, read.
  destruct (security_issues (self p)) as [|i l] eqn:E; [reflexivity|].
  destruct (0 <? high_severity_count (i :: l))%nat;
    unfold update, ret, with_self, extend_recommendations, set_recommendations;
    cbn -[app high_severity_recommendations gdpr_recommendations any_gdpr
          high_severity_count];
    rewrite E; destruct (any_gdpr (i :: l));
    cbn -[app high_severity_recommendations gdpr_recommendations];
    rewrite ?app_nil_r, <- ?app_assoc; try reflexivity.
  all: rewrite <- ?E; destruct p as [f d o w]; destruct d; reflexivity.
Qed.

Lemma in_high_critical_spec v :
  in_high_critical v = true <-> v = PStr "HIGH" \/ v = PStr "CRITICAL".
Proof.
  unfold in_high_critical, eq_str. destruct v; simpl;
    try (split; [discriminate | intros [H | H]; discriminate]).
  rewrite orb_true_iff, !String.eqb_eq. split.
  - intros [-> | ->]; auto.
  - intros [H | H]; inversion H; auto.
Qed.

Lemma high_severity_count_pos issues :
  (0 < high_severity_count issues)%nat <->
  exists i, In i issues /\ (severity i = PStr "HIGH" \/ severity i = PStr "CRITICAL").
Proof.
  unfold high_severity_count. split.
  - intros H. destruct (filter (fun i => in_high_critical (severity i)) issues)
      as [|i l] eqn:E; [simpl in H; lia|].
    assert (Hi : In i (filter (fun i => in_high_critical (severity i)) issues))
      by (rewrite E; now left).
    apply filter_In in Hi as [Hin Hs]. exists i. split; [exact Hin|].
    now apply in_high_critical_spec.
  - intros (i & Hin & Hs).
    assert (Hi : In i (filter (fun i => in_high_critical (severity i)) issues))
      by (apply filter_In; split; [exact Hin | now apply in_high_critical_spec]).
    destruct (filter (fun i => in_high_critical (severity i)) issues);
      [destruct Hi | simpl; lia].
Qed.

Lemma any_gdpr_spec issues :
  any_gdpr issues = true <->
  exists i, In i issues /\ substring_of "GDPR" (business_impact i).
Proof.
  unfold any_gdpr. rewrite existsb_exists. split.
  - intros (i & Hin & Hc). exists i. split; [exact Hin | now apply contains_spec].
  - intros (i & Hin & Hc). exists i. split; [exact Hin | now apply contains_spec].
Qed.

End RecommenderFacts.

(* ================================================================== *)
(** ** The renderer *)

Module RenderFacts.

Import Text Py Gen Template Render Trace TextFacts Style.

Lemma substring_of_trans a b c :
  substring_of a b -> substring_of b c -> substring_of a c.
Proof.
  intros (p1 & q1 & ->) (p2 & q2 & ->).
  exists (p2 ++ p1), (q1 ++ q2). now rewrite !append_assoc.
Qed.

Lemma Ok_inj {A} (a b : A) : Ok a = Ok b -> a = b.
Proof. intros H. now inversion H. Qed.

Lemma render_issue_text i :
  (exists s, severity i = PStr s) -> exists a, render_issue i = Ok a.
Proof. intros [s Hs]. unfold render_issue, rbind. rewrite Hs. cbn [lower_method]. eauto. Qed.

Lemma render_issues_text l :
  Forall (fun i => exists s, severity i = PStr s) l ->
  exists a, render_issues l = Ok a.
Proof.
  induction 1 as [|i l Hi _ IH]; cbn [render_issues]; [eauto|].
  destruct (render_issue_text i Hi) as [a ->]. destruct IH as [b ->].
  unfold rbind. eauto.
Qed.

(** With text severities the template renders. *)
Lemma render_text d :
  severities_are_text d -> exists html, render d = Ok html.
Proof.
  unfold severities_are_text, render, render_findings, rbind. intros H.
  destruct (security_issues d) as [|i l] eqn:E; [eauto|].
  destruct (render_issues_text _ H) as [a ->]. eauto.
Qed.

(** Every issue's markup is part of the findings loop's output. *)
Lemma render_issues_in l items i :
  render_issues l = Ok items -> In i l ->
  exists a, render_issue i = Ok a /\ substring_of a items.
Proof.
  revert items. induction l as [|j l IH]; intros items; simpl; [intros _ []|].
  destruct (render_issue j) as [a|] eqn:Ej; [|discriminate]. simpl.
  destruct (render_issues l) as [b|]; [|discriminate]. simpl.
  intros H [-> | Hin]; inversion H; subst.
  - exists a. split; [exact Ej|]. apply substring_of_app_l, substring_of_refl.
  - destruct (IH b eq_refl Hin) as (x & Hx & Hs).
    exists x. split; [exact Hx|]. now apply substring_of_app_r.
Qed.

(** The parts of the report, as parts of the document. *)
Lemma render_parts d html :
  render d = Ok html ->
  substring_of (render_summary d) html
  /\ substring_of (render_recommendations (recommendations d)) html
  /\ exists findings, render_findings (security_issues d) = Ok findings
                      /\ substring_of findings html.
Proof.
  unfold render, rbind.
  destruct (render_findings (security_issues d)) as [findings|]; [|discriminate].
  intros H. apply Ok_inj in H. subst html. split; [|split].
  - do 3 apply substring_of_app_r. apply substring_of_app_r.
    apply substring_of_app_l, substring_of_refl.
  - do 4 apply substring_of_app_r. do 5 apply substring_of_app_r.
    apply substring_of_app_l, substring_of_refl.
  - exists findings. split; [reflexivity|].
    do 4 apply substring_of_app_r. do 3 apply substring_of_app_r.
    apply substring_of_app_l, substring_of_refl.
Qed.

Lemma render_findings_in l findings i :
  render_findings l = Ok findings -> In i l ->
  exists a, render_issue i = Ok a /\ substring_of a findings.
Proof.
  destruct l as [|j l]; [intros _ []|]. unfold render_findings.
  destruct (render_issues (j :: l)) as [items|] eqn:E; [|discriminate].
  unfold rbind. intros H Hin. apply Ok_inj in H. subst findings.
  destruct (render_issues_in _ _ i E Hin) as (a & Ha & Hs).
  exists a. split; [exact Ha|].
  apply substring_of_app_r, substring_of_app_l. exact Hs.
Qed.

Lemma head3_substring (a b c t : string) :
  substring_of (a ++ b ++ c) (a ++ b ++ c ++ t).
Proof. exists EmptyString, t. simpl. now rewrite !append_assoc. Qed.

End RenderFacts.

(* ================================================================== *)
(** ** A whole run *)

Module RunFacts.

Import Text Py Gen Template Render Trace TextFacts LoaderFacts VulnerabilityFacts
  VulnerabilityShapeFacts SemgrepFacts Shape ItemFacts ShapeFacts FrameFacts Style
  RenderFacts RecommenderFacts.

#[local] Arguments lookup : simpl never.
#[local] Arguments String.eqb : simpl never.









(** The vulnerability loader on a file of the documented shape. *)
Lemma load_vulnerability_scan_shape path p data :
  files p path = Json data ->
  vulnerability_shape data = true ->
  exists new,
    load_vulnerability_scan path p = (Ok tt, add_issues new p)
    /\ Forall2 issue_of_match new (filter reported (matches_of data)).
Proof.
  intros Hfile Hshape. rewrite load_vulnerability_scan_eq, Hfile.
  destruct data as [| | | | |l|kvs]; try discriminate.
  unfold vulnerability_items, vulnerability_shape, matches_of in *. simpl.
  destruct (lookup "matches" kvs) as [[]|]; try discriminate; simpl.
  - destruct (collect_vulnerability_shape l Hshape) as [Hok Hall].
    exists (fst (collect vulnerability_item l)). rewrite Hok. simpl. auto.
  - exists []. simpl. rewrite add_issues_nil. auto.
Qed.

Lemma filter_none_reported ms :
  forallb (fun m => negb (reported m)) ms = true -> filter reported ms = [].
Proof.
  induction ms as [|m ms IH]; simpl; [reflexivity|].
  rewrite andb_true_iff. intros [Hm Hms]. destruct (reported m); [discriminate|auto].
Qed.



End RunFacts.

(* ================================================================== *)
(** ** What a loader can do to the generator *)

Module EffectFacts.

Import Text Py Gen Render Trace TextFacts LoaderFacts VulnerabilityFacts SemgrepFacts
  Shape ItemFacts FrameFacts InvariantFacts RecommenderFacts Origin.

#[local] Arguments lookup : simpl never.
#[local] Arguments String.eqb : simpl never.

Lemma set_security_issues_same d :
  set_security_issues (security_issues d ++ [])%list d = d.
Proof. destruct d. unfold set_security_issues. simpl. now rewrite app_nil_r. Qed.

Lemma semgrep_item_origin result i :
  semgrep_item result = Ok (Some i) -> from_static_analysis i.
Proof.
  intros H. destruct (semgrep_item_ok _ _ H) as (j & Hj & Hi).
  inversion Hj; subst j. clear Hj H. unfold semgrep_issue, rbind in Hi.
  destruct (getitem result "extra") as [extra|]; [|discriminate].
  destruct (getitem extra "severity") as [sev|]; [|discriminate].
  destruct (getitem extra "message"); [|discriminate].
  destruct (getitem result "path"); [|discriminate].
  destruct (getitem result "start") as [st|]; [|discriminate].
  destruct (getitem st "line"); [|discriminate].
  destruct (getitem result "check_id") as [cid|]; [|discriminate].
  destruct (_get_business_impact cid) as [bi|] eqn:Eb; [|discriminate].
  destruct (_get_remediation_advice cid) as [ra|] eqn:Er; [|discriminate].
  inversion Hi; subst; clear Hi. split; [reflexivity|].
  destruct cid; try discriminate. exists s. auto.
Qed.

Lemma gitleaks_item_origin finding i :
  gitleaks_item finding = Ok (Some i) -> from_secret_detection i.
Proof.
  destruct finding; try discriminate.
  unfold gitleaks_item, gitleaks_issue. simpl. intros H. inversion H; subst.
  repeat split.
Qed.

Lemma vulnerability_item_origin m i :
  vulnerability_item m = Ok (Some i) -> from_vulnerability_scan i.
Proof.
  unfold vulnerability_item, rbind.
  destruct (match_severity m) as [sev|]; [|discriminate].
  destruct (in_high_critical sev) eqn:Eh; [|discriminate].
  unfold vulnerability_issue, rbind.
  destruct (get m "artifact" (PDict [])) as [a|]; [|discriminate].
  destruct (get a "name" (PStr "Unknown")); [|discriminate].
  destruct (get m "vulnerability" (PDict [])) as [v|]; [|discriminate].
  destruct (get v "id" (PStr "vuln-scan")); [|discriminate].
  destruct (fix_version m); [|discriminate].
  intros H. inversion H; subst. unfold from_vulnerability_scan. simpl.
  apply in_high_critical_spec in Eh. auto.
Qed.

(** The static-analysis loader, whatever it reads and however it ends. *)
Lemma load_semgrep_results_effect path p :
  exists n l v,
    self (snd (load_semgrep_results path p)) = semgrep_effect n l v (self p)
    /\ Forall from_static_analysis l
    /\ (forall e, fst (load_semgrep_results path p) = Raise e -> v = None)
    /\ (files p path = Absent \/ files p path = Malformed ->
        n = None /\ l = [] /\ v = None).
Proof.
  rewrite load_semgrep_results_eq.
  pose proof (semgrep_except_prints path) as Hp.
  assert (Hsame : semgrep_effect None [] None (self p) = self p)
    by (unfold semgrep_effect; apply set_security_issues_same).
  assert (Hfin : forall r q x, self q = x -> self (snd (finish (semgrep_except path) r q)) = x)
    by (intros r q x <-; now apply finish_frame).
  destruct (files p path) as [| |r|data] eqn:Ef.
  - exists None, [], None. rewrite Hsame. repeat split; auto.
  - exists None, [], None. rewrite Hsame. repeat split; auto.
  - exists None, [], None. rewrite Hsame. repeat split; auto.
  - assert (Hno : Json data = Absent \/ Json data = Malformed ->
                  forall (n : option nat) (l : list issue) (v : option (risk * compliance)),
                    n = None /\ l = [] /\ v = None)
      by (intros [H | H]; discriminate).
    destruct (semgrep_scanned data) as [n|e] eqn:En.
    2:{ exists None, [], None. rewrite Hsame. split; [now apply Hfin|].
        split; [constructor|]. split; auto. }
    destruct (semgrep_results data) as [items|e] eqn:Er.
    2:{ exists (Some n), [], None. split; [apply Hfin; unfold semgrep_effect; simpl;
          now rewrite app_nil_r|]. split; [constructor|]. split; auto. }
    cbv zeta.
    pose proof (collect_forall _ _ semgrep_item_origin items) as Hall.
    destruct (snd (collect semgrep_item items)) as [[]|e] eqn:Ec.
    2:{ exists (Some n), (fst (collect semgrep_item items)), None.
        split; [now apply Hfin|]. split; [exact Hall|]. split; auto. }
    destruct (semgrep_verdict data) as [v|e] eqn:Ev.
    2:{ exists (Some n), (fst (collect semgrep_item items)), None.
        split; [now apply Hfin|]. split; [exact Hall|]. split; auto. }
    exists (Some n), (fst (collect semgrep_item items)), (Some v).
    split; [reflexivity|]. split; [exact Hall|]. split; [discriminate|auto].
Qed.

(** The secret-detection loader, whatever it reads and however it ends. *)
Lemma load_gitleaks_results_effect path p :
  exists l,
    self (snd (load_gitleaks_results path p)) = gitleaks_effect l (self p)
    /\ Forall from_secret_detection l
    /\ (files p path = Absent \/ files p path = Malformed -> l = []).
Proof.
  rewrite load_gitleaks_results_eq.
  pose proof (gitleaks_except_prints path) as Hp.
  assert (Hg : forall l, self (after_gitleaks l p) = gitleaks_effect l (self p))
    by (intros [|i l]; reflexivity).
  destruct (files p path) as [| |r|data];
    try (exists []; split; [now apply finish_frame | split; [constructor | auto]]);
    [exists []; split; [reflexivity | split; [constructor | auto]]|].
  destruct (iter data) as [items|e];
    try (exists []; split; [now apply finish_frame |
                            split; [constructor | intros [H | H]; discriminate]]).
  exists (fst (collect gitleaks_item items)). split.
  - rewrite <- Hg.
    now destruct (finish_frame _ (snd (collect gitleaks_item items))
                    (after_gitleaks (fst (collect gitleaks_item items)) p) Hp).
  - split; [apply collect_forall, gitleaks_item_origin|].
    intros [H | H]; discriminate.
Qed.

(** The vulnerability loader, whatever it reads and however it ends. *)
Lemma load_vulnerability_scan_effect path p :
  exists l,
    self (snd (load_vulnerability_scan path p))
    = set_security_issues (security_issues (self p) ++ l)%list (self p)
    /\ Forall from_vulnerability_scan l
    /\ (files p path = Absent \/ files p path = Malformed -> l = []).
Proof.
  rewrite load_vulnerability_scan_eq.
  pose proof (vulnerability_except_prints path) as Hp.
  assert (Hfin : forall r, self (snd (finish (vulnerability_except path) r p))
                           = set_security_issues (security_issues (self p) ++ [])%list (self p))
    by (intros r; rewrite set_security_issues_same; now apply finish_frame).
  destruct (files p path) as [| |r|data];
    try (exists []; split; [apply Hfin | split; [constructor | auto]]);
    [exists []; split; [rewrite set_security_issues_same; reflexivity
                       | split; [constructor | auto]]|].
  destruct (vulnerability_items data) as [items|e];
    try (exists []; split; [apply Hfin |
                            split; [constructor | intros [H | H]; discriminate]]).
  exists (fst (collect vulnerability_item items)). split.
  - now destruct (finish_frame _ (snd (collect vulnerability_item items))
                    (add_issues (fst (collect vulnerability_item items)) p) Hp).
  - split; [apply collect_forall, vulnerability_item_origin|].
    intros [H | H]; discriminate.
Qed.

End EffectFacts.

(* ================================================================== *)
(** ** Which exceptions leave a loader *)

Module EscapeFacts.

Import Text Py Gen Render Trace TextFacts LoaderFacts VulnerabilityFacts SemgrepFacts
  Shape ItemFacts FrameFacts InvariantFacts RecommenderFacts Origin.

#[local] Arguments lookup : simpl never.
#[local] Arguments String.eqb : simpl never.

Lemma index0_raises v e :
  index0 v = Raise e -> e = IndexError \/ e = KeyError \/ e = TypeError.
Proof.
  destruct v; simpl; intros H; try (inversion H; auto; fail).
  - destruct (code_points s); inversion H; auto.
  - destruct l; inversion H; auto.
Qed.

Lemma semgrep_issue_escape result e :
  semgrep_issue result = Raise e -> In e [KeyError; TypeError; AttributeError].
Proof.
  unfold semgrep_issue, rbind, _get_business_impact, _get_remediation_advice.
  repeat match goal with
         | |- context [getitem ?v ?k] =>
             let E := fresh "E" in
             destruct (getitem v k) eqn:E;
             [| cbv iota beta; intros H; inversion H; subst;
                destruct (getitem_raises _ _ _ E) as [-> | ->]; simpl; auto]
         | |- context [table_get ?t ?v ?d] =>
             let E := fresh "E" in
             destruct (table_get t v d) eqn:E;
             [| cbv iota beta; intros H; inversion H; subst;
                rewrite (table_get_raises _ _ _ _ E); simpl; auto]
         end.
  discriminate.
Qed.

Lemma semgrep_item_escape result e :
  semgrep_item result = Raise e -> In e [KeyError; TypeError; AttributeError].
Proof.
  unfold semgrep_item, rbind. destruct (semgrep_issue result) eqn:E; intros H;
    inversion H; subst. eapply semgrep_issue_escape; eauto.
Qed.

Lemma any_error_escape items e :
  any_error items = Raise e -> In e [KeyError; TypeError; AttributeError].
Proof.
  induction items as [|x r IH]; simpl; [discriminate|]. unfold rbind.
  destruct (getitem x "extra") as [extra|e1] eqn:E1.
  - destruct (getitem extra "severity") as [sev|e2] eqn:E2.
    + destruct (eq_str sev "ERROR"); [discriminate | exact IH].
    + intros H. inversion H; subst.
      destruct (getitem_raises _ _ _ E2) as [-> | ->]; simpl; auto.
  - intros H. inversion H; subst.
    destruct (getitem_raises _ _ _ E1) as [-> | ->]; simpl; auto.
Qed.

Lemma semgrep_scanned_escape data e :
  semgrep_scanned data = Raise e -> In e [KeyError; TypeError; AttributeError].
Proof.
  unfold semgrep_scanned, rbind.
  destruct (get data "paths" (PDict [])) as [paths|e1] eqn:E1.
  - destruct (get paths "scanned" (PList [])) as [scanned|e2] eqn:E2.
    + intros H. rewrite (len_raises _ _ H). simpl; auto.
    + intros H. inversion H; subst. rewrite (get_raises _ _ _ _ E2). simpl; auto.
  - intros H. inversion H; subst. rewrite (get_raises _ _ _ _ E1). simpl; auto.
Qed.

Lemma semgrep_results_escape data e :
  semgrep_results data = Raise e -> In e [KeyError; TypeError; AttributeError].
Proof.
  unfold semgrep_results, rbind.
  destruct (get data "results" (PList [])) as [results|e1] eqn:E1.
  - intros H. rewrite (iter_raises _ _ H). simpl; auto.
  - intros H. inversion H; subst. rewrite (get_raises _ _ _ _ E1). simpl; auto.
Qed.

Lemma semgrep_verdict_escape data e :
  semgrep_verdict data = Raise e -> In e [KeyError; TypeError; AttributeError].
Proof.
  unfold semgrep_verdict, rbind.
  destruct (get data "results" (PList [])) as [results|e1] eqn:E1.
  2:{ intros H. inversion H; subst. rewrite (get_raises _ _ _ _ E1). simpl; auto. }
  destruct (len results) as [count|e2] eqn:E2.
  2:{ intros H. inversion H; subst. rewrite (len_raises _ _ E2). simpl; auto. }
  destruct (count =? 0)%nat; [discriminate|].
  destruct (iter results) as [items|e3] eqn:E3.
  2:{ intros H. inversion H; subst. rewrite (iter_raises _ _ E3). simpl; auto. }
  destruct (any_error items) as [[]|e4] eqn:E4; try discriminate.
  intros H. inversion H; subst. now apply (any_error_escape items).
Qed.

Lemma finish_semgrep_escape path e p :
  In e [KeyError; TypeError; AttributeError] ->
  finish (semgrep_except path) (Raise e) p = (Raise e, p).
Proof. simpl. intros [<- | [<- | [<- | []]]]; reflexivity. Qed.

Lemma load_semgrep_results_escape path p data :
  files p path = Json data ->
  escapes (fst (load_semgrep_results path p)) [KeyError; TypeError; AttributeError].
Proof.
  intros Hfile. rewrite load_semgrep_results_eq, Hfile.
  destruct (semgrep_scanned data) as [n|e] eqn:En.
  2:{ pose proof (semgrep_scanned_escape _ _ En) as H.
      rewrite (finish_semgrep_escape _ _ _ H). exact H. }
  destruct (semgrep_results data) as [items|e] eqn:Er.
  2:{ pose proof (semgrep_results_escape _ _ Er) as H.
      rewrite (finish_semgrep_escape _ _ _ H). exact H. }
  cbv zeta.
  destruct (snd (collect semgrep_item items)) as [[]|e] eqn:Ec.
  2:{ pose proof (collect_raises _ _ semgrep_item_escape _ _ Ec) as H.
      rewrite (finish_semgrep_escape _ _ _ H). exact H. }
  destruct (semgrep_verdict data) as [v|e] eqn:Ev; [exact I|].
  pose proof (semgrep_verdict_escape _ _ Ev) as H.
  rewrite (finish_semgrep_escape _ _ _ H). exact H.
Qed.

Lemma gitleaks_item_escape finding e :
  gitleaks_item finding = Raise e -> In e [AttributeError; TypeError].
Proof.
  destruct (gitleaks_item_cases finding) as [(i & -> & _) | ->]; intros H;
    inversion H; subst. simpl; auto.
Qed.

Lemma finish_gitleaks_escape path e p :
  In e [AttributeError; TypeError] ->
  finish (gitleaks_except path) (Raise e) p = (Raise e, p).
Proof. simpl. intros [<- | [<- | []]]; reflexivity. Qed.

Lemma load_gitleaks_results_escape path p data :
  files p path = Json data ->
  escapes (fst (load_gitleaks_results path p)) [AttributeError; TypeError].
Proof.
  intros Hfile. rewrite load_gitleaks_results_eq, Hfile.
  destruct (iter data) as [items|e] eqn:Ei.
  - destruct (snd (collect gitleaks_item items)) as [[]|e] eqn:Ec; [exact I|].
    pose proof (collect_raises _ _ gitleaks_item_escape _ _ Ec) as H.
    rewrite (finish_gitleaks_escape _ _ _ H). exact H.
  - assert (H : In e [AttributeError; TypeError])
      by (rewrite (iter_raises _ _ Ei); simpl; auto).
    rewrite (finish_gitleaks_escape _ _ _ H). exact H.
Qed.

Lemma fix_version_escape m e :
  fix_version m = Raise e -> In e [AttributeError; TypeError; IndexError; KeyError].
Proof.
  unfold fix_version, rbind.
  destruct (get m "vulnerability" (PDict [])) as [v|e1] eqn:E1.
  2:{ intros H. inversion H; subst. rewrite (get_raises _ _ _ _ E1). simpl; auto. }
  destruct (get v "fix" PNone) as [f|e2] eqn:E2.
  2:{ intros H. inversion H; subst. rewrite (get_raises _ _ _ _ E2). simpl; auto. }
  destruct (truthy f); [|discriminate].
  destruct (get v "fix" (PDict [])) as [f'|e3] eqn:E3.
  2:{ intros H. inversion H; subst. rewrite (get_raises _ _ _ _ E3). simpl; auto. }
  destruct (get f' "versions" (PList [PStr "latest"])) as [vs|e4] eqn:E4.
  2:{ intros H. inversion H; subst. rewrite (get_raises _ _ _ _ E4). simpl; auto. }
  intros H. destruct (index0_raises _ _ H) as [-> | [-> | ->]]; simpl; auto.
Qed.

Lemma vulnerability_item_escape m e :
  vulnerability_item m = Raise e ->
  In e [AttributeError; TypeError; IndexError; KeyError].
Proof.
  unfold vulnerability_item, match_severity, rbind.
  destruct (get m "vulnerability" (PDict [])) as [v|e1] eqn:E1.
  2:{ intros H. inversion H; subst. rewrite (get_raises _ _ _ _ E1). simpl; auto. }
  destruct (get v "severity" (PStr "UNKNOWN")) as [sev|e2] eqn:E2.
  2:{ intros H. inversion H; subst. rewrite (get_raises _ _ _ _ E2). simpl; auto. }
  destruct (in_high_critical sev); [|discriminate].
  unfold vulnerability_issue, rbind.
  destruct (get m "artifact" (PDict [])) as [a|e3] eqn:E3.
  2:{ intros H. inversion H; subst. rewrite (get_raises _ _ _ _ E3). simpl; auto. }
  destruct (get a "name" (PStr "Unknown")) as [nm|e4] eqn:E4.
  2:{ intros H. inversion H; subst. rewrite (get_raises _ _ _ _ E4). simpl; auto. }
  rewrite E1.
  destruct (get v "id" (PStr "vuln-scan")) as [id|e5] eqn:E5.
  2:{ intros H. inversion H; subst. rewrite (get_raises _ _ _ _ E5). simpl; auto. }
  destruct (fix_version m) as [ver|e6] eqn:E6; [discriminate|].
  intros H. inversion H; subst. now apply (fix_version_escape m).
Qed.

Lemma finish_vulnerability_escape path e p :
  In e [AttributeError; TypeError; IndexError; KeyError] ->
  escapes (fst (finish (vulnerability_except path) (Raise e) p))
    [AttributeError; TypeError; IndexError].
Proof. simpl. intros [<- | [<- | [<- | [<- | []]]]]; simpl; auto. Qed.

Lemma load_vulnerability_scan_escape path p data :
  files p path = Json data ->
  escapes (fst (load_vulnerability_scan path p)) [AttributeError; TypeError; IndexError].
Proof.
  intros Hfile. rewrite load_vulnerability_scan_eq, Hfile.
  unfold vulnerability_items, rbind.
  destruct (get data "matches" (PList [])) as [ms|e] eqn:Eg.
  2:{ apply finish_vulnerability_escape. rewrite (get_raises _ _ _ _ Eg). simpl; auto. }
  destruct (iter ms) as [items|e] eqn:Ei.
  2:{ apply finish_vulnerability_escape. rewrite (iter_raises _ _ Ei). simpl; auto. }
  destruct (snd (collect vulnerability_item items)) as [[]|e] eqn:Ec; [exact I|].
  apply finish_vulnerability_escape.
  exact (collect_raises _ _ vulnerability_item_escape _ _ Ec).
Qed.

(** A failure of [open] or [json.load] that no clause catches leaves the
    loader as it is raised. *)
Lemma load_semgrep_results_unread path p r :
  files p path = Unread r ->
  load_semgrep_results path p = (Raise (read_error_exn r), p).
Proof. intros H. rewrite load_semgrep_results_eq, H. reflexivity. Qed.

Lemma load_gitleaks_results_unread path p r :
  files p path = Unread r ->
  load_gitleaks_results path p = (Raise (read_error_exn r), p).
Proof. intros H. rewrite load_gitleaks_results_eq, H. reflexivity. Qed.

Lemma load_vulnerability_scan_unread path p r :
  files p path = Unread r ->
  load_vulnerability_scan path p = (Raise (read_error_exn r), p).
Proof. intros H. rewrite load_vulnerability_scan_eq, H. reflexivity. Qed.

(** The exceptions a loader has a clause for never leave it. *)
Lemma load_semgrep_results_caught path p :
  fst (load_semgrep_results path p) <> Raise FileNotFoundError
  /\ fst (load_semgrep_results path p) <> Raise JSONDecodeError.
Proof.
  destruct (files p path) as [| |r|data] eqn:Hfile.
  - rewrite load_semgrep_results_eq, Hfile. split; discriminate.
  - rewrite load_semgrep_results_eq, Hfile. split; discriminate.
  - rewrite (load_semgrep_results_unread _ _ _ Hfile). destruct r; split; discriminate.
  - pose proof (load_semgrep_results_escape _ _ _ Hfile) as He.
    destruct (fst (load_semgrep_results path p)) as [a|e]; [split; discriminate|].
    simpl in He. split; intros E; inversion E; subst;
      destruct He as [H | [H | [H | []]]]; discriminate.
Qed.

Lemma load_gitleaks_results_caught path p :
  fst (load_gitleaks_results path p) <> Raise FileNotFoundError
  /\ fst (load_gitleaks_results path p) <> Raise JSONDecodeError
  /\ fst (load_gitleaks_results path p) <> Raise KeyError.
Proof.
  destruct (files p path) as [| |r|data] eqn:Hfile.
  - rewrite load_gitleaks_results_eq, Hfile. repeat split; discriminate.
  - rewrite load_gitleaks_results_eq, Hfile. repeat split; discriminate.
  - rewrite (load_gitleaks_results_unread _ _ _ Hfile).
    destruct r; repeat split; discriminate.
  - pose proof (load_gitleaks_results_escape _ _ _ Hfile) as He.
    destruct (fst (load_gitleaks_results path p)) as [a|e]; [repeat split; discriminate|].
    simpl in He. repeat split; intros E; inversion E; subst;
      destruct He as [H | [H | []]]; discriminate.
Qed.

Lemma load_vulnerability_scan_caught path p :
  fst (load_vulnerability_scan path p) <> Raise FileNotFoundError
  /\ fst (load_vulnerability_scan path p) <> Raise JSONDecodeError
  /\ fst (load_vulnerability_scan path p) <> Raise KeyError.
Proof.
  destruct (files p path) as [| |r|data] eqn:Hfile.
  - rewrite load_vulnerability_scan_eq, Hfile. repeat split; discriminate.
  - rewrite load_vulnerability_scan_eq, Hfile. repeat split; discriminate.
  - rewrite (load_vulnerability_scan_unread _ _ _ Hfile).
    destruct r; repeat split; discriminate.
  - pose proof (load_vulnerability_scan_escape _ _ _ Hfile) as He.
    destruct (fst (load_vulnerability_scan path p)) as [a|e];
      [repeat split; discriminate|].
    simpl in He. repeat split; intros E; inversion E; subst;
      destruct He as [H | [H | [H | []]]]; discriminate.
Qed.

End EscapeFacts.

(* ================================================================== *)
(** ** Rule identifiers and the lookup tables *)

Module LookupFacts.

Import Text Py Gen Trace TextFacts Origin.

#[local] Arguments String.eqb : simpl never.

Lemma split_dot_cons s : exists h t, split_dot s = h :: t.
Proof.
  induction s as [|c r (h & t & IH)]; simpl; [eauto|].
  rewrite IH. destruct (Ascii.eqb c "."); eauto.
Qed.

(** Splitting after a dot: what follows the dot is split on its own. *)
Lemma split_dot_after_dot a b :
  exists h t, split_dot (a ++ "." ++ b) = ((h :: t) ++ split_dot b)%list.
Proof.
  induction a as [|c a (h & t & IH)].
  - destruct (split_dot_cons b) as (h & t & Hb).
    exists EmptyString, []. simpl. rewrite Hb. reflexivity.
  - change (String c a ++ "." ++ b) with (String c (a ++ "." ++ b)).
    cbn [split_dot]. rewrite IH. simpl.
    destruct (Ascii.eqb c ".").
    + exists EmptyString, (h :: t). reflexivity.
    + exists (String c h), t. reflexivity.
Qed.

Lemma last_app_cons {A} (l : list A) x r d :
  last (l ++ x :: r)%list d = last (x :: r) d.
Proof.
  induction l as [|y l IH]; [reflexivity|].
  change ((y :: l) ++ x :: r)%list with (y :: (l ++ x :: r))%list.
  destruct (l ++ x :: r)%list eqn:E.
  - destruct l; discriminate.
  - rewrite <- IH. reflexivity.
Qed.

Lemma last_segment_after_dot a b : last_segment (a ++ "." ++ b) = last_segment b.
Proof.
  unfold last_segment. destruct (split_dot_after_dot a b) as (h & t & ->).
  destruct (split_dot_cons b) as (x & r & ->). apply last_app_cons.
Qed.

(** A text without a dot is its own last segment. *)
Lemma last_segment_plain s :
  contains "." s = false -> last_segment s = s.
Proof.
  unfold last_segment. intros H.
  assert (Hs : split_dot s = [s]).
  { induction s as [|c r IH]; [reflexivity|].
    rewrite contains_cons in H. apply orb_false_iff in H as [Hc Hr].
    simpl. rewrite (IH Hr).
    change (starts_with "." (String c r)) with (andb (Ascii.eqb "." c) true) in Hc.
    rewrite andb_true_r in Hc. rewrite Ascii.eqb_sym, Hc. reflexivity. }
  rewrite Hs. reflexivity.
Qed.

(** Only one entry of the impact table mentions GDPR. *)
Lemma impact_mentions_gdpr s text :
  _get_business_impact (PStr s) = Ok text ->
  contains "GDPR" text = true ->
  last_segment s = "hardcoded-personal-data".
Proof.
  unfold _get_business_impact, table_get, impact_map. cbn [lookup].
  destruct (String.eqb (last_segment s) "hardcoded-personal-data") eqn:E0;
    [intros _ _; now apply String.eqb_eq|].
  destruct (String.eqb (last_segment s) "detect-pii-in-logs");
    [intros H; inversion H; subst; vm_compute; discriminate|].
  destruct (String.eqb (last_segment s) "unencrypted-pii-storage");
    [intros H; inversion H; subst; vm_compute; discriminate|].
  destruct (String.eqb (last_segment s) "missing-consent-check");
    [intros H; inversion H; subst; vm_compute; discriminate|].
  destruct (String.eqb (last_segment s) "missing-audit-log");
    [intros H; inversion H; subst; vm_compute; discriminate|].
  intros H; inversion H; subst; vm_compute; discriminate.
Qed.

End LookupFacts.

(* ================================================================== *)
(** ** The loaders together and [main] *)

Module MainFacts.

Import Text Py Gen Template Render Trace TextFacts LoaderFacts VulnerabilityFacts
  VulnerabilityShapeFacts SemgrepFacts Shape ItemFacts ShapeFacts FrameFacts
  InvariantFacts RecommenderFacts Style RenderFacts RunFacts Origin EffectFacts
  EscapeFacts.

#[local] Arguments lookup : simpl never.
#[local] Arguments String.eqb : simpl never.

Lemma only_loaded_refl p : only_loaded p p.
Proof.
  unfold only_loaded. split; [|repeat split].
  exists []. split; [now rewrite app_nil_r | constructor].
Qed.

Lemma only_loaded_trans p q r : only_loaded p q -> only_loaded q r -> only_loaded p r.
Proof.
  intros ((l1 & H1 & A1) & R1 & S1 & P1 & C1 & F1 & W1)
         ((l2 & H2 & A2) & R2 & S2 & P2 & C2 & F2 & W2).
  split.
  - exists (l1 ++ l2)%list. split.
    + rewrite H2, H1. now rewrite app_assoc.
    + now apply Forall_app.
  - repeat split; congruence.
Qed.

Lemma only_loaded_self p q l :
  (security_issues (self q) = (security_issues (self p) ++ l)%list) ->
  Forall from_a_loader l ->
  recommendations (self q) = recommendations (self p) ->
  scan_date (self q) = scan_date (self p) ->
  project_name (self q) = project_name (self p) ->
  compliance_framework (self q) = compliance_framework (self p) ->
  files q = files p -> written q = written p ->
  only_loaded p q.
Proof. intros. split; [exists l; auto | repeat split; assumption]. Qed.

Lemma load_semgrep_results_only_loaded path p :
  only_loaded p (snd (load_semgrep_results path p)).
Proof.
  destruct (load_semgrep_results_effect path p) as (n & l & v & Hs & Hl & _).
  destruct (load_semgrep_results_files path p) as [Hf Hw].
  apply (only_loaded_self _ _ l); try assumption; rewrite ?Hs.
  - destruct n, v; reflexivity.
  - eapply Forall_impl; [|exact Hl]. intros i Hi. left. exact Hi.
  - destruct n, v; reflexivity.
  - destruct n, v; reflexivity.
  - destruct n, v; reflexivity.
  - destruct n, v; reflexivity.
Qed.

Lemma load_gitleaks_results_only_loaded path p :
  only_loaded p (snd (load_gitleaks_results path p)).
Proof.
  destruct (load_gitleaks_results_effect path p) as (l & Hs & Hl & _).
  destruct (load_gitleaks_results_files path p) as [Hf Hw].
  apply (only_loaded_self _ _ l); try assumption; rewrite ?Hs.
  - destruct l; [simpl; now rewrite app_nil_r | reflexivity].
  - eapply Forall_impl; [|exact Hl]. intros i Hi. right. left. exact Hi.
  - destruct l; reflexivity.
  - destruct l; reflexivity.
  - destruct l; reflexivity.
  - destruct l; reflexivity.
Qed.

Lemma load_vulnerability_scan_only_loaded path p :
  only_loaded p (snd (load_vulnerability_scan path p)).
Proof.
  destruct (load_vulnerability_scan_effect path p) as (l & Hs & Hl & _).
  destruct (load_vulnerability_scan_frame path p) as (_ & _ & Hf & Hw).
  apply (only_loaded_self _ _ l); try assumption; rewrite ?Hs; try reflexivity.
  eapply Forall_impl; [|exact Hl]. intros i Hi. right. right. exact Hi.
Qed.

(** The three loaders in a row, however the row ends. *)
Lemma load_all_only_loaded p : only_loaded p (snd (load_all p)).
Proof.
  unfold load_all, bind.
  pose proof (load_semgrep_results_only_loaded "security-reports/pii-scan.json" p) as H1.
  destruct (load_semgrep_results "security-reports/pii-scan.json" p) as [[[]|e] p1];
    [|exact H1].
  pose proof (load_gitleaks_results_only_loaded
                "security-reports/gitleaks-report.json" p1) as H2.
  destruct (load_gitleaks_results "security-reports/gitleaks-report.json" p1)
    as [[[]|e] p2]; simpl in *; [|eapply only_loaded_trans; eassumption].
  pose proof (load_vulnerability_scan_only_loaded
                "security-reports/vulnerabilities.json" p2) as H3.
  eapply only_loaded_trans; [exact H1|]. eapply only_loaded_trans; eassumption.
Qed.

(** *** Rendering *)

Lemma lower_method_ok v s : lower_method v = Ok s -> exists t, v = PStr t.
Proof.
  destruct v; simpl; try discriminate; [eauto|].
  destruct (lookup "lower" kvs); discriminate.
Qed.

Lemma render_issues_ok l items :
  render_issues l = Ok items -> Forall (fun i => exists s, severity i = PStr s) l.
Proof.
  revert items. induction l as [|i l IH]; intros items; [constructor|].
  cbn [render_issues]. unfold rbind at 1.
  destruct (render_issue i) as [a|] eqn:Ei; [|discriminate].
  unfold rbind. destruct (render_issues l) as [b|]; [|discriminate].
  intros _. constructor; [|eapply IH; reflexivity].
  unfold render_issue, rbind in Ei.
  destruct (lower_method (severity i)) as [s|] eqn:El; [|discriminate].
  exact (lower_method_ok _ _ El).
Qed.

Lemma render_ok_text d html : render d = Ok html -> severities_are_text d.
Proof.
  unfold render, render_findings, severities_are_text, rbind.
  destruct (security_issues d) as [|i l]; [constructor|].
  destruct (render_issues (i :: l)) as [items|] eqn:E; [|discriminate].
  intros _. exact (render_issues_ok _ _ E).
Qed.





(** *** [main] *)


(** How a run ends, by how the loaders and the renderer end. *)
Lemma main_outcome fs now :
  main now (start fs now)
  = match fst (load_all (start fs now)) with
    | Raise e => (Raise e, snd (load_all (start fs now)))
    | Ok _ =>
        let p1 := snd (load_all (start fs now)) in
        let d := set_recommendations (recommended (self p1)) (self p1) in
        match render d with
        | Raise e => (Raise e, with_self d p1)
        | Ok html =>
            if has_surrogate html then
              (Raise UnicodeEncodeError,
               {| files := files p1;
                  self := d;
                  stdout := stdout p1;
                  written := (written p1
                              ++ [("security-reports/executive-report.html",
                                   EmptyString)])%list |})
            else
              (Ok tt,
               {| files := files p1;
                  self := d;
                  stdout := (stdout p1 ++ closing_lines d)%list;
                  written := (written p1
                              ++ [("security-reports/executive-report.html",
                                   html)])%list |})
        end
    end.
Proof.
  unfold main.
  assert (E0 : update (fun _ => init now) (start fs now) = (Ok tt, start fs now))
    by reflexivity.
  rewrite (bind_ok _ _ _ _ _ E0).
  destruct (load_all (start fs now)) as [[[]|e] p1] eqn:El.
  2:{ rewrite (bind_raise _ _ _ _ _ El). reflexivity. }
  rewrite (bind_ok _ _ _ _ _ El). cbn [fst snd]. cbv zeta.
  rewrite (bind_ok _ _ _ _ _ (generate_recommendations_eq p1)).
  unfold generate_html_report, bind, read, lift, write_file, print, closing_lines.
  cbn [self files stdout written with_self].
  destruct (render (set_recommendations (recommended (self p1)) (self p1)))
    as [html|e]; [|reflexivity].
  cbn [self files stdout written]. destruct (has_surrogate html); [reflexivity|].
  cbn [self files stdout written]. rewrite <- app_assoc. reflexivity.
Qed.

End MainFacts.

(* ================================================================== *)
(** ** Unreadable files, and files of the documented shape *)

Module InputFacts.

Import Text Py Gen Template Render Trace TextFacts LoaderFacts VulnerabilityFacts
  VulnerabilityShapeFacts SemgrepFacts Shape ItemFacts ShapeFacts FrameFacts
  InvariantFacts RecommenderFacts Style RenderFacts RunFacts Origin EffectFacts
  EscapeFacts MainFacts.

#[local] Arguments lookup : simpl never.
#[local] Arguments String.eqb : simpl never.

Lemma load_semgrep_results_absent path p :
  files p path = Absent ->
  load_semgrep_results path p = print ("Semgrep results file not found: " ++ path) p.
Proof. intros H. rewrite load_semgrep_results_eq, H. reflexivity. Qed.

Lemma load_semgrep_results_malformed path p :
  files p path = Malformed ->
  load_semgrep_results path p = print ("Invalid JSON in Semgrep results: " ++ path) p.
Proof. intros H. rewrite load_semgrep_results_eq, H. reflexivity. Qed.

Lemma load_gitleaks_results_absent path p :
  files p path = Absent ->
  load_gitleaks_results path p = print ("GitLeaks results file not found: " ++ path) p.
Proof. intros H. rewrite load_gitleaks_results_eq, H. reflexivity. Qed.

Lemma load_gitleaks_results_malformed path p :
  files p path = Malformed ->
  load_gitleaks_results path p = print ("Error parsing GitLeaks results: " ++ path) p.
Proof. intros H. rewrite load_gitleaks_results_eq, H. reflexivity. Qed.

Lemma load_vulnerability_scan_absent path p :
  files p path = Absent ->
  load_vulnerability_scan path p
  = print ("Vulnerability scan results not found: " ++ path) p.
Proof. intros H. rewrite load_vulnerability_scan_eq, H. reflexivity. Qed.

Lemma load_vulnerability_scan_malformed path p :
  files p path = Malformed ->
  load_vulnerability_scan path p
  = print ("Error parsing vulnerability results: " ++ path) p.
Proof. intros H. rewrite load_vulnerability_scan_eq, H. reflexivity. Qed.

(** A loop that got through, turn by turn. *)
Lemma collect_forall2 {A} (f : A -> res (option issue)) (R : issue -> A -> Prop) :
  (forall x, f x <> Ok None) ->
  (forall x i, f x = Ok (Some i) -> R i x) ->
  forall l, snd (collect f l) = Ok tt -> Forall2 R (fst (collect f l)) l.
Proof.
  intros Hsome HR l. induction l as [|x r IH]; simpl; [constructor|].
  destruct (f x) as [[i|]|e] eqn:E; simpl.
  - intros H. constructor; [now apply HR | now apply IH].
  - now destruct (Hsome x).
  - discriminate.
Qed.

Lemma semgrep_item_some result : semgrep_item result <> Ok None.
Proof. unfold semgrep_item, rbind. destruct (semgrep_issue result); discriminate. Qed.

Lemma gitleaks_item_some finding : gitleaks_item finding <> Ok None.
Proof. unfold gitleaks_item, rbind. destruct (gitleaks_issue finding); discriminate. Qed.

Lemma semgrep_item_fields result i :
  semgrep_item result = Ok (Some i) -> issue_of_result i result.
Proof.
  intros H. destruct (semgrep_item_ok _ _ H) as (j & Hj & Hi).
  inversion Hj; subst j. clear Hj H. unfold semgrep_issue, rbind in Hi.
  unfold issue_of_result.
  destruct (getitem result "extra") as [extra|]; [|discriminate].
  destruct (getitem extra "severity") as [sev|] eqn:Es; [|discriminate].
  destruct (getitem extra "message") as [msg|] eqn:Em; [|discriminate].
  destruct (getitem result "path") as [pa|]; [|discriminate].
  destruct (getitem result "start") as [st|]; [|discriminate].
  destruct (getitem st "line") as [ln|] eqn:El; [|discriminate].
  destruct (getitem result "check_id") as [cid|]; [|discriminate].
  destruct (_get_business_impact cid); [|discriminate].
  destruct (_get_remediation_advice cid); [|discriminate].
  inversion Hi; subst; clear Hi. simpl.
  split; [reflexivity|]. split; [reflexivity|]. split; [reflexivity|].
  split; [exists extra; auto | exists st; auto].
Qed.

Lemma gitleaks_item_fields finding i :
  gitleaks_item finding = Ok (Some i) -> issue_of_finding i finding.
Proof.
  intros H. pose proof (gitleaks_item_origin _ _ H) as Ho.
  destruct finding; try discriminate.
  unfold gitleaks_item, gitleaks_issue in H. simpl in H. inversion H; subst.
  split; [exact Ho|]. simpl. split; [|auto].
  intros description Hd. apply Ok_inj in Hd. rewrite Hd. reflexivity.
Qed.

Lemma semgrep_scanned_count data :
  semgrep_shape data = true ->
  semgrep_scanned data = Ok (List.length (scanned_of data)).
Proof.
  destruct data as [| | | | |l|kvs]; try discriminate.
  unfold semgrep_shape, semgrep_scanned, scanned_of, scanned_shape. simpl.
  rewrite andb_true_iff. intros [Hs _].
  destruct (lookup "paths" kvs) as [[]|]; try discriminate; simpl; [|reflexivity].
  destruct (lookup "scanned" kvs0) as [[]|]; try discriminate; reflexivity.
Qed.

(** The static-analysis loader on a file of the documented shape. *)
Lemma load_semgrep_results_shape path p data :
  files p path = Json data ->
  semgrep_shape data = true ->
  exists l,
    load_semgrep_results path p
    = (Ok tt, with_verdict (static_analysis_rule (results_of data))
                (add_issues l (with_scanned (List.length (scanned_of data)) p)))
    /\ Forall2 issue_of_result l (results_of data).
Proof.
  intros Hfile Hshape. rewrite load_semgrep_results_eq, Hfile.
  destruct (semgrep_results_shape data Hshape) as (Hres & Hall & _).
  rewrite (semgrep_scanned_count data Hshape), Hres. cbv zeta.
  destruct (collect_semgrep_shape _ Hall) as (Hok & _ & _). rewrite Hok.
  rewrite (semgrep_verdict_shape data Hshape).
  exists (fst (collect semgrep_item (results_of data))). split; [reflexivity|].
  apply collect_forall2; [apply semgrep_item_some | apply semgrep_item_fields | exact Hok].
Qed.

(** The secret-detection loader on a list of objects. *)
Lemma load_gitleaks_results_shape path p data :
  files p path = Json data ->
  gitleaks_shape data = true ->
  exists l,
    load_gitleaks_results path p = (Ok tt, after_gitleaks l p)
    /\ Forall2 issue_of_finding l (findings_of data).
Proof.
  intros Hfile Hshape. rewrite load_gitleaks_results_eq, Hfile.
  destruct data; try discriminate. simpl in *.
  pose proof (collect_gitleaks_shape _ Hshape) as Hok. rewrite Hok.
  exists (fst (collect gitleaks_item l)). split; [reflexivity|].
  apply collect_forall2; [apply gitleaks_item_some | apply gitleaks_item_fields | exact Hok].
Qed.


End InputFacts.
(* ================================================================== *)
(** ** How a run ends *)

Module OutcomeFacts.

Import Text Py Gen Template Render Trace TextFacts LoaderFacts VulnerabilityFacts
  VulnerabilityShapeFacts SemgrepFacts Shape ItemFacts ShapeFacts FrameFacts
  InvariantFacts RecommenderFacts Style RenderFacts RunFacts Origin EffectFacts
  EscapeFacts LookupFacts MainFacts InputFacts Samples Exact.

#[local] Arguments lookup : simpl never.
#[local] Arguments String.eqb : simpl never.

Lemma run_eq fs now :
  run fs now
  = (exit_code (fst (main now (start fs now))), snd (main now (start fs now))).
Proof. unfold run. destruct (main now (start fs now)); reflexivity. Qed.


(** A rendering that can be encoded is written, and the run ends with 0. *)
Lemma run_writes fs now html :
  fst (load_all (start fs now)) = Ok tt ->
  render (set_recommendations (recommended (self (snd (load_all (start fs now)))))
            (self (snd (load_all (start fs now))))) = Ok html ->
  has_surrogate html = false ->
  run fs now
  = (0, {| files := fs;
           self := set_recommendations
                     (recommended (self (snd (load_all (start fs now)))))
                     (self (snd (load_all (start fs now))));
           stdout := (stdout (snd (load_all (start fs now)))
                      ++ closing_lines
                           (set_recommendations
                              (recommended (self (snd (load_all (start fs now)))))
                              (self (snd (load_all (start fs now))))))%list;
           written := [("security-reports/executive-report.html", html)] |}).
Proof.
  intros Hok Hr He. rewrite run_eq, main_outcome, Hok. cbv zeta. rewrite Hr, He.
  destruct (load_all_only_loaded (start fs now)) as (_ & _ & _ & _ & _ & -> & ->).
  reflexivity.
Qed.

(** A rendering that cannot be encoded leaves the report empty, and the run
    ends with 1. *)
Lemma run_truncates fs now html :
  fst (load_all (start fs now)) = Ok tt ->
  render (set_recommendations (recommended (self (snd (load_all (start fs now)))))
            (self (snd (load_all (start fs now))))) = Ok html ->
  has_surrogate html = true ->
  run fs now
  = (1, {| files := fs;
           self := set_recommendations
                     (recommended (self (snd (load_all (start fs now)))))
                     (self (snd (load_all (start fs now))));
           stdout := stdout (snd (load_all (start fs now)));
           written := [("security-reports/executive-report.html", EmptyString)] |}).
Proof.
  intros Hok Hr He. rewrite run_eq, main_outcome, Hok. cbv zeta. rewrite Hr, He.
  destruct (load_all_only_loaded (start fs now)) as (_ & _ & _ & _ & _ & -> & ->).
  reflexivity.
Qed.


(** The generator [main] leaves behind is the one the loaders left, with or
    without the recommendations set. *)
Lemma main_self fs now :
  self (snd (main now (start fs now))) = self (snd (load_all (start fs now)))
  \/ (fst (load_all (start fs now)) = Ok tt
      /\ self (snd (main now (start fs now)))
         = set_recommendations (recommended (self (snd (load_all (start fs now)))))
             (self (snd (load_all (start fs now))))).
Proof.
  rewrite main_outcome.
  destruct (fst (load_all (start fs now))) as [[]|e]; [|left; reflexivity].
  right. split; [reflexivity|]. cbv zeta.
  destruct (render _) as [html|e]; [destruct (has_surrogate html)|]; reflexivity.
Qed.

Lemma main_issues fs now :
  security_issues (self (snd (main now (start fs now))))
  = security_issues (self (snd (load_all (start fs now))))
  /\ scan_date (self (snd (main now (start fs now))))
     = scan_date (self (snd (load_all (start fs now))))
  /\ project_name (self (snd (main now (start fs now))))
     = project_name (self (snd (load_all (start fs now))))
  /\ compliance_framework (self (snd (main now (start fs now))))
     = compliance_framework (self (snd (load_all (start fs now))))
  /\ risk_level (self (snd (main now (start fs now))))
     = risk_level (self (snd (load_all (start fs now))))
  /\ compliance_status (self (snd (main now (start fs now))))
     = compliance_status (self (snd (load_all (start fs now))))
  /\ total_files_scanned (self (snd (main now (start fs now))))
     = total_files_scanned (self (snd (load_all (start fs now)))).
Proof.
  destruct (main_self fs now) as [-> | [_ ->]]; repeat split; reflexivity.
Qed.

Lemma loaded_from_start fs now :
  Forall from_a_loader (security_issues (self (snd (load_all (start fs now)))))
  /\ recommendations (self (snd (load_all (start fs now)))) = []
  /\ scan_date (self (snd (load_all (start fs now)))) = now
  /\ project_name (self (snd (load_all (start fs now))))
     = "GDPR-Compliant DevSecOps Pipeline"
  /\ compliance_framework (self (snd (load_all (start fs now))))
     = "UK GDPR + DevSecOps Best Practices"
  /\ files (snd (load_all (start fs now))) = fs
  /\ written (snd (load_all (start fs now))) = [].
Proof.
  destruct (load_all_only_loaded (start fs now))
    as ((l & Hl & Hf) & Hr & Hd & Hn & Hc & Hfs & Hw).
  rewrite Hl, Hr, Hd, Hn, Hc, Hfs, Hw. repeat split. exact Hf.
Qed.

(** The fixed impact texts of the secret-detection and vulnerability loaders
    do not mention GDPR. *)
Lemma fixed_impacts_without_gdpr i :
  from_secret_detection i \/ from_vulnerability_scan i ->
  contains "GDPR" (business_impact i) = false.
Proof.
  intros [(_ & _ & -> & _) | (_ & _ & _ & _ & ->)]; vm_compute; reflexivity.
Qed.

Lemma from_a_loader_gdpr i :
  from_a_loader i ->
  contains "GDPR" (business_impact i) = true ->
  type i = "GDPR Compliance Violation"
  /\ exists s, rule_id i = PStr s /\ last_segment s = "hardcoded-personal-data".
Proof.
  intros [(Ht & s & Hr & Hi & _) | H] Hc.
  - split; [exact Ht|]. exists s. split; [exact Hr|].
    exact (impact_mentions_gdpr _ _ Hi Hc).
  - rewrite (fixed_impacts_without_gdpr i H) in Hc. discriminate.
Qed.

(** What leaves the renderer. *)
Lemma render_issues_escape l e :
  render_issues l = Raise e -> e = UndefinedError \/ e = TypeError.
Proof.
  induction l as [|i l IH]; simpl; [discriminate|].
  unfold render_issue, rbind.
  destruct (lower_method (severity i)) eqn:El.
  - destruct (render_issues l); [discriminate|].
    intros H; inversion H; subst. apply IH; reflexivity.
  - intros H; inversion H; subst. unfold lower_method in El.
    destruct (severity i) as [| | | | |vs|kvs]; try (inversion El; left; reflexivity).
    destruct (lookup "lower" kvs); inversion El; [right | left]; reflexivity.
Qed.

Lemma render_escape d e :
  render d = Raise e -> e = UndefinedError \/ e = TypeError.
Proof.
  unfold render, render_findings, rbind.
  destruct (security_issues d) as [|i l]; [discriminate|].
  destruct (render_issues (i :: l)) eqn:E; [discriminate|].
  intros H; inversion H; subst. exact (render_issues_escape _ _ E).
Qed.





(** Each recommendation is written as one list item. *)
Lemma render_recommendations_in l r :
  In r l ->
  substring_of (recommendation_open ++ r ++ recommendation_close)
    (render_recommendations l).
Proof.
  unfold render_recommendations, concat_all.
  induction l as [|x l IH]; [intros []|].
  intros [->|H]; cbn [map fold_right].
  - exists EmptyString, (fold_right append EmptyString
                       (map (fun r => recommendation_open ++ r ++ recommendation_close) l)).
    reflexivity.
  - destruct (IH H) as (a & b & E).
    exists ((recommendation_open ++ x ++ recommendation_close) ++ a), b.
    rewrite E. rewrite !append_assoc. reflexivity.
Qed.




End OutcomeFacts.

(* ================================================================== *)
(** * Properties of the report generator *)

Import Text Py Gen Template Render Trace Shape Invariant Style Samples.
Import TextFacts LoaderFacts VulnerabilityFacts VulnerabilityShapeFacts SemgrepFacts
  ItemFacts ShapeFacts FrameFacts InvariantFacts RecommenderFacts RenderFacts RunFacts.
Import Origin MoreSamples Exact EffectFacts EscapeFacts LookupFacts MainFacts
  InputFacts OutcomeFacts.

(* ================================================================== *)
(** ** Secret detection wins over static analysis *)

(** C1: in a run of the three loaders in the order of [main], when the
    secret-detection file parses as a non-empty list, the state after the
    loaders has risk level CRITICAL and compliance status NON-COMPLIANT,
    whatever the static-analysis loader had set. *)
Theorem secrets_force_critical (p p' : process) (x : pyval) (xs : list pyval) :
  files p "security-reports/gitleaks-report.json" = Json (PList (x :: xs)) ->
  load_all p = (Ok tt, p') ->
  risk_level (self p') = CRITICAL /\ compliance_status (self p') = NON_COMPLIANT.
Proof.
  intros Hfile. unfold load_all, bind.
  destruct (load_semgrep_results "security-reports/pii-scan.json" p)
    as [[[]|e] p1] eqn:E1; [|discriminate].
  destruct (load_gitleaks_results "security-reports/gitleaks-report.json" p1)
    as [[[]|e] p2] eqn:E2; [|discriminate].
  intros E3.
  destruct (load_semgrep_results_files "security-reports/pii-scan.json" p) as [Hf _].
  rewrite E1 in Hf. simpl in Hf. rewrite <- Hf in Hfile.
  destruct (load_gitleaks_results_nonempty _ _ _ _ _ Hfile E2) as [Hr Hc].
  destruct (load_vulnerability_scan_frame "security-reports/vulnerabilities.json" p2)
    as (new & Hself & _ & _).
  rewrite E3 in Hself. simpl in Hself. rewrite Hself. simpl. auto.
Qed.

Lemma secrets_force_critical_witness :
  files (sample_start (Json sample_semgrep) (Json sample_gitleaks) Absent)
    "security-reports/gitleaks-report.json"
  = Json (PList [PDict [("Description", PStr "AWS Access Key");
                        ("File", PStr "config/settings.py");
                        ("StartLine", PInt 7);
                        ("RuleID", PStr "aws-access-token")]])
  /\ fst (load_all (sample_start (Json sample_semgrep) (Json sample_gitleaks) Absent))
     = Ok tt
  /\ risk_level (self (snd (load_all
        (sample_start (Json sample_semgrep) (Json sample_gitleaks) Absent))))
     = CRITICAL
  /\ compliance_status (self (snd (load_all
        (sample_start (Json sample_semgrep) (Json sample_gitleaks) Absent))))
     = NON_COMPLIANT.
Proof.
  split; [vm_compute; reflexivity|]. split; [vm_compute; reflexivity|].
  apply (secrets_force_critical
           (sample_start (Json sample_semgrep) (Json sample_gitleaks) Absent)
           (snd (load_all (sample_start (Json sample_semgrep) (Json sample_gitleaks) Absent)))
           (PDict [("Description", PStr "AWS Access Key");
                   ("File", PStr "config/settings.py");
                   ("StartLine", PInt 7);
                   ("RuleID", PStr "aws-access-token")]) []);
    vm_compute; reflexivity.
Defined.

(* ================================================================== *)
(** ** Which findings the risk level answers to *)

(** C2, as stated, fails: with no static-analysis and no secret-detection
    file and one CRITICAL match in the vulnerability file, the three loaders
    end normally with an issue of severity CRITICAL in [security_issues]
    while the risk level is still LOW and the status still COMPLIANT.  It
    fails for other orders of the loaders too: the static-analysis loader
    called after the secret-detection loader, on a file without results,
    puts the risk level back to LOW over an issue of severity HIGH. *)
Lemma worst_finding_not_reflected :
  fst (load_all (sample_start Absent Absent (Json sample_critical_vulnerability)))
  = Ok tt
  /\ pipeline_state (directory Absent Absent (Json sample_critical_vulnerability))
       sample_now
       (snd (load_all (sample_start Absent Absent (Json sample_critical_vulnerability))))
  /\ risk_level (self (snd (load_all
       (sample_start Absent Absent (Json sample_critical_vulnerability))))) = LOW
  /\ compliance_status (self (snd (load_all
       (sample_start Absent Absent (Json sample_critical_vulnerability))))) = COMPLIANT
  /\ ~ worst_finding_reflected (self (snd (load_all
       (sample_start Absent Absent (Json sample_critical_vulnerability)))))
  /\ risk_level (self (snd (load_semgrep_results "security-reports/pii-scan.json"
       (snd (load_gitleaks_results "security-reports/gitleaks-report.json"
          (sample_start (Json sample_semgrep_clean) (Json sample_gitleaks) Absent))))))
     = LOW
  /\ ~ worst_finding_reflected
        (self (snd (load_semgrep_results "security-reports/pii-scan.json"
           (snd (load_gitleaks_results "security-reports/gitleaks-report.json"
              (sample_start (Json sample_semgrep_clean) (Json sample_gitleaks)
                 Absent)))))).
Proof.
  split; [vm_compute; reflexivity|]. split.
  { apply (after_vulnerability_scan _ _
             (snd (load_semgrep_results "security-reports/pii-scan.json"
                (sample_start Absent Absent (Json sample_critical_vulnerability))))
             (snd (load_gitleaks_results "security-reports/gitleaks-report.json"
                (snd (load_semgrep_results "security-reports/pii-scan.json"
                   (sample_start Absent Absent (Json sample_critical_vulnerability))))))
             _);
      vm_compute; reflexivity. }
  split; [vm_compute; reflexivity|]. split; [vm_compute; reflexivity|].
  split; [|split; [vm_compute; reflexivity|]].
  - intros H.
    destruct (H {| type := "Dependency Vulnerability";
                   severity := PStr "CRITICAL";
                   message := PStr "Vulnerable dependency: openssl";
                   file := PStr "package.json";
                   line := PInt 0;
                   rule_id := PStr "CVE-3";
                   business_impact :=
                     "Supply chain security risk, potential data exposure";
                   remediation := "Update to version latest" |}) as [Hc _].
    { vm_compute. left. reflexivity. }
    specialize (Hc eq_refl). vm_compute in Hc. lia.
  - intros H.
    destruct (H {| type := "Secret/PII Exposure";
                   severity := PStr "HIGH";
                   message := PStr "Potential AWS Access Key detected";
                   file := PStr "config/settings.py";
                   line := PInt 7;
                   rule_id := PStr "aws-access-token";
                   business_impact :=
                     "Data breach risk, ICO fine exposure (up to £20M)";
                   remediation :=
                     "Remove secret from code, rotate credentials, implement secrets management" |})
      as [_ Hh].
    { vm_compute. left. reflexivity. }
    specialize (Hh eq_refl). vm_compute in Hh. lia.
Qed.

(** C2, amended: in every state of a run of [main] in which a loader has
    just returned, the risk level and compliance status answer to the
    findings of the static-analysis and secret-detection loaders: a secret
    gives CRITICAL and NON-COMPLIANT, a static-analysis finding of severity
    ERROR at least HIGH and NON-COMPLIANT, any static-analysis finding at
    least MEDIUM and a status other than COMPLIANT. *)
Theorem scanner_findings_always_reflected
    (fs : string -> file_input) (now : string) (p : process) :
  pipeline_state fs now p -> scanner_findings_reflected (self p).
Proof.
  intros [q H1 | q r H1 H2 | q r s H1 H2 H3].
  - exact (load_semgrep_results_reflected _ _ _ _ H1).
  - pose proof (load_gitleaks_results_reflected "security-reports/gitleaks-report.json"
                  q (load_semgrep_results_reflected _ _ _ _ H1)) as H.
    rewrite H2 in H. exact H.
  - pose proof (load_gitleaks_results_reflected "security-reports/gitleaks-report.json"
                  q (load_semgrep_results_reflected _ _ _ _ H1)) as H.
    rewrite H2 in H.
    pose proof (load_vulnerability_scan_reflected "security-reports/vulnerabilities.json"
                  r H) as H'.
    rewrite H3 in H'. exact H'.
Qed.

Lemma scanner_findings_always_reflected_witness :
  pipeline_state (directory (Json sample_semgrep) (Json sample_gitleaks)
                    (Json sample_vulnerabilities)) sample_now
    (snd (load_vulnerability_scan "security-reports/vulnerabilities.json"
       (snd (load_gitleaks_results "security-reports/gitleaks-report.json"
          (snd (load_semgrep_results "security-reports/pii-scan.json"
             (sample_start (Json sample_semgrep) (Json sample_gitleaks)
                (Json sample_vulnerabilities))))))))
  /\ scanner_findings_reflected
       (self (snd (load_vulnerability_scan "security-reports/vulnerabilities.json"
          (snd (load_gitleaks_results "security-reports/gitleaks-report.json"
             (snd (load_semgrep_results "security-reports/pii-scan.json"
                (sample_start (Json sample_semgrep) (Json sample_gitleaks)
                   (Json sample_vulnerabilities))))))))).
Proof.
  assert (H : pipeline_state (directory (Json sample_semgrep) (Json sample_gitleaks)
                                (Json sample_vulnerabilities)) sample_now
    (snd (load_vulnerability_scan "security-reports/vulnerabilities.json"
       (snd (load_gitleaks_results "security-reports/gitleaks-report.json"
          (snd (load_semgrep_results "security-reports/pii-scan.json"
             (sample_start (Json sample_semgrep) (Json sample_gitleaks)
                (Json sample_vulnerabilities)))))))))
    by (apply (after_vulnerability_scan _ _
                 (snd (load_semgrep_results "security-reports/pii-scan.json"
                    (sample_start (Json sample_semgrep) (Json sample_gitleaks)
                       (Json sample_vulnerabilities))))
                 (snd (load_gitleaks_results "security-reports/gitleaks-report.json"
                    (snd (load_semgrep_results "security-reports/pii-scan.json"
                       (sample_start (Json sample_semgrep) (Json sample_gitleaks)
                          (Json sample_vulnerabilities))))))
                 _);
        vm_compute; reflexivity).
  split; [exact H|].
  exact (scanner_findings_always_reflected _ _ _ H).
Defined.

(* ================================================================== *)
(** ** A whole run of [main] *)




(* ================================================================== *)
(** ** The rendered report *)

(** C4, as stated, fails: a static-analysis message with markup in it is
    written to the report as it is, and its escaped form is nowhere in the
    document. *)
Lemma markup_reaches_report :
  run (directory (Json sample_semgrep_markup) Absent Absent) sample_now
  = (0, snd (run (directory (Json sample_semgrep_markup) Absent Absent) sample_now))
  /\ written (snd (run (directory (Json sample_semgrep_markup) Absent Absent)
                     sample_now))
     = [("security-reports/executive-report.html",
         rendered (self (snd (run (directory (Json sample_semgrep_markup) Absent Absent)
                                sample_now))))]
  /\ contains "<script>alert(1)</script>"
       (rendered (self (snd (run (directory (Json sample_semgrep_markup) Absent Absent)
                              sample_now)))) = true
  /\ contains (escape_html "<script>alert(1)</script>")
       (rendered (self (snd (run (directory (Json sample_semgrep_markup) Absent Absent)
                              sample_now)))) = false.
Proof.
  split; [|split; [|split]]; vm_compute; reflexivity.
Qed.

(** C4, amended: the renderer writes the scanner-derived texts of every
    issue whose message, file and line are each a text or an integer
    (message, severity, file, line, business impact, remediation) into the
    document exactly as they are, between the fixed texts of the template;
    nothing is escaped. *)
Theorem render_writes_issue_text_verbatim (d : report_data) (html : string) (i : issue) :
  render d = Ok html ->
  In i (security_issues d) ->
  plain (message i) = true ->
  plain (file i) = true ->
  plain (line i) = true ->
  substring_of (issue_open ++ str (message i) ++ severity_badge_open) html
  /\ substring_of (severity_badge_mid ++ str (severity i) ++ severity_badge_close) html
  /\ substring_of
       (issue_file_open ++ str (file i) ++ issue_line_open ++ str (line i)
        ++ issue_impact_open ++ business_impact i
        ++ issue_action_open ++ remediation i ++ issue_close) html.
Proof.
  intros Hr Hin _ _ _.
  destruct (render_parts _ _ Hr) as (_ & _ & findings & Hf & Hsub).
  destruct (render_findings_in _ _ i Hf Hin) as (a & Ha & Hsa).
  assert (Hall : forall x, substring_of x a -> substring_of x html)
    by (intros x Hx; eapply substring_of_trans; [exact Hx|];
        eapply substring_of_trans; eassumption).
  unfold render_issue, rbind in Ha.
  destruct (lower_method (severity i)) as [low|]; [|discriminate].
  apply Ok_inj in Ha. subst a.
  split; [|split]; apply Hall.
  - apply head3_substring.
  - do 4 apply substring_of_app_r. apply head3_substring.
  - do 8 apply substring_of_app_r. apply substring_of_refl.
Qed.

Lemma render_writes_issue_text_verbatim_witness :
  render (self (snd (load_all (sample_start (Json sample_semgrep_markup) Absent Absent))))
  = Ok (rendered (self (snd (load_all
          (sample_start (Json sample_semgrep_markup) Absent Absent)))))
  /\ plain (PStr "<script>alert(1)</script>") = true
  /\ plain (PStr "app/views.py") = true
  /\ plain (PInt 3) = true
  /\ substring_of (issue_open ++ "<script>alert(1)</script>" ++ severity_badge_open)
       (rendered (self (snd (load_all
          (sample_start (Json sample_semgrep_markup) Absent Absent))))).
Proof.
  split; [vm_compute; reflexivity|].
  split; [reflexivity|]. split; [reflexivity|]. split; [reflexivity|].
  refine (proj1 (render_writes_issue_text_verbatim
            (self (snd (load_all (sample_start (Json sample_semgrep_markup) Absent Absent))))
            (rendered (self (snd (load_all
               (sample_start (Json sample_semgrep_markup) Absent Absent)))))
            {| type := "GDPR Compliance Violation";
               severity := PStr "WARNING";
               message := PStr "<script>alert(1)</script>";
               file := PStr "app/views.py";
               line := PInt 3;
               rule_id := PStr "rules.gdpr.missing-consent-check";
               business_impact :=
                 "Article 6 violation - unlawful processing, subject access request complications";
               remediation :=
                 "Add consent validation before data processing operations" |}
            _ _ eq_refl eq_refl eq_refl)).
  - vm_compute. reflexivity.
  - left. reflexivity.
Defined.

(* ================================================================== *)
(** ** The static-analysis loader *)

#[local] Arguments String.eqb : simpl never.

(** C5: on a static-analysis input of the documented shape the loader ends
    normally, and afterwards: no results, LOW and COMPLIANT; else some result
    of severity ERROR, HIGH and NON-COMPLIANT; otherwise MEDIUM and PARTIALLY
    COMPLIANT, whatever the state was before. *)
Theorem load_semgrep_results_classifies (path : string) (p : process) (data : pyval) :
  files p path = Json data ->
  semgrep_shape data = true ->
  fst (load_semgrep_results path p) = Ok tt
  /\ (risk_level (self (snd (load_semgrep_results path p))),
      compliance_status (self (snd (load_semgrep_results path p))))
     = match results_of data with
       | [] => (LOW, COMPLIANT)
       | _ :: _ =>
           if existsb is_error (results_of data) then (HIGH, NON_COMPLIANT)
           else (MEDIUM, PARTIALLY_COMPLIANT)
       end.
Proof.
  intros Hfile Hshape. rewrite load_semgrep_results_eq, Hfile.
  destruct (semgrep_results_shape data Hshape) as (Hres & Hall & n & Hn).
  rewrite Hn, Hres. cbv zeta.
  destruct (collect_semgrep_shape _ Hall) as (Hok & _ & _). rewrite Hok.
  rewrite (semgrep_verdict_shape data Hshape). simpl.
  unfold static_analysis_rule.
  destruct (results_of data) as [|r rs]; [split; reflexivity|].
  destruct (existsb is_error (r :: rs)); split; reflexivity.
Qed.

Lemma load_semgrep_results_classifies_witness :
  files (sample_start (Json sample_semgrep) Absent Absent)
    "security-reports/pii-scan.json" = Json sample_semgrep
  /\ semgrep_shape sample_semgrep = true
  /\ fst (load_semgrep_results "security-reports/pii-scan.json"
            (sample_start (Json sample_semgrep) Absent Absent)) = Ok tt
  /\ (risk_level (self (snd (load_semgrep_results "security-reports/pii-scan.json"
                              (sample_start (Json sample_semgrep) Absent Absent)))),
      compliance_status (self (snd (load_semgrep_results "security-reports/pii-scan.json"
                                     (sample_start (Json sample_semgrep) Absent Absent)))))
     = (HIGH, NON_COMPLIANT).
Proof.
  split; [reflexivity|]. split; [reflexivity|].
  apply (load_semgrep_results_classifies "security-reports/pii-scan.json"
           (sample_start (Json sample_semgrep) Absent Absent) sample_semgrep);
    reflexivity.
Defined.

(* ================================================================== *)
(** ** The vulnerability loader: what it reports and what it leaves alone *)

(** C6: whatever the input file holds and whatever the state before, the
    vulnerability loader leaves [risk_level] and [compliance_status] exactly
    as they were, also on the runs in which it appends issues of severity
    HIGH or CRITICAL. *)
Theorem load_vulnerability_scan_keeps_risk (path : string) (p : process) :
  risk_level (self (snd (load_vulnerability_scan path p))) = risk_level (self p)
  /\ compliance_status (self (snd (load_vulnerability_scan path p)))
     = compliance_status (self p).
Proof.
  destruct (load_vulnerability_scan_frame path p) as (new & Hself & _ & _).
  rewrite Hself. split; reflexivity.
Qed.

(** C7 fails on the code: a match of severity HIGH whose [fix] lists no
    version is of the documented shape, yet the remediation text takes the
    first of its versions without looking whether there is one.  The loader
    raises IndexError, which no clause catches, no issue is appended for
    the match and the run ends with exit code 1; the same match without
    [fix] gets its issue, with "latest" for the version. *)
Lemma load_vulnerability_scan_fails_on_empty_fix :
  matches_of sample_unfixed_vulnerability
  = [PDict [("artifact", PDict [("name", PStr "openssl")]);
            ("vulnerability", PDict [("id", PStr "CVE-4");
                                     ("severity", PStr "HIGH");
                                     ("fix", PDict [("versions", PList []);
                                                    ("state", PStr "not-fixed")])])]]
  /\ filter reported (matches_of sample_unfixed_vulnerability)
     = matches_of sample_unfixed_vulnerability
  /\ fst (load_vulnerability_scan "security-reports/vulnerabilities.json"
            (sample_start Absent Absent (Json sample_unfixed_vulnerability)))
     = Raise IndexError
  /\ security_issues
       (self (snd (load_vulnerability_scan "security-reports/vulnerabilities.json"
                     (sample_start Absent Absent (Json sample_unfixed_vulnerability)))))
     = []
  /\ fst (run (directory Absent Absent (Json sample_unfixed_vulnerability)) sample_now)
     = 1
  /\ fst (load_vulnerability_scan "security-reports/vulnerabilities.json"
            (sample_start Absent Absent (Json sample_critical_vulnerability)))
     = Ok tt
  /\ map remediation
       (security_issues
          (self (snd (load_vulnerability_scan "security-reports/vulnerabilities.json"
                        (sample_start Absent Absent
                           (Json sample_critical_vulnerability))))))
     = ["Update to version latest"].
Proof.
  split; [|split; [|split; [|split; [|split; [|split]]]]]; vm_compute; reflexivity.
Qed.

(* ================================================================== *)
(** ** The summary tiles *)

(** C8 fails on the code: the class of the compliance tile is the
    lowercased status with each dash turned into an underscore, so
    NON-COMPLIANT gives "non_compliant" and PARTIALLY COMPLIANT gives
    "partially compliant"; neither is "non-compliant" or
    "partially-compliant", the classes the style sheet has rules for, and
    the report of a NON-COMPLIANT run carries the class without a rule. *)
Lemma compliance_class_misses_stylesheet :
  compliance_class NON_COMPLIANT = "non_compliant"
  /\ compliance_class PARTIALLY_COMPLIANT = "partially compliant"
  /\ defines_class stylesheet "non-compliant" = true
  /\ defines_class stylesheet "partially-compliant" = true
  /\ defines_class stylesheet (compliance_class NON_COMPLIANT) = false
  /\ defines_class stylesheet (compliance_class PARTIALLY_COMPLIANT) = false
  /\ contains (value_tag "value non_compliant" ++ "NON-COMPLIANT</div>")
       (rendered (self (snd (load_all (sample_start (Json sample_semgrep) Absent Absent)))))
     = true
  /\ contains (value_tag "value non-compliant")
       (rendered (self (snd (load_all (sample_start (Json sample_semgrep) Absent Absent)))))
     = false.
Proof.
  split; [|split; [|split; [|split; [|split; [|split; [|split]]]]]];
    vm_compute; reflexivity.
Qed.

(* ================================================================== *)
(** ** The recommender *)

(** C9: when some issue has severity HIGH or CRITICAL and the business
    impact of some issue contains "GDPR", the recommender appends both
    blocks to [recommendations]: the three high-severity recommendations
    first, the first of them naming the number of HIGH and CRITICAL issues,
    then the three GDPR recommendations. *)
Theorem generate_recommendations_both_blocks (p : process) :
  (exists i, In i (security_issues (self p))
             /\ (severity i = PStr "HIGH" \/ severity i = PStr "CRITICAL")) ->
  (exists i, In i (security_issues (self p))
             /\ substring_of "GDPR" (business_impact i)) ->
  fst (generate_recommendations p) = Ok tt
  /\ recommendations (self (snd (generate_recommendations p)))
     = (recommendations (self p)
        ++ [("IMMEDIATE ACTION: Address "
               ++ nat_str (List.length
                             (filter (fun i => in_high_critical (severity i))
                                (security_issues (self p))))
               ++ " high/critical severity issues")%string;
            "Implement mandatory security training for development team";
            "Review and strengthen code review processes"]
        ++ ["Schedule legal review of data processing practices";
            "Conduct GDPR compliance training for technical teams";
            "Implement Data Protection Impact Assessment (DPIA) process"])%list.
Proof.
  intros Hhigh Hgdpr. rewrite generate_recommendations_eq.
  split; [reflexivity|]. unfold recommended. cbn [snd self with_self].
  destruct (security_issues (self p)) as [|i l] eqn:E.
  - destruct Hhigh as (j & [] & _).
  - apply high_severity_count_pos in Hhigh. apply any_gdpr_spec in Hgdpr.
    apply Nat.ltb_lt in Hhigh. rewrite Hhigh, Hgdpr. reflexivity.
Qed.

Lemma generate_recommendations_both_blocks_witness :
  (exists i,
     In i (security_issues (self (snd (load_all
             (sample_start (Json sample_semgrep) (Json sample_gitleaks)
                (Json sample_vulnerabilities))))))
     /\ (severity i = PStr "HIGH" \/ severity i = PStr "CRITICAL"))
  /\ (exists i,
        In i (security_issues (self (snd (load_all
                (sample_start (Json sample_semgrep) (Json sample_gitleaks)
                   (Json sample_vulnerabilities))))))
        /\ substring_of "GDPR" (business_impact i))
  /\ recommendations (self (snd (generate_recommendations (snd (load_all
         (sample_start (Json sample_semgrep) (Json sample_gitleaks)
            (Json sample_vulnerabilities)))))))
     = ["IMMEDIATE ACTION: Address 3 high/critical severity issues";
        "Implement mandatory security training for development team";
        "Review and strengthen code review processes";
        "Schedule legal review of data processing practices";
        "Conduct GDPR compliance training for technical teams";
        "Implement Data Protection Impact Assessment (DPIA) process"].
Proof.
  assert (Hhigh : exists i,
     In i (security_issues (self (snd (load_all
             (sample_start (Json sample_semgrep) (Json sample_gitleaks)
                (Json sample_vulnerabilities))))))
     /\ (severity i = PStr "HIGH" \/ severity i = PStr "CRITICAL")).
  { apply high_severity_count_pos. vm_compute. lia. }
  assert (Hgdpr : exists i,
     In i (security_issues (self (snd (load_all
             (sample_start (Json sample_semgrep) (Json sample_gitleaks)
                (Json sample_vulnerabilities))))))
     /\ substring_of "GDPR" (business_impact i)).
  { apply any_gdpr_spec. vm_compute. reflexivity. }
  split; [exact Hhigh|]. split; [exact Hgdpr|].
  exact (proj2 (generate_recommendations_both_blocks
                  (snd (load_all (sample_start (Json sample_semgrep)
                                    (Json sample_gitleaks)
                                    (Json sample_vulnerabilities))))
                  Hhigh Hgdpr)).
Defined.

(** C10: when [security_issues] is not empty, no issue has severity HIGH or
    CRITICAL and no business impact contains "GDPR", the recommender adds
    nothing: a recommendations list that was empty, as [main] has it, stays
    empty, and the recommendations loop of the report renders nothing. *)
Theorem generate_recommendations_silent (p : process) :
  security_issues (self p) <> [] ->
  (forall i, In i (security_issues (self p)) ->
             severity i <> PStr "HIGH" /\ severity i <> PStr "CRITICAL") ->
  (forall i, In i (security_issues (self p)) ->
             ~ substring_of "GDPR" (business_impact i)) ->
  recommendations (self p) = [] ->
  fst (generate_recommendations p) = Ok tt
  /\ recommendations (self (snd (generate_recommendations p))) = []
  /\ render_recommendations (recommendations (self (snd (generate_recommendations p))))
     = EmptyString.
Proof.
  intros Hne Hlow Hplain Hrecs. rewrite generate_recommendations_eq.
  split; [reflexivity|]. unfold recommended. cbn [snd self with_self].
  destruct (security_issues (self p)) as [|i l] eqn:E; [now destruct Hne|].
  assert (Hcount : (0 <? high_severity_count (i :: l))%nat = false).
  { apply Nat.ltb_ge. destruct (high_severity_count (i :: l)) eqn:Ec; [lia|].
    assert (H : (0 < high_severity_count (i :: l))%nat) by lia.
    apply high_severity_count_pos in H as (j & Hj & Hs).
    destruct (Hlow j Hj) as [H1 H2]. destruct Hs; contradiction. }
  assert (Hg : any_gdpr (i :: l) = false).
  { destruct (any_gdpr (i :: l)) eqn:Eg; [|reflexivity].
    apply any_gdpr_spec in Eg as (j & Hj & Hs). destruct (Hplain j Hj Hs). }
  rewrite Hcount, Hg. cbn [recommendations set_recommendations].
  rewrite Hrecs. split; reflexivity.
Qed.

Lemma generate_recommendations_silent_witness :
  security_issues (self (snd (load_all
     (sample_start (Json sample_semgrep_warning) Absent Absent)))) <> []
  /\ recommendations (self (snd (load_all
        (sample_start (Json sample_semgrep_warning) Absent Absent)))) = []
  /\ recommendations (self (snd (generate_recommendations (snd (load_all
        (sample_start (Json sample_semgrep_warning) Absent Absent)))))) = []
  /\ render_recommendations (recommendations (self (snd (generate_recommendations
        (snd (load_all (sample_start (Json sample_semgrep_warning) Absent Absent)))))))
     = EmptyString.
Proof.
  split; [vm_compute; discriminate|]. split; [vm_compute; reflexivity|].
  apply (generate_recommendations_silent
           (snd (load_all (sample_start (Json sample_semgrep_warning) Absent Absent)))).
  - vm_compute. discriminate.
  - intros i Hi. vm_compute in Hi. destruct Hi as [<- | []]. split; discriminate.
  - intros i Hi H. apply contains_spec in H. vm_compute in Hi.
    destruct Hi as [<- | []]. vm_compute in H. discriminate H.
  - vm_compute. reflexivity.
Defined.

(* ================================================================== *)
(** * Further properties *)

(* ================================================================== *)
(** ** Unreadable input files *)

(** X1: a loader whose file is missing does nothing but print one line that
    names the file, and returns normally: the generator is untouched. *)
Theorem missing_file_is_logged (path : string) (p : process) :
  files p path = Absent ->
  load_semgrep_results path p
  = (Ok tt, {| files := files p; self := self p;
               stdout := (stdout p ++ [("Semgrep results file not found: " ++ path)%string])%list;
               written := written p |})
  /\ load_gitleaks_results path p
     = (Ok tt, {| files := files p; self := self p;
                  stdout := (stdout p ++ [("GitLeaks results file not found: " ++ path)%string])%list;
                  written := written p |})
  /\ load_vulnerability_scan path p
     = (Ok tt, {| files := files p; self := self p;
                  stdout := (stdout p
                             ++ [("Vulnerability scan results not found: " ++ path)%string])%list;
                  written := written p |}).
Proof.
  intros H.
  rewrite (load_semgrep_results_absent _ _ H), (load_gitleaks_results_absent _ _ H),
    (load_vulnerability_scan_absent _ _ H).
  split; [|split]; reflexivity.
Qed.

Lemma missing_file_is_logged_witness :
  files (sample_start Absent Absent Absent) "security-reports/pii-scan.json" = Absent
  /\ load_semgrep_results "security-reports/pii-scan.json"
       (sample_start Absent Absent Absent)
     = (Ok tt, {| files := directory Absent Absent Absent;
                  self := init sample_now;
                  stdout := ["Semgrep results file not found: security-reports/pii-scan.json"];
                  written := [] |}).
Proof.
  split; [reflexivity|].
  exact (proj1 (missing_file_is_logged "security-reports/pii-scan.json"
                  (sample_start Absent Absent Absent) eq_refl)).
Defined.

(** X2: a loader whose file is a text that is not JSON, so that [json.load]
    raises JSONDecodeError, does nothing but print one line that names the
    file, and returns normally: the generator is untouched. *)
Theorem malformed_file_is_logged (path : string) (p : process) :
  files p path = Malformed ->
  load_semgrep_results path p
  = (Ok tt, {| files := files p; self := self p;
               stdout := (stdout p ++ [("Invalid JSON in Semgrep results: " ++ path)%string])%list;
               written := written p |})
  /\ load_gitleaks_results path p
     = (Ok tt, {| files := files p; self := self p;
                  stdout := (stdout p ++ [("Error parsing GitLeaks results: " ++ path)%string])%list;
                  written := written p |})
  /\ load_vulnerability_scan path p
     = (Ok tt, {| files := files p; self := self p;
                  stdout := (stdout p
                             ++ [("Error parsing vulnerability results: " ++ path)%string])%list;
                  written := written p |}).
Proof.
  intros H.
  rewrite (load_semgrep_results_malformed _ _ H), (load_gitleaks_results_malformed _ _ H),
    (load_vulnerability_scan_malformed _ _ H).
  split; [|split]; reflexivity.
Qed.

Lemma malformed_file_is_logged_witness :
  files (sample_start Absent Malformed Absent) "security-reports/gitleaks-report.json"
  = Malformed
  /\ load_gitleaks_results "security-reports/gitleaks-report.json"
       (sample_start Absent Malformed Absent)
     = (Ok tt, {| files := directory Absent Malformed Absent;
                  self := init sample_now;
                  stdout :=
                    ["Error parsing GitLeaks results: security-reports/gitleaks-report.json"];
                  written := [] |}).
Proof.
  split; [reflexivity|].
  exact (proj1 (proj2 (malformed_file_is_logged "security-reports/gitleaks-report.json"
                         (sample_start Absent Malformed Absent) eq_refl))).
Defined.

(* ================================================================== *)
(** ** The lookup tables *)

(** X3: both lookups go by what follows the last dot of the rule identifier:
    whatever namespace stands before a dot is ignored. *)
Theorem rule_namespace_is_ignored (namespace rule : string) :
  _get_business_impact (PStr (namespace ++ "." ++ rule))
  = _get_business_impact (PStr rule)
  /\ _get_remediation_advice (PStr (namespace ++ "." ++ rule))
     = _get_remediation_advice (PStr rule).
Proof.
  unfold _get_business_impact, _get_remediation_advice, table_get.
  rewrite last_segment_after_dot. split; reflexivity.
Qed.

(** X4: of all rule identifiers only those that end in the segment
    "hardcoded-personal-data" get an impact text that mentions GDPR. *)
Theorem only_hardcoded_personal_data_mentions_gdpr (rule_id text : string) :
  _get_business_impact (PStr rule_id) = Ok text ->
  substring_of "GDPR" text ->
  last_segment rule_id = "hardcoded-personal-data".
Proof.
  intros Ht Hs. apply contains_spec in Hs. exact (impact_mentions_gdpr _ _ Ht Hs).
Qed.

Lemma only_hardcoded_personal_data_mentions_gdpr_witness :
  _get_business_impact (PStr "rules.gdpr.hardcoded-personal-data")
  = Ok "GDPR Article 5 violation - ICO fine risk up to £20M, reputational damage"
  /\ substring_of "GDPR"
       "GDPR Article 5 violation - ICO fine risk up to £20M, reputational damage"
  /\ last_segment "rules.gdpr.hardcoded-personal-data" = "hardcoded-personal-data".
Proof.
  assert (Hs : substring_of "GDPR"
            "GDPR Article 5 violation - ICO fine risk up to £20M, reputational damage")
    by (apply contains_spec; vm_compute; reflexivity).
  split; [reflexivity|]. split; [exact Hs|].
  exact (only_hardcoded_personal_data_mentions_gdpr
           "rules.gdpr.hardcoded-personal-data"
           "GDPR Article 5 violation - ICO fine risk up to £20M, reputational damage"
           eq_refl Hs).
Defined.

(* ================================================================== *)
(** ** What each loader appends and what it leaves alone *)

(** X5: on a static-analysis file of the documented shape the loader
    appends one issue per result, in the order of the results, each with the
    fields of its result copied, sets [total_files_scanned] to the number of
    scanned paths and leaves the recommendations alone. *)
Theorem load_semgrep_results_copies_results
    (path : string) (p : process) (data : pyval) :
  files p path = Json data ->
  semgrep_shape data = true ->
  exists new,
    fst (load_semgrep_results path p) = Ok tt
    /\ security_issues (self (snd (load_semgrep_results path p)))
       = (security_issues (self p) ++ new)%list
    /\ Forall2 issue_of_result new (results_of data)
    /\ total_files_scanned (self (snd (load_semgrep_results path p)))
       = List.length (scanned_of data)
    /\ recommendations (self (snd (load_semgrep_results path p)))
       = recommendations (self p).
Proof.
  intros Hfile Hshape.
  destruct (load_semgrep_results_shape path p data Hfile Hshape) as (l & -> & Hl).
  exists l. repeat (split; [reflexivity|]). split; [exact Hl|]. split; reflexivity.
Qed.

Lemma load_semgrep_results_copies_results_witness :
  files (sample_start (Json sample_semgrep) Absent Absent)
    "security-reports/pii-scan.json" = Json sample_semgrep
  /\ semgrep_shape sample_semgrep = true
  /\ exists new,
      security_issues
        (self (snd (load_semgrep_results "security-reports/pii-scan.json"
                      (sample_start (Json sample_semgrep) Absent Absent))))
      = new
      /\ Forall2 issue_of_result new (results_of sample_semgrep)
      /\ total_files_scanned
           (self (snd (load_semgrep_results "security-reports/pii-scan.json"
                         (sample_start (Json sample_semgrep) Absent Absent))))
         = 2.
Proof.
  split; [reflexivity|]. split; [reflexivity|].
  destruct (load_semgrep_results_copies_results "security-reports/pii-scan.json"
              (sample_start (Json sample_semgrep) Absent Absent) sample_semgrep
              eq_refl eq_refl) as (new & _ & H2 & H3 & H4 & _).
  exists new. split; [exact H2|]. split; [exact H3 | exact H4].
Defined.

(** X6: whatever its file holds and however it ends, the secret-detection
    loader either leaves the generator untouched or has appended issues of
    its own kind (type "Secret/PII Exposure", severity HIGH, fixed impact and
    remediation texts) and set CRITICAL and NON-COMPLIANT; it never touches
    the count of scanned files or the recommendations. *)
Theorem load_gitleaks_results_all_or_nothing (path : string) (p : process) :
  exists new,
    security_issues (self (snd (load_gitleaks_results path p)))
    = (security_issues (self p) ++ new)%list
    /\ Forall from_secret_detection new
    /\ total_files_scanned (self (snd (load_gitleaks_results path p)))
       = total_files_scanned (self p)
    /\ recommendations (self (snd (load_gitleaks_results path p)))
       = recommendations (self p)
    /\ match new with
       | [] => self (snd (load_gitleaks_results path p)) = self p
       | _ :: _ =>
           risk_level (self (snd (load_gitleaks_results path p))) = CRITICAL
           /\ compliance_status (self (snd (load_gitleaks_results path p)))
              = NON_COMPLIANT
       end.
Proof.
  destruct (load_gitleaks_results_effect path p) as (l & -> & Hl & _).
  exists l. destruct l as [|i l]; simpl.
  - rewrite app_nil_r. repeat split; constructor.
  - repeat split. exact Hl.
Qed.

(** X7: on a secret-detection file that is a list of objects the loader
    returns normally having appended one issue per finding, in order, each
    with the file, line and rule of its finding, or their defaults
    ("Unknown", 0, "secret-detection") where the finding lacks them, and,
    where the description is a text or is missing (then "secret"), with the
    message "Potential <description> detected". *)
Theorem load_gitleaks_results_copies_findings
    (path : string) (p : process) (data : pyval) :
  files p path = Json data ->
  gitleaks_shape data = true ->
  exists new,
    fst (load_gitleaks_results path p) = Ok tt
    /\ security_issues (self (snd (load_gitleaks_results path p)))
       = (security_issues (self p) ++ new)%list
    /\ Forall2 issue_of_finding new (findings_of data).
Proof.
  intros Hfile Hshape.
  destruct (load_gitleaks_results_shape path p data Hfile Hshape) as (l & -> & Hl).
  exists l. split; [reflexivity|]. split; [|exact Hl].
  destruct l; simpl; [now rewrite app_nil_r | reflexivity].
Qed.

Lemma load_gitleaks_results_copies_findings_witness :
  files (sample_start Absent (Json sample_gitleaks_bare) Absent)
    "security-reports/gitleaks-report.json" = Json sample_gitleaks_bare
  /\ gitleaks_shape sample_gitleaks_bare = true
  /\ security_issues
       (self (snd (load_gitleaks_results "security-reports/gitleaks-report.json"
                     (sample_start Absent (Json sample_gitleaks_bare) Absent))))
     = [{| type := "Secret/PII Exposure";
           severity := PStr "HIGH";
           message := PStr "Potential secret detected";
           file := PStr "Unknown";
           line := PInt 0;
           rule_id := PStr "secret-detection";
           business_impact := "Data breach risk, ICO fine exposure (up to £20M)";
           remediation :=
             "Remove secret from code, rotate credentials, implement secrets management" |}]
  /\ exists new,
      security_issues
        (self (snd (load_gitleaks_results "security-reports/gitleaks-report.json"
                      (sample_start Absent (Json sample_gitleaks_bare) Absent))))
      = new
      /\ Forall2 issue_of_finding new (findings_of sample_gitleaks_bare).
Proof.
  split; [reflexivity|]. split; [reflexivity|]. split; [vm_compute; reflexivity|].
  destruct (load_gitleaks_results_copies_findings "security-reports/gitleaks-report.json"
              (sample_start Absent (Json sample_gitleaks_bare) Absent)
              sample_gitleaks_bare eq_refl eq_refl) as (new & _ & H2 & H3).
  exists new. split; [exact H2 | exact H3].
Defined.

(** X8: whatever its file holds and however it ends, the vulnerability
    loader changes nothing in the generator but [security_issues], to which
    it only appends issues of its own kind: type "Dependency Vulnerability",
    severity HIGH or CRITICAL, file "package.json", line 0. *)
Theorem load_vulnerability_scan_only_appends (path : string) (p : process) :
  exists new,
    self (snd (load_vulnerability_scan path p))
    = set_security_issues (security_issues (self p) ++ new)%list (self p)
    /\ Forall from_vulnerability_scan new.
Proof.
  destruct (load_vulnerability_scan_effect path p) as (l & Hs & Hl & _).
  exists l. split; assumption.
Qed.

(** X9: the remediation text of a vulnerability issue names the first
    version listed under [vulnerability.fix.versions], when that version is
    a text. *)
Theorem remediation_names_first_fix
    (m v fx : list (string * pyval)) (first : string) (others : list pyval)
    (severity : pyval) (i : issue) :
  lookup "vulnerability" m = Some (PDict v) ->
  lookup "fix" v = Some (PDict fx) ->
  lookup "versions" fx = Some (PList (PStr first :: others)) ->
  vulnerability_issue (PDict m) severity = Ok i ->
  remediation i = "Update to version " ++ first.
Proof.
  intros Hv Hf Hvs. unfold vulnerability_issue, fix_version, rbind. simpl.
  rewrite Hv. simpl. rewrite Hf. simpl.
  destruct fx as [|kv fx']; [discriminate|]. cbn [truthy].
  rewrite Hvs. cbn [index0].
  destruct (lookup "artifact" m) as [[]|]; simpl; try discriminate;
    intros H; inversion H; reflexivity.
Qed.

Lemma remediation_names_first_fix_witness :
  lookup "vulnerability" sample_fixed_match
  = Some (PDict [("id", PStr "CVE-2"); ("severity", PStr "HIGH");
                 ("fix", PDict [("versions", PList [PStr "2.31.0"; PStr "2.32.0"])])])
  /\ exists i, vulnerability_issue (PDict sample_fixed_match) (PStr "HIGH") = Ok i
               /\ remediation i = "Update to version 2.31.0".
Proof.
  split; [reflexivity|].
  destruct (vulnerability_issue (PDict sample_fixed_match) (PStr "HIGH")) as [i|e] eqn:E;
    [|vm_compute in E; discriminate E].
  exists i. split; [reflexivity|].
  exact (remediation_names_first_fix sample_fixed_match
           [("id", PStr "CVE-2"); ("severity", PStr "HIGH");
            ("fix", PDict [("versions", PList [PStr "2.31.0"; PStr "2.32.0"])])]
           [("versions", PList [PStr "2.31.0"; PStr "2.32.0"])]
           "2.31.0" [PStr "2.32.0"] (PStr "HIGH") i
           eq_refl eq_refl eq_refl E).
Defined.

(** X10: when a match has no fix data (no [vulnerability], no [fix] under
    it, or a [fix] that is null or empty), the remediation text of its issue
    names "latest". *)
Theorem remediation_latest_without_fix
    (m : pyval) (fix_data severity : pyval) (i : issue) :
  rbind (get m "vulnerability" (PDict [])) (fun v => get v "fix" PNone) = Ok fix_data ->
  truthy fix_data = false ->
  vulnerability_issue m severity = Ok i ->
  remediation i = "Update to version latest".
Proof.
  intros Hf Ht. unfold vulnerability_issue, fix_version, rbind in *.
  destruct (get m "artifact" (PDict [])) as [a|]; [|discriminate].
  destruct (get a "name" (PStr "Unknown")); [|discriminate].
  destruct (get m "vulnerability" (PDict [])) as [v|]; [|discriminate].
  destruct (get v "id" (PStr "vuln-scan")); [|discriminate].
  rewrite Hf, Ht. intros H. inversion H; reflexivity.
Qed.

Lemma remediation_latest_without_fix_witness :
  rbind (get (PDict sample_open_match) "vulnerability" (PDict []))
    (fun v => get v "fix" PNone) = Ok PNone
  /\ truthy PNone = false
  /\ exists i, vulnerability_issue (PDict sample_open_match) (PStr "CRITICAL") = Ok i
               /\ remediation i = "Update to version latest".
Proof.
  split; [reflexivity|]. split; [reflexivity|].
  destruct (vulnerability_issue (PDict sample_open_match) (PStr "CRITICAL"))
    as [i|e] eqn:E; [|vm_compute in E; discriminate E].
  exists i. split; [reflexivity|].
  exact (remediation_latest_without_fix (PDict sample_open_match) PNone
           (PStr "CRITICAL") i eq_refl eq_refl E).
Defined.

(* ================================================================== *)
(** ** Exceptions *)

(** X11: FileNotFoundError and JSONDecodeError never leave a loader, nor
    does KeyError leave the secret-detection or the vulnerability loader:
    their clauses catch them.  From a file that parses, only KeyError,
    TypeError or AttributeError can leave the static-analysis loader, only
    AttributeError or TypeError the secret-detection loader, only
    AttributeError, TypeError or IndexError the vulnerability loader.  Any
    other failure of [open] or [json.load] (a file that cannot be opened or
    decoded, an integer too long, nesting too deep) leaves each loader as it
    was raised, the process untouched. *)
Theorem loaders_catch_their_own_errors_only (path : string) (p : process) :
  (fst (load_semgrep_results path p) <> Raise FileNotFoundError
   /\ fst (load_semgrep_results path p) <> Raise JSONDecodeError)
  /\ (fst (load_gitleaks_results path p) <> Raise FileNotFoundError
      /\ fst (load_gitleaks_results path p) <> Raise JSONDecodeError
      /\ fst (load_gitleaks_results path p) <> Raise KeyError)
  /\ (fst (load_vulnerability_scan path p) <> Raise FileNotFoundError
      /\ fst (load_vulnerability_scan path p) <> Raise JSONDecodeError
      /\ fst (load_vulnerability_scan path p) <> Raise KeyError)
  /\ (forall data, files p path = Json data ->
        escapes (fst (load_semgrep_results path p))
          [KeyError; TypeError; AttributeError]
        /\ escapes (fst (load_gitleaks_results path p)) [AttributeError; TypeError]
        /\ escapes (fst (load_vulnerability_scan path p))
             [AttributeError; TypeError; IndexError])
  /\ (forall r, files p path = Unread r ->
        load_semgrep_results path p = (Raise (read_error_exn r), p)
        /\ load_gitleaks_results path p = (Raise (read_error_exn r), p)
        /\ load_vulnerability_scan path p = (Raise (read_error_exn r), p)).
Proof.
  split; [apply load_semgrep_results_caught|].
  split; [apply load_gitleaks_results_caught|].
  split; [apply load_vulnerability_scan_caught|].
  split.
  - intros data Hfile.
    split; [exact (load_semgrep_results_escape _ _ _ Hfile)|].
    split; [exact (load_gitleaks_results_escape _ _ _ Hfile)
           | exact (load_vulnerability_scan_escape _ _ _ Hfile)].
  - intros r Hfile.
    split; [exact (load_semgrep_results_unread _ _ _ Hfile)|].
    split; [exact (load_gitleaks_results_unread _ _ _ Hfile)
           | exact (load_vulnerability_scan_unread _ _ _ Hfile)].
Qed.

Lemma loaders_catch_their_own_errors_only_witness :
  files (sample_start (Json sample_semgrep_half) Absent sample_undecodable)
    "security-reports/pii-scan.json" = Json sample_semgrep_half
  /\ fst (load_semgrep_results "security-reports/pii-scan.json"
            (sample_start (Json sample_semgrep_half) Absent sample_undecodable))
     = Raise KeyError
  /\ files (sample_start (Json sample_semgrep_half) Absent sample_undecodable)
       "security-reports/vulnerabilities.json" = Unread Undecodable
  /\ load_vulnerability_scan "security-reports/vulnerabilities.json"
       (sample_start (Json sample_semgrep_half) Absent sample_undecodable)
     = (Raise UnicodeDecodeError,
        sample_start (Json sample_semgrep_half) Absent sample_undecodable).
Proof.
  split; [reflexivity|]. split; [vm_compute; reflexivity|]. split; [reflexivity|].
  destruct (loaders_catch_their_own_errors_only "security-reports/vulnerabilities.json"
              (sample_start (Json sample_semgrep_half) Absent sample_undecodable))
    as (_ & _ & _ & _ & Hu).
  exact (proj2 (proj2 (Hu Undecodable eq_refl))).
Defined.

(** X12: the static-analysis loader sets the risk level and the compliance
    status last: when it raises, both are as they were before the call,
    though issues may have been appended already. *)
Theorem load_semgrep_results_failure_keeps_risk
    (path : string) (p : process) (e : exn) :
  fst (load_semgrep_results path p) = Raise e ->
  risk_level (self (snd (load_semgrep_results path p))) = risk_level (self p)
  /\ compliance_status (self (snd (load_semgrep_results path p)))
     = compliance_status (self p)
  /\ exists new, security_issues (self (snd (load_semgrep_results path p)))
                 = (security_issues (self p) ++ new)%list.
Proof.
  intros He.
  destruct (load_semgrep_results_effect path p) as (n & l & v & Hs & _ & Hv & _).
  rewrite (Hv e He) in Hs. rewrite Hs.
  split; [|split; [|exists l]]; destruct n; reflexivity.
Qed.

Lemma load_semgrep_results_failure_keeps_risk_witness :
  fst (load_semgrep_results "security-reports/pii-scan.json"
         (sample_start (Json sample_semgrep_half) Absent Absent)) = Raise KeyError
  /\ risk_level (self (snd (load_semgrep_results "security-reports/pii-scan.json"
                              (sample_start (Json sample_semgrep_half) Absent Absent))))
     = LOW
  /\ List.length (security_issues
                    (self (snd (load_semgrep_results "security-reports/pii-scan.json"
                                  (sample_start (Json sample_semgrep_half) Absent Absent)))))
     = 1.
Proof.
  assert (H : fst (load_semgrep_results "security-reports/pii-scan.json"
                     (sample_start (Json sample_semgrep_half) Absent Absent))
              = Raise KeyError) by (vm_compute; reflexivity).
  split; [exact H|]. split; [|vm_compute; reflexivity].
  exact (proj1 (load_semgrep_results_failure_keeps_risk _ _ _ H)).
Defined.

(* ================================================================== *)
(** ** Whole runs *)

(** X13: whatever the three files hold and however the run ends, every
    issue the generator holds at the end was built by one of the three
    loaders, the scan date is the time the generator was created, and the
    project name and the framework are the constants of the constructor. *)
Theorem run_holds_loader_issues_only (fs : string -> file_input) (now : string) :
  Forall from_a_loader (security_issues (self (snd (run fs now))))
  /\ scan_date (self (snd (run fs now))) = now
  /\ project_name (self (snd (run fs now))) = "GDPR-Compliant DevSecOps Pipeline"
  /\ compliance_framework (self (snd (run fs now)))
     = "UK GDPR + DevSecOps Best Practices".
Proof.
  rewrite run_eq. cbn [snd].
  destruct (main_issues fs now) as (-> & -> & -> & -> & _).
  destruct (loaded_from_start fs now) as (H1 & _ & H2 & H3 & H4 & _).
  split; [exact H1|]. split; [exact H2|]. split; [exact H3 | exact H4].
Qed.

(** X14: in a run, an issue whose impact text mentions GDPR (the test of
    the GDPR badge and of the GDPR recommendations) is a static-analysis
    issue whose rule identifier ends in the segment
    "hardcoded-personal-data": no secret and no vulnerable dependency ever
    gets the badge. *)
Theorem gdpr_mention_needs_personal_data_rule
    (fs : string -> file_input) (now : string) (i : issue) :
  In i (security_issues (self (snd (run fs now)))) ->
  contains "GDPR" (business_impact i) = true ->
  type i = "GDPR Compliance Violation"
  /\ exists s, rule_id i = PStr s /\ last_segment s = "hardcoded-personal-data".
Proof.
  intros Hin Hc. apply from_a_loader_gdpr; [|exact Hc].
  rewrite run_eq in Hin. cbn [snd] in Hin.
  destruct (main_issues fs now) as (E & _). rewrite E in Hin.
  destruct (loaded_from_start fs now) as (H1 & _).
  rewrite Forall_forall in H1. exact (H1 i Hin).
Qed.

Lemma gdpr_mention_needs_personal_data_rule_witness :
  exists i,
    In i (security_issues
            (self (snd (run (directory (Json sample_semgrep) (Json sample_gitleaks)
                               (Json sample_vulnerabilities)) sample_now))))
    /\ contains "GDPR" (business_impact i) = true
    /\ type i = "GDPR Compliance Violation"
    /\ rule_id i = PStr "rules.gdpr.hardcoded-personal-data".
Proof.
  destruct (security_issues
              (self (snd (run (directory (Json sample_semgrep) (Json sample_gitleaks)
                                 (Json sample_vulnerabilities)) sample_now))))
    as [|i l] eqn:E; [vm_compute in E; discriminate E|].
  exists i.
  assert (Hin : In i (security_issues
            (self (snd (run (directory (Json sample_semgrep) (Json sample_gitleaks)
                               (Json sample_vulnerabilities)) sample_now)))))
    by (rewrite E; left; reflexivity).
  assert (Hc : contains "GDPR" (business_impact i) = true)
    by (vm_compute in E; inversion E; vm_compute; reflexivity).
  split; [rewrite <- E; exact Hin|]. split; [exact Hc|].
  split; [exact (proj1 (gdpr_mention_needs_personal_data_rule _ _ i Hin Hc))|].
  vm_compute in E; inversion E; reflexivity.
Defined.

(** X15: the template renders exactly the generators whose issues all have
    a text as severity: [issue.severity.lower()] fails on anything else. *)
Theorem render_needs_text_severities (d : report_data) :
  (exists html, render d = Ok html) <-> severities_are_text d.
Proof.
  split.
  - intros (html & H). exact (render_ok_text d html H).
  - apply render_text.
Qed.

(** X16: when every scanner value the report shows is a text or an
    integer, a run ends in one of two ways, whatever else the three files
    hold.  Either the exit code is 0, the one file written is the rendering
    of the final generator, which holds no lone surrogate, and the two
    closing lines are the last lines printed; or the exit code is 1, the
    report is not written or is left empty, and nothing is printed after
    the lines of the loaders. *)
Theorem run_writes_report_or_fails (fs : string -> file_input) (now : string) :
  plain_inputs fs = true ->
  (fst (run fs now) = 0
   /\ exists html log,
        render (self (snd (run fs now))) = Ok html
        /\ encodable html
        /\ written (snd (run fs now)) = [("security-reports/executive-report.html", html)]
        /\ stdout (snd (run fs now))
           = (log ++ closing_lines (self (snd (run fs now))))%list)
  \/ (fst (run fs now) = 1
      /\ (written (snd (run fs now)) = []
          \/ written (snd (run fs now))
             = [("security-reports/executive-report.html", EmptyString)])
      /\ stdout (snd (run fs now)) = stdout (snd (load_all (start fs now)))).
Proof.
  intros _.
  destruct (loaded_from_start fs now) as (_ & _ & _ & _ & _ & _ & Hw).
  destruct (fst (load_all (start fs now))) as [[]|e] eqn:Hok.
  - destruct (render (set_recommendations
                        (recommended (self (snd (load_all (start fs now)))))
                        (self (snd (load_all (start fs now)))))) as [html|e] eqn:Er.
    + destruct (has_surrogate html) eqn:He.
      * right. rewrite (run_truncates fs now html Hok Er He).
        cbn [fst snd written stdout]. split; [reflexivity|].
        split; [right|]; reflexivity.
      * left. rewrite (run_writes fs now html Hok Er He).
        cbn [fst snd self written stdout]. split; [reflexivity|].
        exists html, (stdout (snd (load_all (start fs now)))).
        split; [exact Er|]. split; [exact He|]. split; reflexivity.
    + right. rewrite run_eq, main_outcome, Hok. cbv zeta. rewrite Er.
      cbn [fst snd exit_code written stdout with_self]. split; [reflexivity|].
      split; [left; exact Hw | reflexivity].
  - right. rewrite run_eq, main_outcome, Hok.
    cbn [fst snd exit_code]. split; [reflexivity|].
    split; [left; exact Hw | reflexivity].
Qed.

Lemma run_writes_report_or_fails_witness :
  plain_inputs (directory Absent (Json sample_gitleaks_surrogate) Absent) = true
  /\ fst (run (directory Absent (Json sample_gitleaks_surrogate) Absent) sample_now) = 1
  /\ (written (snd (run (directory Absent (Json sample_gitleaks_surrogate) Absent)
                      sample_now)) = []
      \/ written (snd (run (directory Absent (Json sample_gitleaks_surrogate) Absent)
                         sample_now))
         = [("security-reports/executive-report.html", EmptyString)]).
Proof.
  split; [reflexivity|].
  destruct (run_writes_report_or_fails
              (directory Absent (Json sample_gitleaks_surrogate) Absent) sample_now
              eq_refl) as [(H0 & _) | (H1 & Hw & _)].
  - vm_compute in H0. discriminate H0.
  - split; [exact H1 | exact Hw].
Defined.





(** X19: the recommender returns normally and changes nothing but the
    recommendations.  With no issue it replaces whatever was recommended
    before by the three defaults; with issues it keeps what was recommended
    before and only appends. *)
Theorem generate_recommendations_replaces_or_extends (p : process) :
  exists recs,
    generate_recommendations p
    = (Ok tt, {| files := files p; self := set_recommendations recs (self p);
                 stdout := stdout p; written := written p |})
    /\ match security_issues (self p) with
       | [] => recs = default_recommendations
       | _ :: _ => exists more, recs = (recommendations (self p) ++ more)%list
       end.
Proof.
  exists (recommended (self p)). split; [apply generate_recommendations_eq|].
  unfold recommended. destruct (security_issues (self p)); [reflexivity|].
  eexists. reflexivity.
Qed.

(** X20: the recommender extends the list in place, so a second call on a
    generator with issues appends the same block again; with no issue the
    second call changes nothing. *)
Theorem generate_recommendations_twice (p : process) :
  recommendations
    (self (snd (generate_recommendations (snd (generate_recommendations p)))))
  = match security_issues (self p) with
    | [] => default_recommendations
    | _ :: _ =>
        let block :=
          ((if (0 <? high_severity_count (security_issues (self p)))%nat
            then high_severity_recommendations
                   (high_severity_count (security_issues (self p)))
            else [])
           ++ (if any_gdpr (security_issues (self p)) then gdpr_recommendations
               else []))%list in
        (recommendations (self p) ++ block ++ block)%list
    end.
Proof.
  rewrite !generate_recommendations_eq. cbn [snd self with_self]. unfold recommended.
  cbn [security_issues recommendations set_recommendations].
  destruct (security_issues (self p)) as [|i l]; [reflexivity|].
  cbv zeta. rewrite <- !app_assoc. reflexivity.
Qed.

(** X21: in a run that exits with 0 the recommendations of the report are
    decided by the final issues alone: the three defaults when there is
    none; otherwise the high-severity block, if an issue is HIGH or
    CRITICAL, followed by the GDPR block, if an impact text mentions GDPR,
    and nothing else. *)
Theorem run_recommends_from_final_issues (fs : string -> file_input) (now : string) :
  fst (run fs now) = 0 ->
  recommendations (self (snd (run fs now)))
  = match security_issues (self (snd (run fs now))) with
    | [] => default_recommendations
    | _ :: _ =>
        ((if (0 <? high_severity_count (security_issues (self (snd (run fs now)))))%nat
          then high_severity_recommendations
                 (high_severity_count (security_issues (self (snd (run fs now)))))
          else [])
         ++ (if any_gdpr (security_issues (self (snd (run fs now))))
             then gdpr_recommendations else []))%list
    end.
Proof.
  rewrite run_eq. cbn [fst snd]. rewrite main_outcome.
  destruct (loaded_from_start fs now) as (_ & Hr & _).
  destruct (fst (load_all (start fs now))) as [[]|e]; [|discriminate].
  cbv zeta. destruct (render _) as [html|e]; [|discriminate].
  destruct (has_surrogate html); [discriminate|]. intros _.
  cbn [snd self recommendations security_issues set_recommendations].
  unfold recommended. rewrite Hr. reflexivity.
Qed.

Lemma run_recommends_from_final_issues_witness :
  fst (run (directory Absent Absent (Json sample_critical_vulnerability)) sample_now) = 0
  /\ recommendations
       (self (snd (run (directory Absent Absent (Json sample_critical_vulnerability))
                     sample_now)))
     = ["IMMEDIATE ACTION: Address 1 high/critical severity issues";
        "Implement mandatory security training for development team";
        "Review and strengthen code review processes"].
Proof.
  assert (H : fst (run (directory Absent Absent (Json sample_critical_vulnerability))
                     sample_now) = 0) by (vm_compute; reflexivity).
  split; [exact H|].
  etransitivity; [exact (run_recommends_from_final_issues _ _ H)|].
  vm_compute. reflexivity.
Defined.

(** X22: when the three scanner files have their shapes, the loaders
    together return normally and the issues are those of the static
    analysis, then those of the secret detection, then the reported
    vulnerabilities, each group in the order of its file; the count of
    scanned files is that of the static analysis. *)
Theorem load_all_orders_issues (p : process) (semgrep gitleaks vulnerabilities : pyval) :
  files p "security-reports/pii-scan.json" = Json semgrep ->
  semgrep_shape semgrep = true ->
  files p "security-reports/gitleaks-report.json" = Json gitleaks ->
  gitleaks_shape gitleaks = true ->
  files p "security-reports/vulnerabilities.json" = Json vulnerabilities ->
  vulnerability_shape vulnerabilities = true ->
  exists from_semgrep from_gitleaks from_scan,
    fst (load_all p) = Ok tt
    /\ security_issues (self (snd (load_all p)))
       = (security_issues (self p) ++ from_semgrep ++ from_gitleaks ++ from_scan)%list
    /\ total_files_scanned (self (snd (load_all p))) = List.length (scanned_of semgrep)
    /\ Forall2 issue_of_result from_semgrep (results_of semgrep)
    /\ Forall2 issue_of_finding from_gitleaks (findings_of gitleaks)
    /\ Forall2 issue_of_match from_scan (filter reported (matches_of vulnerabilities)).
Proof.
  intros F1 S1 F2 S2 F3 S3. unfold load_all.
  destruct (load_semgrep_results_shape _ p semgrep F1 S1) as (l1 & E1 & R1).
  rewrite (bind_ok _ _ _ _ _ E1).
  set (p1 := with_verdict (static_analysis_rule (results_of semgrep))
               (add_issues l1 (with_scanned (List.length (scanned_of semgrep)) p))) in *.
  destruct (load_gitleaks_results_shape "security-reports/gitleaks-report.json"
              p1 gitleaks F2 S2) as (l2 & E2 & R2).
  rewrite (bind_ok _ _ _ _ _ E2).
  assert (F3' : files (after_gitleaks l2 p1) "security-reports/vulnerabilities.json"
                = Json vulnerabilities) by (destruct l2; exact F3).
  destruct (load_vulnerability_scan_shape "security-reports/vulnerabilities.json"
              (after_gitleaks l2 p1) vulnerabilities F3' S3) as (l3 & E3 & R3).
  rewrite E3. exists l1, l2, l3. cbn [fst snd].
  split; [reflexivity|].
  split; [|split; [|split; [exact R1 | split; [exact R2 | exact R3]]]].
  - destruct l2 as [|i l2]; cbn [after_gitleaks add_issues with_self self
      security_issues set_security_issues set_risk_level set_compliance_status
      p1 with_verdict with_scanned set_total_files_scanned];
      unfold p1, with_verdict, add_issues, with_scanned, with_self;
      cbn [self security_issues set_security_issues set_risk_level
           set_compliance_status set_total_files_scanned];
      rewrite <- ?app_assoc; rewrite ?app_nil_l; reflexivity.
  - destruct l2 as [|i l2]; reflexivity.
Qed.

Lemma load_all_orders_issues_witness :
  semgrep_shape sample_semgrep = true
  /\ gitleaks_shape sample_gitleaks = true
  /\ vulnerability_shape sample_vulnerabilities = true
  /\ exists from_semgrep from_gitleaks from_scan,
       security_issues
         (self (snd (load_all (sample_start (Json sample_semgrep) (Json sample_gitleaks)
                                 (Json sample_vulnerabilities)))))
       = (from_semgrep ++ from_gitleaks ++ from_scan)%list
       /\ Forall2 issue_of_result from_semgrep (results_of sample_semgrep)
       /\ Forall2 issue_of_finding from_gitleaks (findings_of sample_gitleaks)
       /\ Forall2 issue_of_match from_scan
            (filter reported (matches_of sample_vulnerabilities)).
Proof.
  split; [reflexivity|]. split; [reflexivity|]. split; [reflexivity|].
  destruct (load_all_orders_issues
              (sample_start (Json sample_semgrep) (Json sample_gitleaks)
                 (Json sample_vulnerabilities))
              sample_semgrep sample_gitleaks sample_vulnerabilities
              eq_refl eq_refl eq_refl eq_refl eq_refl eq_refl)
    as (l1 & l2 & l3 & _ & Hi & _ & R1 & R2 & R3).
  exists l1, l2, l3. split; [exact Hi|]. split; [exact R1|]. split; [exact R2 | exact R3].
Defined.



(* ================================================================== *)
(** ** The report *)

(** X24: for every issue whose severity is an ASCII text the report
    carries the severity badge, whose class is the severity in lower case
    and whose text is the severity as given, directly followed by the GDPR
    badge when the impact text of the issue mentions GDPR and by nothing
    otherwise. *)
Theorem report_badges_each_issue
    (d : report_data) (html : string) (i : issue) (s : string) :
  render d = Ok html ->
  In i (security_issues d) ->
  severity i = PStr s ->
  is_ascii s = true ->
  substring_of
    (severity_badge_open ++ lower s ++ severity_badge_mid ++ s
     ++ severity_badge_close
     ++ (if contains "GDPR" (business_impact i) then gdpr_badge else EmptyString)
     ++ issue_file_open)
    html.
Proof.
  intros Hr Hin Es _.
  destruct (render_parts _ _ Hr) as (_ & _ & findings & Hf & Hsub).
  destruct (render_findings_in _ _ _ Hf Hin) as (a & Ha & Hsa).
  unfold render_issue, rbind in Ha. rewrite Es in Ha. cbn [lower_method str] in Ha.
  apply Ok_inj in Ha.
  apply (substring_of_trans _ a); [|exact (substring_of_trans _ _ _ Hsa Hsub)].
  exists (issue_open ++ str (message i)),
    (str (file i) ++ issue_line_open ++ str (line i) ++ issue_impact_open
     ++ business_impact i ++ issue_action_open ++ remediation i ++ issue_close).
  rewrite <- Ha. rewrite !append_assoc. reflexivity.
Qed.

Lemma report_badges_each_issue_witness :
  render (self (snd (load_all (sample_start (Json sample_semgrep) Absent Absent))))
  = Ok (rendered (self (snd (load_all (sample_start (Json sample_semgrep) Absent Absent)))))
  /\ is_ascii "ERROR" = true
  /\ exists i,
       In i (security_issues
               (self (snd (load_all (sample_start (Json sample_semgrep) Absent Absent)))))
       /\ severity i = PStr "ERROR"
       /\ substring_of
            (severity_badge_open ++ "error" ++ severity_badge_mid ++ "ERROR"
             ++ severity_badge_close
             ++ (if contains "GDPR" (business_impact i) then gdpr_badge else EmptyString)
             ++ issue_file_open)
            (rendered (self (snd (load_all
               (sample_start (Json sample_semgrep) Absent Absent))))).
Proof.
  assert (Hr : render (self (snd (load_all
                 (sample_start (Json sample_semgrep) Absent Absent))))
               = Ok (rendered (self (snd (load_all
                       (sample_start (Json sample_semgrep) Absent Absent))))))
    by (vm_compute; reflexivity).
  split; [exact Hr|]. split; [reflexivity|].
  destruct (security_issues
              (self (snd (load_all (sample_start (Json sample_semgrep) Absent Absent)))))
    as [|i l] eqn:E; [vm_compute in E; discriminate E|].
  assert (Hin : In i (security_issues
               (self (snd (load_all (sample_start (Json sample_semgrep) Absent Absent))))))
    by (rewrite E; left; reflexivity).
  assert (Hs : severity i = PStr "ERROR")
    by (vm_compute in E; inversion E; reflexivity).
  exists i. split; [left; reflexivity|]. split; [exact Hs|].
  exact (report_badges_each_issue _ _ i "ERROR" Hr Hin Hs eq_refl).
Defined.

(** X25: the report carries the scan date after "Generated: " in its
    header and every recommendation, verbatim, as one list item. *)
Theorem report_carries_date_and_recommendations (d : report_data) (html : string) :
  render d = Ok html ->
  substring_of ("<p>Generated: " ++ scan_date d) html
  /\ forall r, In r (recommendations d) ->
               substring_of (recommendation_open ++ r ++ recommendation_close) html.
Proof.
  intros Hr. split.
  - unfold render, rbind in Hr.
    destruct (render_findings (security_issues d)) as [findings|e]; [|discriminate].
    apply Ok_inj in Hr.
    assert (Hh : exists pre, header_open = pre ++ "<p>Generated: ").
    { exists (substring 0 (String.length header_open - 14) header_open).
      vm_compute. reflexivity. }
    destruct Hh as (pre & Hh).
    exists (html_open ++ stylesheet ++ pre),
      (render_summary d ++ render_executive d ++ executive_close ++ findings
       ++ recommendations_open ++ render_recommendations (recommendations d)
       ++ html_close).
    rewrite <- Hr, Hh. rewrite !append_assoc. reflexivity.
  - intros r Hin. destruct (render_parts _ _ Hr) as (_ & Hrec & _).
    exact (substring_of_trans _ _ _ (render_recommendations_in _ _ Hin) Hrec).
Qed.

Lemma report_carries_date_and_recommendations_witness :
  render (set_recommendations default_recommendations (init sample_now))
  = Ok (rendered (set_recommendations default_recommendations (init sample_now)))
  /\ substring_of "<p>Generated: 2024-01-01 00:00:00 UTC"
       (rendered (set_recommendations default_recommendations (init sample_now)))
  /\ substring_of
       (recommendation_open ++ "Continue current security practices"
        ++ recommendation_close)
       (rendered (set_recommendations default_recommendations (init sample_now))).
Proof.
  assert (Hr : render (set_recommendations default_recommendations (init sample_now))
               = Ok (rendered (set_recommendations default_recommendations
                                 (init sample_now))))
    by (vm_compute; reflexivity).
  split; [exact Hr|].
  destruct (report_carries_date_and_recommendations _ _ Hr) as (Hd & Hrec).
  split; [exact Hd|]. apply Hrec. left. reflexivity.
Defined.

(* ================================================================== *)
(** ** The vulnerability loader and the summary tiles *)

(** X26: on a vulnerability file of the documented shape in which every
    [fix], when present, lists at least one version, the loader ends
    normally and appends, in order, one issue of type "Dependency
    Vulnerability" for each match that states severity HIGH or CRITICAL, and
    nothing for any other match (a match without severity included); when no
    match states HIGH or CRITICAL, [security_issues] is as it was. *)
Theorem load_vulnerability_scan_reports_high_and_critical
    (path : string) (p : process) (data : pyval) :
  files p path = Json data ->
  vulnerability_shape data = true ->
  exists new,
    fst (load_vulnerability_scan path p) = Ok tt
    /\ security_issues (self (snd (load_vulnerability_scan path p)))
       = (security_issues (self p) ++ new)%list
    /\ Forall2 issue_of_match new (filter reported (matches_of data))
    /\ (forallb (fun m => negb (reported m)) (matches_of data) = true ->
        security_issues (self (snd (load_vulnerability_scan path p)))
        = security_issues (self p)).
Proof.
  intros Hfile Hshape.
  destruct (load_vulnerability_scan_shape path p data Hfile Hshape) as (new & -> & Hall).
  exists new. split; [reflexivity|]. split; [reflexivity|]. split; [exact Hall|].
  intros Hnone. rewrite (filter_none_reported _ Hnone) in Hall.
  inversion Hall; subst. simpl. now rewrite app_nil_r.
Qed.

Lemma load_vulnerability_scan_reports_high_and_critical_witness :
  files (sample_start Absent Absent (Json sample_vulnerabilities))
    "security-reports/vulnerabilities.json"
  = Json sample_vulnerabilities
  /\ vulnerability_shape sample_vulnerabilities = true
  /\ exists new,
      fst (load_vulnerability_scan "security-reports/vulnerabilities.json"
             (sample_start Absent Absent (Json sample_vulnerabilities))) = Ok tt
      /\ security_issues
           (self (snd (load_vulnerability_scan "security-reports/vulnerabilities.json"
                         (sample_start Absent Absent (Json sample_vulnerabilities)))))
         = (security_issues
              (self (sample_start Absent Absent (Json sample_vulnerabilities)))
            ++ new)%list
      /\ Forall2 issue_of_match new
           (filter reported (matches_of sample_vulnerabilities)).
Proof.
  split; [reflexivity|]. split; [reflexivity|].
  destruct (load_vulnerability_scan_reports_high_and_critical
              "security-reports/vulnerabilities.json"
              (sample_start Absent Absent (Json sample_vulnerabilities))
              sample_vulnerabilities eq_refl eq_refl)
    as (new & H1 & H2 & H3 & _).
  exists new. split; [exact H1|]. split; [exact H2|]. exact H3.
Defined.

(** X27: of the four summary tiles, the risk tile carries the class
    "risk-" followed by the lowercased risk level, which the style sheet has
    a rule for at each of the four levels; the compliance tile carries the
    lowercased status with each dash turned into an underscore, which for
    COMPLIANT is "compliant", a class of the style sheet; the issue-count
    and files-scanned tiles carry the class "value" alone. *)
Theorem summary_tile_classes (d : report_data) (html : string) :
  render d = Ok html ->
  substring_of (value_tag ("value " ++ risk_class (risk_level d))
                ++ risk_str (risk_level d) ++ "</div>") html
  /\ defines_class stylesheet (risk_class (risk_level d)) = true
  /\ substring_of (value_tag ("value " ++ compliance_class (compliance_status d))
                   ++ compliance_str (compliance_status d) ++ "</div>") html
  /\ compliance_class COMPLIANT = "compliant"
  /\ defines_class stylesheet "compliant" = true
  /\ substring_of (value_tag "value" ++ nat_str (List.length (security_issues d))
                   ++ "</div>") html
  /\ substring_of (value_tag "value" ++ nat_str (total_files_scanned d)
                   ++ "</div>") html.
Proof.
  intros Hr. destruct (render_parts _ _ Hr) as (Hs & _).
  assert (Hall : forall x, substring_of x (render_summary d) -> substring_of x html)
    by (intros x Hx; eapply substring_of_trans; eassumption).
  unfold render_summary in Hall.
  split; [|split; [|split; [|split; [|split; [|split]]]]].
  - apply Hall.
    exists (substring 0 (String.length risk_tile_open - 23) risk_tile_open).
    exists (substring 6 (String.length compliance_tile_open - 6) compliance_tile_open
            ++ compliance_class (compliance_status d)
            ++ compliance_tile_mid ++ compliance_str (compliance_status d)
            ++ count_tile_open ++ nat_str (List.length (security_issues d))
            ++ files_tile_open ++ nat_str (total_files_scanned d)
            ++ summary_close).
    unfold value_tag, risk_class. rewrite !append_assoc.
    destruct (risk_level d); reflexivity.
  - destruct (risk_level d); vm_compute; reflexivity.
  - apply Hall.
    exists (risk_tile_open ++ lower (risk_str (risk_level d)) ++ risk_tile_mid
            ++ risk_str (risk_level d)
            ++ substring 0 (String.length compliance_tile_open - 18) compliance_tile_open).
    exists (substring 6 (String.length count_tile_open - 6) count_tile_open
            ++ nat_str (List.length (security_issues d))
            ++ files_tile_open ++ nat_str (total_files_scanned d)
            ++ summary_close).
    unfold value_tag. rewrite !append_assoc.
    destruct (risk_level d); destruct (compliance_status d); reflexivity.
  - reflexivity.
  - vm_compute. reflexivity.
  - apply Hall.
    exists (risk_tile_open ++ lower (risk_str (risk_level d)) ++ risk_tile_mid
            ++ risk_str (risk_level d)
            ++ compliance_tile_open ++ compliance_class (compliance_status d)
            ++ compliance_tile_mid ++ compliance_str (compliance_status d)
            ++ substring 0 (String.length count_tile_open - 19) count_tile_open).
    exists (substring 6 (String.length files_tile_open - 6) files_tile_open
            ++ nat_str (total_files_scanned d)
            ++ summary_close).
    unfold value_tag. rewrite !append_assoc.
    destruct (risk_level d); destruct (compliance_status d); reflexivity.
  - apply Hall.
    exists (risk_tile_open ++ lower (risk_str (risk_level d)) ++ risk_tile_mid
            ++ risk_str (risk_level d)
            ++ compliance_tile_open ++ compliance_class (compliance_status d)
            ++ compliance_tile_mid ++ compliance_str (compliance_status d)
            ++ count_tile_open ++ nat_str (List.length (security_issues d))
            ++ substring 0 (String.length files_tile_open - 19) files_tile_open).
    exists (substring 6 (String.length summary_close - 6) summary_close).
    unfold value_tag. rewrite !append_assoc.
    destruct (risk_level d); destruct (compliance_status d); reflexivity.
Qed.

Lemma summary_tile_classes_witness :
  render (self (snd (load_all (sample_start (Json sample_semgrep) Absent Absent))))
  = Ok (rendered (self (snd (load_all (sample_start (Json sample_semgrep) Absent Absent)))))
  /\ substring_of (value_tag "value risk-high" ++ "HIGH" ++ "</div>")
       (rendered (self (snd (load_all (sample_start (Json sample_semgrep) Absent Absent)))))
  /\ defines_class stylesheet "risk-high" = true.
Proof.
  assert (H : render (self (snd (load_all
                (sample_start (Json sample_semgrep) Absent Absent))))
              = Ok (rendered (self (snd (load_all
                      (sample_start (Json sample_semgrep) Absent Absent))))))
    by (vm_compute; reflexivity).
  split; [exact H|].
  split.
  - exact (proj1 (summary_tile_classes _ _ H)).
  - exact (proj1 (proj2 (summary_tile_classes _ _ H))).
Defined.
